(** * The session store of the AI agent application

    A shallow embedding of [modules/session_manager.py] (class
    [SessionManager]) and of the dispatcher [clear_memory] of
    [modules/application_controller.py], with the properties of the
    persistence layer stated and proved over it.

    What the embedding covers and how:

    - Python values are the inductive [pyval]: [None], booleans, integers,
      strings, lists, tuples, dictionaries and sets.  Floating point numbers
      and [bytes] are outside the fragment.
    - A JSON text is represented by the document it denotes ([json]); what
      [json.dumps] and [json.loads] do to the *values* (tuples become
      arrays, dictionary keys become strings, repeated keys collapse) is
      modelled, the concrete syntax is not.
    - The SQLite file is a record of four tables.  The three tables declared
      [INTEGER PRIMARY KEY AUTOINCREMENT] carry their [sqlite_sequence]
      counter; rows are kept in storage (rowid) order.
    - Every method body runs in the monad [M]: it reads the clock, may be hit
      by an environment fault at any I/O step (a schedule of faults is part
      of the environment), may raise, and changes the database only when it
      commits.  The [try]/[except Exception] of each method is [try_except].
    - The [print] of a handler appends to [stdout] and does not fail.  The
      files that [export_all_data] writes and [import_data] reads are kept
      apart from the database file.  A table whose row ids are exhausted
      counts among the environment faults of [execute].

    The last part of the file follows the store into its callers: the
    conversation context of [modules/nlp_module.py] ([NLPModule]), and, of
    [ApplicationController], the loading of the configuration, the API keys
    kept in the preferences and [clear_memory] with the in-memory state of
    the modules.  The calls to the network, to the HTML parser and to the
    data frames are not modelled. *)

From Stdlib Require Import ZArith String List Lia Bool Sorted.
From stdpp Require Import base list strings gmap pretty.

#[local] Set Warnings "-register-all".
#[local] Open Scope string_scope.
#[local] Open Scope list_scope.
#[local] Open Scope Z_scope.

(* ===================================================================== *)
(** ** Exceptions and outcomes *)
(* ===================================================================== *)

(** The exception classes that the modelled statements can raise; all of
    them derive from [Exception]. *)
Inductive exn : Type :=
  | TypeError
  | KeyError
  | AttributeError
  | OverflowError
  | InterfaceError
  | OperationalError
  | OSError
  | JSONDecodeError.

Inductive outcome (A : Type) : Type :=
  | Ret (a : A)
  | Raise (e : exn).
Arguments Ret {A} a.
Arguments Raise {A} e.

Definition obind {A B} (o : outcome A) (k : A -> outcome B) : outcome B :=
  match o with
  | Ret a => k a
  | Raise e => Raise e
  end.

Definition is_ret {A} (o : outcome A) : bool :=
  match o with Ret _ => true | Raise _ => false end.

(* ===================================================================== *)
(** ** Python values *)
(* ===================================================================== *)

(** Dictionary keys and set elements: the hashable scalars. *)
Inductive pykey : Type :=
  | KNone
  | KBool (b : bool)
  | KInt (z : Z)
  | KStr (s : string).

Inductive pyval : Type :=
  | PyNone
  | PyBool (b : bool)
  | PyInt (z : Z)
  | PyStr (s : string)
  | PyList (l : list pyval)
  | PyTuple (l : list pyval)
  | PyDict (d : list (pykey * pyval))
  | PySet (l : list pykey).

Definition key_val (k : pykey) : pyval :=
  match k with
  | KNone => PyNone
  | KBool b => PyBool b
  | KInt z => PyInt z
  | KStr s => PyStr s
  end.

(** [k1 == k2] on keys: [True == 1] and [False == 0], strings and [None]
    equal only themselves. *)
Definition key_num (k : pykey) : option Z :=
  match k with
  | KBool b => Some (if b then 1 else 0)
  | KInt z => Some z
  | _ => None
  end.

Definition key_eqb (k1 k2 : pykey) : bool :=
  match k1, k2 with
  | KNone, KNone => true
  | KStr s1, KStr s2 => String.eqb s1 s2
  | _, _ =>
      match key_num k1, key_num k2 with
      | Some z1, Some z2 => Z.eqb z1 z2
      | _, _ => false
      end
  end.

(** [d[k]] as a lookup, [d[k] = v] as an update: an existing key keeps its
    place (and its key object), a new key goes last. *)
Fixpoint dict_get (d : list (pykey * pyval)) (k : pykey) : option pyval :=
  match d with
  | [] => None
  | (k', v) :: d' => if key_eqb k' k then Some v else dict_get d' k
  end.

Fixpoint dict_set (d : list (pykey * pyval)) (k : pykey) (v : pyval)
  : list (pykey * pyval) :=
  match d with
  | [] => [(k, v)]
  | (k', v') :: d' =>
      if key_eqb k' k then (k', v) :: d' else (k', v') :: dict_set d' k v
  end.

(** [dict(pairs)] and dictionary comprehensions. *)
Definition dict_of_pairs (ps : list (pykey * pyval)) : list (pykey * pyval) :=
  fold_left (fun d p => dict_set d (fst p) (snd p)) ps [].

(* ===================================================================== *)
(** ** JSON documents, [json.dumps] and [json.loads] *)
(* ===================================================================== *)

Inductive json : Type :=
  | JNull
  | JBool (b : bool)
  | JNum (z : Z)
  | JStr (s : string)
  | JArr (l : list json)
  | JObj (m : list (string * json)).

(** The encoder's treatment of a dictionary key: strings as they are,
    [True]/[False]/[None] as [true]/[false]/[null], integers in decimal. *)
Definition json_key (k : pykey) : string :=
  match k with
  | KStr s => s
  | KBool true => "true"
  | KBool false => "false"
  | KNone => "null"
  | KInt z => pretty z
  end.

Fixpoint dumps (v : pyval) : outcome json :=
  match v with
  | PyNone => Ret JNull
  | PyBool b => Ret (JBool b)
  | PyInt z => Ret (JNum z)
  | PyStr s => Ret (JStr s)
  | PyList l | PyTuple l =>
      obind
        ((fix items (l : list pyval) : outcome (list json) :=
            match l with
            | [] => Ret []
            | x :: r =>
                obind (dumps x) (fun j =>
                obind (items r) (fun js => Ret (j :: js)))
            end) l)
        (fun js => Ret (JArr js))
  | PyDict d =>
      obind
        ((fix members (d : list (pykey * pyval))
            : outcome (list (string * json)) :=
            match d with
            | [] => Ret []
            | (k, x) :: r =>
                obind (dumps x) (fun j =>
                obind (members r) (fun js => Ret ((json_key k, j) :: js)))
            end) d)
        (fun js => Ret (JObj js))
  | PySet _ => Raise TypeError
  end.

Definition dumps_items : list pyval -> outcome (list json) :=
  fix items (l : list pyval) : outcome (list json) :=
    match l with
    | [] => Ret []
    | x :: r =>
        obind (dumps x) (fun j =>
        obind (items r) (fun js => Ret (j :: js)))
    end.

Definition dumps_members
  : list (pykey * pyval) -> outcome (list (string * json)) :=
  fix members (d : list (pykey * pyval)) : outcome (list (string * json)) :=
    match d with
    | [] => Ret []
    | (k, x) :: r =>
        obind (dumps x) (fun j =>
        obind (members r) (fun js => Ret ((json_key k, j) :: js)))
    end.

Fixpoint loads (j : json) : pyval :=
  match j with
  | JNull => PyNone
  | JBool b => PyBool b
  | JNum z => PyInt z
  | JStr s => PyStr s
  | JArr l => PyList (map loads l)
  | JObj m => PyDict (dict_of_pairs (map (fun '(k, x) => (KStr k, loads x)) m))
  end.

Example dumps_tuple :
  dumps (PyTuple [PyInt 1; PyStr "a"]) = Ret (JArr [JNum 1; JStr "a"]).
Proof. reflexivity. Qed.

Example dumps_int_key :
  dumps (PyDict [(KInt 1, PyStr "a"); (KStr "1", PyStr "b")])
  = Ret (JObj [("1", JStr "a"); ("1", JStr "b")]).
Proof. reflexivity. Qed.

Example loads_repeated_key :
  loads (JObj [("1", JStr "a"); ("k", JNull); ("1", JStr "b")])
  = PyDict [(KStr "1", PyStr "b"); (KStr "k", PyNone)].
Proof. reflexivity. Qed.

(* ===================================================================== *)
(** ** The SQLite tables *)
(* ===================================================================== *)

(** A value stored in a column declared [TEXT]: [NULL] or a text. *)
Definition sqlval : Type := option string.

Definition int64_min : Z := -9223372036854775808.
Definition int64_max : Z := 9223372036854775807.

(** Binding a Python [int] to a statement parameter: the [sqlite3] module
    refuses integers that do not fit in 64 bits. *)
Definition bind_integer (z : Z) : outcome Z :=
  if (int64_min <=? z) && (z <=? int64_max) then Ret z
  else Raise OverflowError.

(** Binding a Python value to a parameter stored in a [TEXT] column: [None]
    is [NULL], integers (and booleans, which are integers) are converted to
    text by the column affinity, containers are not supported. *)
Definition bind_text (v : pyval) : outcome sqlval :=
  match v with
  | PyNone => Ret None
  | PyStr s => Ret (Some s)
  | PyBool b => Ret (Some (if b then "1" else "0"))
  | PyInt z => obind (bind_integer z) (fun z => Ret (Some (pretty z)))
  | PyList _ | PyTuple _ | PyDict _ | PySet _ => Raise InterfaceError
  end.

(** What a [TEXT] column gives back in a fetched row. *)
Definition fetch_text (c : sqlval) : pyval :=
  match c with
  | None => PyNone
  | Some s => PyStr s
  end.

Record row (C : Type) : Type := Row { rowid : Z; cols : C }.
Arguments Row {C} rowid cols.
Arguments rowid {C} r.
Arguments cols {C} r.

(** A table with [id INTEGER PRIMARY KEY AUTOINCREMENT]: its rows in storage
    order and its entry [seq] in [sqlite_sequence]. *)
Record table (C : Type) : Type := Table { rows : list (row C); seq : Z }.
Arguments Table {C} rows seq.
Arguments rows {C} t.
Arguments seq {C} t.

Definition max_rowid {C} (rs : list (row C)) : Z :=
  fold_right (fun r m => Z.max (rowid r) m) 0 rs.

(** [INSERT INTO t (...) VALUES (...)] without an id: AUTOINCREMENT picks one
    more than the largest rowid that ever existed in the table. *)
Definition sql_insert {C} (c : C) (t : table C) : table C :=
  let i := Z.max (seq t) (max_rowid (rows t)) + 1 in
  {| rows := rows t ++ [Row i c]; seq := i |}.

(** [DELETE FROM t]: the rows go, the [sqlite_sequence] entry stays. *)
Definition sql_delete_all {C} (t : table C) : table C :=
  {| rows := []; seq := seq t |}.

(** [ORDER BY id DESC]. *)
Fixpoint insert_desc {C} (r : row C) (l : list (row C)) : list (row C) :=
  match l with
  | [] => [r]
  | x :: l' => if rowid x <? rowid r then r :: l else x :: insert_desc r l'
  end.

Definition order_by_id_desc {C} (rs : list (row C)) : list (row C) :=
  fold_right insert_desc [] rs.

(** [LIMIT n]: a negative [n] means no limit. *)
Definition sql_limit {A} (n : Z) (l : list A) : list A :=
  if n <? 0 then l else take (Z.to_nat n) l.

(** [SELECT ... FROM t ORDER BY id DESC LIMIT ?]. *)
Definition select_recent {C} (limit : Z) (t : table C) : outcome (list (row C)) :=
  obind (bind_integer limit) (fun n =>
  Ret (sql_limit n (order_by_id_desc (rows t)))).

(** [SELECT ... FROM t]: a scan in storage order. *)
Definition select_all {C} (t : table C) : list (row C) := rows t.

Record conversation_cols : Type :=
  { conv_timestamp : sqlval; conversation_data : json }.
Record scraping_cols : Type :=
  { scr_timestamp : sqlval; scr_url : sqlval; scr_data : json }.
Record analysis_cols : Type :=
  { ana_timestamp : sqlval; ana_description : sqlval; ana_data : json }.

(** [preferences (key TEXT PRIMARY KEY, value TEXT)]: rows in storage
    order.  Two keys conflict when both are texts and equal ([NULL]s never
    conflict). *)
Definition key_conflict (k1 k2 : sqlval) : bool :=
  match k1, k2 with
  | Some s1, Some s2 => String.eqb s1 s2
  | _, _ => false
  end.

(** [INSERT OR REPLACE INTO preferences (key, value) VALUES (?, ?)]: the
    conflicting row is deleted, the new row is added. *)
Definition sql_replace (k : sqlval) (v : json) (p : list (sqlval * json))
  : list (sqlval * json) :=
  List.filter (fun kv => negb (key_conflict (fst kv) k)) p ++ [(k, v)].

(** [SELECT value FROM preferences WHERE key = ?] followed by
    [fetchone()]. *)
Fixpoint select_value (k : sqlval) (p : list (sqlval * json)) : option json :=
  match p with
  | [] => None
  | (k', v) :: p' => if key_conflict k' k then Some v else select_value k p'
  end.

Record Database : Type :=
  { conversations : table conversation_cols;
    preferences : list (sqlval * json);
    scraping_results : table scraping_cols;
    analysis_results : table analysis_cols }.

Definition set_conversations (f : table conversation_cols -> table conversation_cols)
    (db : Database) : Database :=
  {| conversations := f (conversations db);
     preferences := preferences db;
     scraping_results := scraping_results db;
     analysis_results := analysis_results db |}.

Definition set_preferences (f : list (sqlval * json) -> list (sqlval * json))
    (db : Database) : Database :=
  {| conversations := conversations db;
     preferences := f (preferences db);
     scraping_results := scraping_results db;
     analysis_results := analysis_results db |}.

Definition set_scraping_results (f : table scraping_cols -> table scraping_cols)
    (db : Database) : Database :=
  {| conversations := conversations db;
     preferences := preferences db;
     scraping_results := f (scraping_results db);
     analysis_results := analysis_results db |}.

Definition set_analysis_results (f : table analysis_cols -> table analysis_cols)
    (db : Database) : Database :=
  {| conversations := conversations db;
     preferences := preferences db;
     scraping_results := scraping_results db;
     analysis_results := f (analysis_results db) |}.

(** The database file right after the tables have been created. *)
Definition empty_database : Database :=
  {| conversations := Table [] 0;
     preferences := [];
     scraping_results := Table [] 0;
     analysis_results := Table [] 0 |}.

(* ===================================================================== *)
(** ** The world, the environment and the monad of method bodies *)
(* ===================================================================== *)

(** A file holds a JSON document or anything else (an empty or half
    written file, other text). *)
Inductive file : Type :=
  | FileJson (j : json)
  | FileText.

Record World : Type :=
  { database : Database;
    files : gmap string file;
    stdout : list string }.

(** The environment of one call: what the clock shows
    ([time.strftime('%Y-%m-%d %H:%M:%S')]) and, for each I/O step the call
    will take, whether it fails and how.  Steps beyond the schedule succeed. *)
Record Env : Type :=
  { now : string;
    schedule : list (option exn) }.

Definition quiet (t : string) : Env := {| now := t; schedule := [] |}.

Definition M (A : Type) : Type := Env -> World -> outcome A * Env * World.

Definition ret {A} (a : A) : M A := fun env w => (Ret a, env, w).

Definition raise {A} (e : exn) : M A := fun env w => (Raise e, env, w).

Definition bind {A B} (m : M A) (k : A -> M B) : M B :=
  fun env w =>
    match m env w with
    | (Ret a, env', w') => k a env' w'
    | (Raise e, env', w') => (Raise e, env', w')
    end.

Definition lift {A} (o : outcome A) : M A := fun env w => (o, env, w).

#[global] Instance M_ret : MRet M := @ret.
#[global] Instance M_bind : MBind M := fun A B k m => bind m k.

(** [try: body except Exception as e: handler]. *)
Definition try_except {A} (body : M A) (handler : exn -> M A) : M A :=
  fun env w =>
    match body env w with
    | (Ret a, env', w') => (Ret a, env', w')
    | (Raise e, env', w') => handler e env' w'
    end.

(** One I/O step: the next entry of the schedule decides. *)
Definition io : M unit :=
  fun env w =>
    match schedule env with
    | [] => (Ret tt, env, w)
    | None :: s => (Ret tt, {| now := now env; schedule := s |}, w)
    | Some e :: s => (Raise e, {| now := now env; schedule := s |}, w)
    end.

Definition strftime : M string := fun env w => (Ret (now env), env, w).

Definition get_world : M World := fun env w => (Ret w, env, w).

Definition put_world (w : World) : M unit := fun env _ => (Ret tt, env, w).

Definition print (msg : string) : M unit :=
  w ← get_world;
  put_world {| database := database w; files := files w;
               stdout := stdout w ++ [msg] |}.

(** [sqlite3.connect(self.db_path)]: the connection works on a copy of the
    database; nothing reaches the file before [commit]. *)
Definition connect : M Database :=
  io;; w ← get_world; ret (database w).

(** [cursor.execute(stmt, params)], the statement being a function of the
    connection's copy. *)
Definition execute {A} (stmt : Database -> outcome A) (conn : Database) : M A :=
  io;; lift (stmt conn).

Definition commit (conn : Database) : M unit :=
  io;; w ← get_world;
  put_world {| database := conn; files := files w; stdout := stdout w |}.

Definition close : M unit := io.

(** [open(file_path, 'r')] with [json.load]. *)
Definition open_read (path : string) : M file :=
  io;; w ← get_world;
  match files w !! path with
  | Some f => ret f
  | None => raise OSError
  end.

Definition json_load (f : file) : M pyval :=
  match f with
  | FileJson j => ret (loads j)
  | FileText => raise JSONDecodeError
  end.

(** Writing a file.  The database file is not among [files]: a [path] that
    names it is outside what is modelled, and nothing is said here about
    the database of a store that exports onto its own database file. *)
Definition write_file (path : string) (f : file) : M unit :=
  io;; w ← get_world;
  put_world {| database := database w; files := <[path := f]> (files w);
               stdout := stdout w |}.

(** [open(file_path, 'w')] truncates the file. *)
Definition open_write (path : string) : M unit := write_file path FileText.

(** [json.dump(v, f, indent=2)]: the file holds the document once the
    whole of it has been written. *)
Definition json_dump (v : pyval) (path : string) : M unit :=
  j ← lift (dumps v);
  write_file path (FileJson j).

Fixpoint for_each {A S} (l : list A) (body : A -> S -> M S) (s : S) : M S :=
  match l with
  | [] => ret s
  | x :: r => s' ← body x s; for_each r body s'
  end.

(** Running a call in an environment. *)
Definition call {A} (m : M A) (env : Env) (w : World) : outcome A * World :=
  let '(r, _, w') := m env w in (r, w').

(* ===================================================================== *)
(** ** Python operations used by the import routine *)
(* ===================================================================== *)

(** [d.get(k, default)]. *)
Definition py_get (v : pyval) (k : string) (default : pyval) : outcome pyval :=
  match v with
  | PyDict d =>
      match dict_get d (KStr k) with
      | Some x => Ret x
      | None => Ret default
      end
  | _ => Raise AttributeError
  end.

(** [v[k]] for a string [k]. *)
Definition py_getitem (v : pyval) (k : string) : outcome pyval :=
  match v with
  | PyDict d =>
      match dict_get d (KStr k) with
      | Some x => Ret x
      | None => Raise KeyError
      end
  | _ => Raise TypeError
  end.

(** [for x in v]. *)
Definition py_iter (v : pyval) : outcome (list pyval) :=
  match v with
  | PyList l | PyTuple l => Ret l
  | PyDict d => Ret (map (fun kv => key_val (fst kv)) d)
  | PySet l => Ret (map key_val l)
  | PyStr s => Ret (map (fun c => PyStr (String c EmptyString)) (list_ascii_of_string s))
  | PyNone | PyBool _ | PyInt _ => Raise TypeError
  end.

(** [v.items()]. *)
Definition py_items (v : pyval) : outcome (list (pykey * pyval)) :=
  match v with
  | PyDict d => Ret d
  | _ => Raise AttributeError
  end.

(* ===================================================================== *)
(** ** The SQL statements of the store *)
(* ===================================================================== *)

(** [INSERT INTO conversations (timestamp, conversation_data) VALUES (?, ?)] *)
Definition insert_conversation (timestamp : pyval) (data_json : json)
    (db : Database) : outcome Database :=
  obind (bind_text timestamp) (fun t =>
  Ret (set_conversations
         (sql_insert {| conv_timestamp := t; conversation_data := data_json |}) db)).

(** [INSERT OR REPLACE INTO preferences (key, value) VALUES (?, ?)] *)
Definition replace_preference (key : pyval) (value_json : json)
    (db : Database) : outcome Database :=
  obind (bind_text key) (fun k =>
  Ret (set_preferences (sql_replace k value_json) db)).

(** [INSERT INTO scraping_results (timestamp, url, data) VALUES (?, ?, ?)] *)
Definition insert_scraping_result (timestamp url : pyval) (data_json : json)
    (db : Database) : outcome Database :=
  obind (bind_text timestamp) (fun t =>
  obind (bind_text url) (fun u =>
  Ret (set_scraping_results
         (sql_insert {| scr_timestamp := t; scr_url := u; scr_data := data_json |})
         db))).

(** [INSERT INTO analysis_results (timestamp, description, data)
     VALUES (?, ?, ?)] *)
Definition insert_analysis_result (timestamp description : pyval)
    (data_json : json) (db : Database) : outcome Database :=
  obind (bind_text timestamp) (fun t =>
  obind (bind_text description) (fun d =>
  Ret (set_analysis_results
         (sql_insert
            {| ana_timestamp := t; ana_description := d; ana_data := data_json |})
         db))).

(** [DELETE FROM conversations] and its three siblings. *)
Definition delete_conversations (db : Database) : outcome Database :=
  Ret (set_conversations sql_delete_all db).
Definition delete_preferences (db : Database) : outcome Database :=
  Ret (set_preferences (fun _ => []) db).
Definition delete_scraping_results (db : Database) : outcome Database :=
  Ret (set_scraping_results sql_delete_all db).
Definition delete_analysis_results (db : Database) : outcome Database :=
  Ret (set_analysis_results sql_delete_all db).

(** The dictionaries that the load and export methods build from a row. *)
Definition conversation_entry (r : row conversation_cols) : pyval :=
  PyDict [(KStr "id", PyInt (rowid r));
          (KStr "timestamp", fetch_text (conv_timestamp (cols r)));
          (KStr "data", loads (conversation_data (cols r)))].

Definition scraping_entry (r : row scraping_cols) : pyval :=
  PyDict [(KStr "id", PyInt (rowid r));
          (KStr "timestamp", fetch_text (scr_timestamp (cols r)));
          (KStr "url", fetch_text (scr_url (cols r)));
          (KStr "data", loads (scr_data (cols r)))].

Definition analysis_entry (r : row analysis_cols) : pyval :=
  PyDict [(KStr "id", PyInt (rowid r));
          (KStr "timestamp", fetch_text (ana_timestamp (cols r)));
          (KStr "description", fetch_text (ana_description (cols r)));
          (KStr "data", loads (ana_data (cols r)))].

(** A fetched [key] used as a dictionary key. *)
Definition fetch_key (c : sqlval) : pykey :=
  match c with
  | None => KNone
  | Some s => KStr s
  end.

(* ===================================================================== *)
(** ** The methods of [SessionManager] *)
(* ===================================================================== *)

(** The constructor's [_init_database]: four [CREATE TABLE IF NOT EXISTS],
    which leave existing tables as they are.  It is not wrapped in a
    [try]. *)
Definition create_table_if_not_exists (db : Database) : outcome Database :=
  Ret db.

Definition _init_database : M unit :=
  conn ← connect;
  conn ← execute create_table_if_not_exists conn;
  conn ← execute create_table_if_not_exists conn;
  conn ← execute create_table_if_not_exists conn;
  conn ← execute create_table_if_not_exists conn;
  commit conn;;
  close.

Definition save_conversation (conversation_data : pyval) : M bool :=
  try_except
    (conn ← connect;
     timestamp ← strftime;
     data_json ← lift (dumps conversation_data);
     conn ← execute (insert_conversation (PyStr timestamp) data_json) conn;
     commit conn;;
     close;;
     ret true)
    (fun e => print "Error saving conversation";; ret false).

Definition load_conversations (limit : Z) : M (list pyval) :=
  try_except
    (conn ← connect;
     fetchall ← execute (fun db => select_recent limit (conversations db)) conn;
     let results := map conversation_entry fetchall in
     close;;
     ret results)
    (fun e => print "Error loading conversations";; ret []).

Definition save_preference (key : string) (value : pyval) : M bool :=
  try_except
    (conn ← connect;
     value_json ← lift (dumps value);
     conn ← execute (replace_preference (PyStr key) value_json) conn;
     commit conn;;
     close;;
     ret true)
    (fun e => print "Error saving preference";; ret false).

Definition load_preference (key : string) (default : pyval) : M pyval :=
  try_except
    (conn ← connect;
     result ← execute
       (fun db => obind (bind_text (PyStr key)) (fun k =>
                  Ret (select_value k (preferences db)))) conn;
     close;;
     match result with
     | Some value => ret (loads value)
     | None => ret default
     end)
    (fun e => print "Error loading preference";; ret default).

Definition save_scraping_result (url : string) (data : pyval) : M bool :=
  try_except
    (conn ← connect;
     timestamp ← strftime;
     data_json ← lift (dumps data);
     conn ← execute
       (insert_scraping_result (PyStr timestamp) (PyStr url) data_json) conn;
     commit conn;;
     close;;
     ret true)
    (fun e => print "Error saving scraping result";; ret false).

Definition load_scraping_results (limit : Z) : M (list pyval) :=
  try_except
    (conn ← connect;
     fetchall ← execute
       (fun db => select_recent limit (scraping_results db)) conn;
     let results := map scraping_entry fetchall in
     close;;
     ret results)
    (fun e => print "Error loading scraping results";; ret []).

Definition save_analysis_result (description : string) (data : pyval) : M bool :=
  try_except
    (conn ← connect;
     timestamp ← strftime;
     data_json ← lift (dumps data);
     conn ← execute
       (insert_analysis_result (PyStr timestamp) (PyStr description) data_json)
       conn;
     commit conn;;
     close;;
     ret true)
    (fun e => print "Error saving analysis result";; ret false).

Definition load_analysis_results (limit : Z) : M (list pyval) :=
  try_except
    (conn ← connect;
     fetchall ← execute
       (fun db => select_recent limit (analysis_results db)) conn;
     let results := map analysis_entry fetchall in
     close;;
     ret results)
    (fun e => print "Error loading analysis results";; ret []).

Definition clear_all_data : M bool :=
  try_except
    (conn ← connect;
     conn ← execute delete_conversations conn;
     conn ← execute delete_preferences conn;
     conn ← execute delete_scraping_results conn;
     conn ← execute delete_analysis_results conn;
     commit conn;;
     close;;
     ret true)
    (fun e => print "Error clearing data";; ret false).

Definition clear_conversation_data : M bool :=
  try_except
    (conn ← connect;
     conn ← execute delete_conversations conn;
     commit conn;;
     close;;
     ret true)
    (fun e => print "Error clearing conversation data";; ret false).

Definition clear_scraping_data : M bool :=
  try_except
    (conn ← connect;
     conn ← execute delete_scraping_results conn;
     commit conn;;
     close;;
     ret true)
    (fun e => print "Error clearing scraping data";; ret false).

Definition clear_analysis_data : M bool :=
  try_except
    (conn ← connect;
     conn ← execute delete_analysis_results conn;
     commit conn;;
     close;;
     ret true)
    (fun e => print "Error clearing analysis data";; ret false).

Definition export_all_data (file_path : string) : M bool :=
  try_except
    (conn ← connect;
     fetchall ← execute (fun db => Ret (select_all (conversations db))) conn;
     let conversations := map conversation_entry fetchall in
     fetchall ← execute (fun db => Ret (preferences db)) conn;
     let preferences :=
       dict_of_pairs
         (map (fun kv => (fetch_key (fst kv), loads (snd kv))) fetchall) in
     fetchall ← execute (fun db => Ret (select_all (scraping_results db))) conn;
     let scraping := map scraping_entry fetchall in
     fetchall ← execute (fun db => Ret (select_all (analysis_results db))) conn;
     let analysis := map analysis_entry fetchall in
     close;;
     export_timestamp ← strftime;
     let export_data :=
       PyDict [(KStr "conversations", PyList conversations);
               (KStr "preferences", PyDict preferences);
               (KStr "scraping_results", PyList scraping);
               (KStr "analysis_results", PyList analysis);
               (KStr "export_timestamp", PyStr export_timestamp)] in
     open_write file_path;;
     json_dump export_data file_path;;
     ret true)
    (fun e => print "Error exporting data";; ret false).

(** The bodies of the four loops of [import_data]. *)
Definition import_conversation (conv : pyval) (conn : Database) : M Database :=
  data ← lift (py_getitem conv "data");
  data_json ← lift (dumps data);
  timestamp ← lift (py_getitem conv "timestamp");
  execute (insert_conversation timestamp data_json) conn.

Definition import_preference (kv : pykey * pyval) (conn : Database)
  : M Database :=
  value_json ← lift (dumps (snd kv));
  execute (replace_preference (key_val (fst kv)) value_json) conn.

Definition import_scraping_result (result : pyval) (conn : Database)
  : M Database :=
  data ← lift (py_getitem result "data");
  data_json ← lift (dumps data);
  timestamp ← lift (py_getitem result "timestamp");
  url ← lift (py_getitem result "url");
  execute (insert_scraping_result timestamp url data_json) conn.

Definition import_analysis_result (result : pyval) (conn : Database)
  : M Database :=
  data ← lift (py_getitem result "data");
  data_json ← lift (dumps data);
  timestamp ← lift (py_getitem result "timestamp");
  description ← lift (py_getitem result "description");
  execute (insert_analysis_result timestamp description data_json) conn.

Definition import_data (file_path : string) (replace_existing : bool) : M bool :=
  try_except
    (f ← open_read file_path;
     import_data ← json_load f;
     conn ← connect;
     conn ← (if replace_existing then
               conn ← execute delete_conversations conn;
               conn ← execute delete_preferences conn;
               conn ← execute delete_scraping_results conn;
               execute delete_analysis_results conn
             else ret conn);
     convs ← lift (obind (py_get import_data "conversations" (PyList []))
                         py_iter);
     conn ← for_each convs import_conversation conn;
     prefs ← lift (obind (py_get import_data "preferences" (PyDict []))
                         py_items);
     conn ← for_each prefs import_preference conn;
     results ← lift (obind (py_get import_data "scraping_results" (PyList []))
                           py_iter);
     conn ← for_each results import_scraping_result conn;
     results ← lift (obind (py_get import_data "analysis_results" (PyList []))
                           py_iter);
     conn ← for_each results import_analysis_result conn;
     commit conn;;
     close;;
     ret true)
    (fun e => print "Error importing data";; ret false).

(** [ApplicationController.clear_memory], as far as the store is concerned
    (the in-memory histories of the other modules are not part of it). *)
Definition clear_memory (memory_type : string) : M bool :=
  if String.eqb memory_type "all" then clear_all_data
  else if String.eqb memory_type "conversations" then clear_conversation_data
  else if String.eqb memory_type "scraping" then clear_scraping_data
  else if String.eqb memory_type "analysis" then clear_analysis_data
  else ret false.

(** The calls a client can make, for statements about sequences of calls. *)
Inductive operation : Type :=
  | SaveConversation (conversation_data : pyval)
  | LoadConversations (limit : Z)
  | SavePreference (key : string) (value : pyval)
  | LoadPreference (key : string) (default : pyval)
  | SaveScrapingResult (url : string) (data : pyval)
  | LoadScrapingResults (limit : Z)
  | SaveAnalysisResult (description : string) (data : pyval)
  | LoadAnalysisResults (limit : Z)
  | ClearAllData
  | ClearConversationData
  | ClearScrapingData
  | ClearAnalysisData
  | ExportAllData (file_path : string)
  | ImportData (file_path : string) (replace_existing : bool).

Definition returning {A} (f : A -> pyval) (m : M A) : M pyval :=
  a ← m; ret (f a).

Definition exec (op : operation) : M pyval :=
  match op with
  | SaveConversation v => returning PyBool (save_conversation v)
  | LoadConversations n => returning PyList (load_conversations n)
  | SavePreference k v => returning PyBool (save_preference k v)
  | LoadPreference k d => load_preference k d
  | SaveScrapingResult u v => returning PyBool (save_scraping_result u v)
  | LoadScrapingResults n => returning PyList (load_scraping_results n)
  | SaveAnalysisResult d v => returning PyBool (save_analysis_result d v)
  | LoadAnalysisResults n => returning PyList (load_analysis_results n)
  | ClearAllData => returning PyBool clear_all_data
  | ClearConversationData => returning PyBool clear_conversation_data
  | ClearScrapingData => returning PyBool clear_scraping_data
  | ClearAnalysisData => returning PyBool clear_analysis_data
  | ExportAllData p => returning PyBool (export_all_data p)
  | ImportData p b => returning PyBool (import_data p b)
  end.

(** What a call answers when its body raised: [False], the empty list, or
    the caller's default. *)
Definition fallback (op : operation) : pyval :=
  match op with
  | LoadConversations _ | LoadScrapingResults _ | LoadAnalysisResults _ =>
      PyList []
  | LoadPreference _ d => d
  | _ => PyBool false
  end.

(** A sequence of calls, each in its own environment. *)
Fixpoint run (calls : list (operation * Env)) (w : World) : World :=
  match calls with
  | [] => w
  | (op, env) :: rest => run rest (snd (call (exec op) env w))
  end.

Definition new_world : World :=
  {| database := empty_database; files := ∅; stdout := [] |}.

Example save_then_load :
  let w := run [(SaveConversation (PyList [PyDict [(KStr "role", PyStr "user")]]),
                 quiet "2024-01-01 10:00:00");
                (SaveConversation (PyList []), quiet "2024-01-01 10:00:05")]
               new_world in
  fst (call (load_conversations 1) (quiet "2024-01-01 10:00:09") w)
  = Ret [PyDict [(KStr "id", PyInt 2);
                 (KStr "timestamp", PyStr "2024-01-01 10:00:05");
                 (KStr "data", PyList [])]].
Proof. vm_compute. reflexivity. Qed.

(* ===================================================================== *)
(** ** Facts about the SQL layer *)
(* ===================================================================== *)

Section Tables.
Context {C : Type}.
Implicit Types (t : table C) (rs : list (row C)) (r : row C) (c : C).

(** The state of an AUTOINCREMENT table that the engine maintains: rowids
    are unique and increase along the storage order, and none exceeds the
    [sqlite_sequence] entry. *)
Definition table_wf t : Prop :=
  StronglySorted Z.lt (map rowid (rows t))
  /\ Forall (fun i => 0 < i <= seq t) (map rowid (rows t))
  /\ 0 <= seq t.

Lemma max_rowid_bound rs s :
  0 <= s -> Forall (fun i => 0 < i <= s) (map rowid rs) ->
  Z.max s (max_rowid rs) = s.
Proof.
  intros Hs Hall. induction rs as [|r rs IH]; simpl in *.
  - lia.
  - inversion Hall; subst. specialize (IH ltac:(assumption)). lia.
Qed.

Lemma sql_insert_wf_eq c t :
  table_wf t ->
  sql_insert c t = Table (rows t ++ [Row (seq t + 1) c]) (seq t + 1).
Proof.
  intros (_ & Hall & Hs). unfold sql_insert.
  rewrite (max_rowid_bound _ _ Hs Hall). reflexivity.
Qed.

Lemma ascending_snoc (l : list Z) (x : Z) :
  StronglySorted Z.lt l -> Forall (fun i => i < x) l ->
  StronglySorted Z.lt (l ++ [x]).
Proof.
  induction 1 as [|a l Hs IH Ha]; intros Hx; simpl.
  - repeat constructor.
  - inversion Hx; subst. constructor; [auto|].
    apply Forall_app; split; [assumption|]. repeat constructor. assumption.
Qed.

Lemma sql_insert_wf c t : table_wf t -> table_wf (sql_insert c t).
Proof.
  intros Hwf. rewrite (sql_insert_wf_eq _ _ Hwf).
  destruct Hwf as (Hsort & Hall & Hs). unfold table_wf; simpl.
  rewrite map_app; simpl. repeat split.
  - apply ascending_snoc; [assumption|].
    eapply Forall_impl; [exact Hall|]. simpl; intros; lia.
  - apply Forall_app; split.
    + eapply Forall_impl; [exact Hall|]. simpl; intros; lia.
    + repeat constructor; lia.
  - lia.
Qed.

Lemma sql_delete_all_wf t : table_wf t -> table_wf (sql_delete_all t).
Proof.
  intros (_ & _ & Hs). unfold table_wf; simpl.
  repeat split; [constructor|constructor|assumption].
Qed.

(** A row smaller than all the others goes last in descending order. *)
Lemma insert_desc_smallest r rs :
  Forall (fun x => rowid r < rowid x) rs -> insert_desc r rs = rs ++ [r].
Proof.
  induction 1 as [|x rs Hx _ IH]; simpl; [reflexivity|].
  destruct (Z.ltb_spec (rowid x) (rowid r)); [lia|]. now rewrite IH.
Qed.

(** On a table in rowid order, [ORDER BY id DESC] is the storage order
    reversed. *)
Lemma order_by_id_desc_rev rs :
  StronglySorted Z.lt (map rowid rs) -> order_by_id_desc rs = rev rs.
Proof.
  induction rs as [|r rs IH]; simpl; intros Hs; [reflexivity|].
  inversion Hs as [|? ? Hs' Hr]; subst.
  unfold order_by_id_desc in *; simpl. rewrite (IH Hs').
  apply insert_desc_smallest.
  rewrite List.Forall_forall. intros x Hx. apply in_rev in Hx.
  rewrite List.Forall_forall in Hr. apply Hr. now apply in_map.
Qed.

(** Rows inserted one after the other. *)
Definition insert_all (cs : list C) t : table C :=
  fold_left (fun t c => sql_insert c t) cs t.

Fixpoint number_from (i : Z) (cs : list C) : list (row C) :=
  match cs with
  | [] => []
  | c :: cs' => Row i c :: number_from (i + 1) cs'
  end.

Lemma number_from_cols i cs : map cols (number_from i cs) = cs.
Proof. revert i; induction cs; intros; simpl; congruence. Qed.

Lemma number_from_length i cs : length (number_from i cs) = length cs.
Proof. revert i; induction cs; intros; simpl; congruence. Qed.

Lemma insert_all_wf cs t : table_wf t -> table_wf (insert_all cs t).
Proof.
  revert t; induction cs as [|c cs IH]; intros t Hwf; simpl; [assumption|].
  apply IH, sql_insert_wf, Hwf.
Qed.

Lemma insert_all_rows cs t :
  table_wf t ->
  rows (insert_all cs t) = rows t ++ number_from (seq t + 1) cs.
Proof.
  revert t; induction cs as [|c cs IH]; intros t Hwf; simpl.
  - now rewrite app_nil_r.
  - rewrite IH by now apply sql_insert_wf.
    rewrite (sql_insert_wf_eq _ _ Hwf); simpl.
    now rewrite <- app_assoc.
Qed.

Lemma insert_all_app cs1 cs2 t :
  insert_all (cs1 ++ cs2) t = insert_all cs2 (insert_all cs1 t).
Proof. unfold insert_all. now rewrite fold_left_app. Qed.
End Tables.

Lemma sql_limit_take {A} (n : nat) (l : list A) :
  sql_limit (Z.of_nat n) l = take n l.
Proof.
  unfold sql_limit. destruct (Z.ltb_spec (Z.of_nat n) 0); [lia|].
  now rewrite Nat2Z.id.
Qed.

Lemma sql_limit_negative {A} (n : Z) (l : list A) : n < 0 -> sql_limit n l = l.
Proof. unfold sql_limit. destruct (Z.ltb_spec n 0); [reflexivity|lia]. Qed.

Lemma sql_limit_ge {A} (n : Z) (l : list A) :
  Z.of_nat (length l) <= n -> sql_limit n l = l.
Proof.
  intros Hn. unfold sql_limit. destruct (Z.ltb_spec n 0); [lia|].
  apply take_ge. lia.
Qed.

Lemma bind_integer_in_range z :
  int64_min <= z <= int64_max -> bind_integer z = Ret z.
Proof.
  intros [H1 H2]. unfold bind_integer.
  destruct (Z.leb_spec int64_min z); [|lia].
  destruct (Z.leb_spec z int64_max); [reflexivity|lia].
Qed.

Lemma bind_integer_out_of_range z :
  z < int64_min \/ int64_max < z -> bind_integer z = Raise OverflowError.
Proof.
  intros H. unfold bind_integer.
  destruct (Z.leb_spec int64_min z); [|reflexivity].
  destruct (Z.leb_spec z int64_max); [lia|reflexivity].
Qed.

(* ===================================================================== *)
(** ** Facts about the JSON round trip *)
(* ===================================================================== *)

(** Induction on Python values and on documents, through the containers. *)
Section pyval_induction.
Variable P : pyval -> Prop.
Hypothesis P_none : P PyNone.
Hypothesis P_bool : forall b, P (PyBool b).
Hypothesis P_int : forall z, P (PyInt z).
Hypothesis P_str : forall s, P (PyStr s).
Hypothesis P_list : forall l, Forall P l -> P (PyList l).
Hypothesis P_tuple : forall l, Forall P l -> P (PyTuple l).
Hypothesis P_dict : forall d, Forall (fun kv => P (snd kv)) d -> P (PyDict d).
Hypothesis P_set : forall l, P (PySet l).

Fixpoint pyval_nested_ind (v : pyval) : P v :=
  match v with
  | PyNone => P_none
  | PyBool b => P_bool b
  | PyInt z => P_int z
  | PyStr s => P_str s
  | PyList l =>
      P_list l
        ((fix all (l : list pyval) : Forall P l :=
            match l with
            | [] => @List.Forall_nil _ P
            | x :: r => @List.Forall_cons _ _ x r (pyval_nested_ind x) (all r)
            end) l)
  | PyTuple l =>
      P_tuple l
        ((fix all (l : list pyval) : Forall P l :=
            match l with
            | [] => @List.Forall_nil _ P
            | x :: r => @List.Forall_cons _ _ x r (pyval_nested_ind x) (all r)
            end) l)
  | PyDict d =>
      P_dict d
        ((fix all (d : list (pykey * pyval))
            : Forall (fun kv => P (snd kv)) d :=
            match d with
            | [] => @List.Forall_nil _ _
            | kv :: r =>
                @List.Forall_cons _ _ kv r
                  (pyval_nested_ind (snd kv)) (all r)
            end) d)
  | PySet l => P_set l
  end.
End pyval_induction.

Section json_induction.
Variable P : json -> Prop.
Hypothesis P_null : P JNull.
Hypothesis P_bool : forall b, P (JBool b).
Hypothesis P_num : forall z, P (JNum z).
Hypothesis P_str : forall s, P (JStr s).
Hypothesis P_arr : forall l, Forall P l -> P (JArr l).
Hypothesis P_obj : forall m, Forall (fun kx => P (snd kx)) m -> P (JObj m).

Fixpoint json_nested_ind (j : json) : P j :=
  match j with
  | JNull => P_null
  | JBool b => P_bool b
  | JNum z => P_num z
  | JStr s => P_str s
  | JArr l =>
      P_arr l
        ((fix all (l : list json) : Forall P l :=
            match l with
            | [] => @List.Forall_nil _ P
            | x :: r => @List.Forall_cons _ _ x r (json_nested_ind x) (all r)
            end) l)
  | JObj m =>
      P_obj m
        ((fix all (m : list (string * json))
            : Forall (fun kx => P (snd kx)) m :=
            match m with
            | [] => @List.Forall_nil _ _
            | kx :: r =>
                @List.Forall_cons _ _ kx r
                  (json_nested_ind (snd kx)) (all r)
            end) m)
  end.
End json_induction.

(** The keys of a dictionary are pairwise different (as Python compares
    them). *)
Fixpoint keys_distinct (ks : list pykey) : bool :=
  match ks with
  | [] => true
  | k :: r => forallb (fun k' => negb (key_eqb k k')) r && keys_distinct r
  end.

Definition is_str_key (k : pykey) : bool :=
  match k with KStr _ => true | _ => false end.

(** The values that JSON has a notation for: [None], booleans, integers,
    strings, lists of such values, and dictionaries with string keys. *)
Fixpoint json_native (v : pyval) : bool :=
  match v with
  | PyNone | PyBool _ | PyInt _ | PyStr _ => true
  | PyList l => forallb json_native l
  | PyDict d =>
      forallb is_str_key (map fst d) && keys_distinct (map fst d)
      && forallb (fun kv => json_native (snd kv)) d
  | PyTuple _ | PySet _ => false
  end.

Lemma key_eqb_refl k : key_eqb k k = true.
Proof.
  destruct k as [|b|z|s]; simpl; auto using Z.eqb_refl, String.eqb_refl.
Qed.

Lemma key_eqb_sym k1 k2 : key_eqb k1 k2 = key_eqb k2 k1.
Proof.
  destruct k1, k2; simpl; auto using Z.eqb_sym, String.eqb_sym.
Qed.

Lemma key_eqb_trans k1 k2 k3 :
  key_eqb k1 k2 = true -> key_eqb k2 k3 = true -> key_eqb k1 k3 = true.
Proof.
  destruct k1, k2, k3; simpl; try discriminate; auto;
    rewrite ?Z.eqb_eq, ?String.eqb_eq; congruence.
Qed.

Lemma dict_set_fresh d k v :
  forallb (fun k' => negb (key_eqb k' k)) (map fst d) = true ->
  dict_set d k v = d ++ [(k, v)].
Proof.
  induction d as [|[k' v'] d IH]; simpl; [reflexivity|].
  intros [Hk Hd]%andb_true_iff. apply negb_true_iff in Hk. rewrite Hk.
  now rewrite IH.
Qed.

Lemma dict_of_pairs_app ps acc :
  keys_distinct (map fst acc ++ map fst ps) = true ->
  fold_left (fun d p => dict_set d (fst p) (snd p)) ps acc = acc ++ ps.
Proof.
  revert acc. induction ps as [|[k v] ps IH]; intros acc Hd; simpl.
  - now rewrite app_nil_r.
  - assert (Hfresh : forallb (fun k' => negb (key_eqb k' k)) (map fst acc) = true).
    { clear IH. induction acc as [|[k' v'] acc IHa]; simpl in *; [reflexivity|].
      apply andb_true_iff in Hd as [Hk Hd].
      rewrite forallb_app in Hk. apply andb_true_iff in Hk as [_ Hk].
      simpl in Hk. apply andb_true_iff in Hk as [Hk _].
      rewrite Hk. now apply IHa. }
    rewrite (dict_set_fresh _ _ _ Hfresh).
    rewrite IH.
    + now rewrite <- app_assoc.
    + rewrite map_app; simpl. now rewrite <- app_assoc.
Qed.

(** Building a dictionary from pairs with different keys keeps the pairs
    and their order. *)
Lemma dict_of_pairs_distinct ps :
  keys_distinct (map fst ps) = true -> dict_of_pairs ps = ps.
Proof. intros H. unfold dict_of_pairs. now rewrite dict_of_pairs_app. Qed.

Lemma dumps_list l : dumps (PyList l) = obind (dumps_items l) (fun js => Ret (JArr js)).
Proof. reflexivity. Qed.

Lemma dumps_dict d :
  dumps (PyDict d) = obind (dumps_members d) (fun js => Ret (JObj js)).
Proof. reflexivity. Qed.

Lemma str_key_round_trip k : is_str_key k = true -> KStr (json_key k) = k.
Proof. destruct k; simpl; congruence. Qed.

(** Encoding then decoding a native value gives the value back, with the
    order of its keys and its nesting. *)
Lemma dumps_loads_native v :
  json_native v = true -> exists j, dumps v = Ret j /\ loads j = v.
Proof.
  induction v as [| | | |l IH|l IH|d IH|l] using pyval_nested_ind;
    simpl; intros Hn; try discriminate; try (eexists; split; reflexivity).
  - assert (Hl : exists js, dumps_items l = Ret js /\ map loads js = l).
    { induction IH as [|x l Hx _ IHl]; simpl in *.
      - exists []. auto.
      - apply andb_true_iff in Hn as [Hx' Hl'].
        destruct (Hx Hx') as (j & -> & Hj).
        destruct (IHl Hl') as (js & -> & Hjs). simpl.
        exists (j :: js). simpl. now rewrite Hj, Hjs. }
    destruct Hl as (js & Hjs & Hmap).
    change (exists j, obind (dumps_items l) (fun js => Ret (JArr js)) = Ret j
                      /\ loads j = PyList l).
    rewrite Hjs; simpl. eexists; split; [reflexivity|]. simpl. now rewrite Hmap.
  - apply andb_true_iff in Hn as [Hn Hvals].
    apply andb_true_iff in Hn as [Hstr Hdist].
    assert (Hd : exists js, dumps_members d = Ret js
               /\ map (fun '(k, x) => (KStr k, loads x)) js = d).
    { clear Hdist. induction IH as [|[k x] d Hx _ IHd]; simpl in *.
      - exists []. auto.
      - apply andb_true_iff in Hvals as [Hx' Hd'].
        apply andb_true_iff in Hstr as [Hk Hstr].
        destruct (Hx Hx') as (j & -> & Hj).
        destruct (IHd Hstr Hd') as (js & -> & Hjs). simpl.
        exists ((json_key k, j) :: js). simpl.
        now rewrite Hj, Hjs, str_key_round_trip. }
    destruct Hd as (js & Hjs & Hmap).
    change (exists j, obind (dumps_members d) (fun js => Ret (JObj js)) = Ret j
                      /\ loads j = PyDict d).
    rewrite Hjs; simpl. eexists; split; [reflexivity|]. simpl.
    rewrite Hmap. now rewrite dict_of_pairs_distinct.
Qed.

Lemma dict_set_keys_forallb (P : pykey -> bool) d k v :
  forallb P (map fst d) = true -> P k = true ->
  forallb P (map fst (dict_set d k v)) = true.
Proof.
  induction d as [|[k' v'] d IH]; simpl; intros Hd Hk.
  - now rewrite Hk.
  - apply andb_true_iff in Hd as [Hk' Hd].
    destruct (key_eqb k' k); simpl; rewrite Hk'; simpl; auto.
Qed.

Lemma dict_set_values_forallb (P : pyval -> bool) d k v :
  forallb (fun kv => P (snd kv)) d = true -> P v = true ->
  forallb (fun kv => P (snd kv)) (dict_set d k v) = true.
Proof.
  induction d as [|[k' v'] d IH]; simpl; intros Hd Hv.
  - now rewrite Hv.
  - apply andb_true_iff in Hd as [Hv' Hd].
    destruct (key_eqb k' k); simpl.
    + now rewrite Hv.
    + rewrite Hv'; simpl; auto.
Qed.

Lemma dict_set_keys_distinct d k v :
  keys_distinct (map fst d) = true ->
  keys_distinct (map fst (dict_set d k v)) = true.
Proof.
  induction d as [|[k' v'] d IH]; simpl; intros Hd; [reflexivity|].
  apply andb_true_iff in Hd as [Hk' Hd].
  destruct (key_eqb k' k) eqn:Hkk; simpl.
  - now rewrite Hk', Hd.
  - rewrite IH by assumption. rewrite andb_true_r.
    apply dict_set_keys_forallb; [assumption|]. now rewrite Hkk.
Qed.

(** A dictionary as the decoder builds it: string keys, all different,
    native values. *)
Definition native_dict (d : list (pykey * pyval)) : bool :=
  forallb is_str_key (map fst d) && keys_distinct (map fst d)
  && forallb (fun kv => json_native (snd kv)) d.

Lemma dict_set_native d k v :
  native_dict d = true -> is_str_key k = true -> json_native v = true ->
  native_dict (dict_set d k v) = true.
Proof.
  unfold native_dict. intros [[H1 H2]%andb_true_iff H3]%andb_true_iff Hk Hv.
  rewrite dict_set_keys_forallb, dict_set_keys_distinct,
    dict_set_values_forallb; auto.
Qed.

Lemma dict_of_pairs_native ps :
  Forall (fun p => is_str_key (fst p) = true /\ json_native (snd p) = true) ps ->
  native_dict (dict_of_pairs ps) = true.
Proof.
  unfold dict_of_pairs.
  assert (H : forall acc, native_dict acc = true ->
    Forall (fun p => is_str_key (fst p) = true /\ json_native (snd p) = true) ps ->
    native_dict (fold_left (fun d p => dict_set d (fst p) (snd p)) ps acc) = true).
  { induction ps as [|p ps IH]; simpl; intros acc Hacc Hps; [assumption|].
    inversion Hps as [|? ? [Hk Hv] Hps']; subst.
    apply IH; [|assumption]. now apply dict_set_native. }
  now apply H.
Qed.

(** Whatever the decoder returns is a native value. *)
Lemma loads_native j : json_native (loads j) = true.
Proof.
  induction j as [| | | |l IH|m IH] using json_nested_ind; simpl; auto.
  - induction IH as [|x l Hx _ IHl]; simpl; [reflexivity|].
    now rewrite Hx, IHl.
  - apply dict_of_pairs_native.
    induction IH as [|[k x] m Hx _ IHm]; simpl; constructor; auto.
Qed.

(** The document that a stored text denotes once it has been decoded and
    encoded again (repeated keys are gone). *)
Definition canon (j : json) : json :=
  match dumps (loads j) with
  | Ret j' => j'
  | Raise _ => j
  end.

Lemma dumps_loads j : dumps (loads j) = Ret (canon j).
Proof.
  unfold canon.
  destruct (dumps_loads_native (loads j) (loads_native j)) as (j' & -> & _).
  reflexivity.
Qed.

Lemma loads_canon j : loads (canon j) = loads j.
Proof.
  unfold canon.
  destruct (dumps_loads_native (loads j) (loads_native j)) as (j' & -> & H).
  exact H.
Qed.

Lemma canon_native v j : json_native v = true -> dumps v = Ret j -> canon j = j.
Proof.
  intros Hn Hj. destruct (dumps_loads_native v Hn) as (j' & Hj' & Hl).
  assert (j' = j) by congruence. subst j'.
  unfold canon. now rewrite Hl, Hj.
Qed.

Lemma dict_get_native d k v :
  forallb (fun kv => json_native (snd kv)) d = true ->
  dict_get d k = Some v -> json_native v = true.
Proof.
  induction d as [|[k' v'] d IH]; simpl; [discriminate|].
  intros [Hv Hd]%andb_true_iff.
  destruct (key_eqb k' k); [now intros [= <-]|auto].
Qed.

Lemma py_getitem_native v k x :
  json_native v = true -> py_getitem v k = Ret x -> json_native x = true.
Proof.
  destruct v; simpl; try discriminate.
  intros [_ Hv]%andb_true_iff.
  destruct (dict_get d (KStr k)) eqn:Hg; [|discriminate].
  intros [= <-]. eapply dict_get_native; eauto.
Qed.

Lemma py_get_native v k default x :
  json_native v = true -> json_native default = true ->
  py_get v k default = Ret x -> json_native x = true.
Proof.
  destruct v; simpl; try discriminate.
  intros [_ Hv]%andb_true_iff Hd.
  destruct (dict_get d (KStr k)) eqn:Hg; intros [= <-]; [|assumption].
  eapply dict_get_native; eauto.
Qed.

(** The items of a section of a decoded document have string keys. *)
Lemma py_items_native doc k prefs :
  json_native doc = true ->
  obind (py_get doc k (PyDict [])) py_items = Ret prefs ->
  forallb is_str_key (map fst prefs) = true.
Proof.
  intros Hn. destruct (py_get doc k (PyDict [])) as [x|] eqn:Hx; [|discriminate].
  pose proof (py_get_native doc k (PyDict []) x Hn eq_refl Hx) as Hnx.
  destruct x; simpl; try discriminate. intros [= <-].
  simpl in Hnx. apply andb_true_iff in Hnx as [Hk _].
  now apply andb_true_iff in Hk as [Hk _].
Qed.

(* ===================================================================== *)
(** ** Reasoning about method bodies *)
(* ===================================================================== *)

(** [triple I m V]: from a world satisfying [I], the computation [m] ends in
    a world satisfying [I], whether it returns or raises, and a returned
    value satisfies [V]. *)
Definition triple {A} (I : World -> Prop) (m : M A) (V : A -> Prop) : Prop :=
  forall env w, I w ->
    I (m env w).2 /\ forall a, (m env w).1.1 = Ret a -> V a.

Section Triples.
Variable I : World -> Prop.

Lemma triple_ret {A} (a : A) (V : A -> Prop) : V a -> triple I (mret a) V.
Proof. intros Ha env w Hw; simpl. split; [assumption|]. now intros ? [= <-]. Qed.

Lemma triple_raise {A} e (V : A -> Prop) : triple I (raise e) V.
Proof. intros env w Hw; simpl. split; [assumption|]. discriminate. Qed.

Lemma triple_lift {A} (o : outcome A) : triple I (lift o) (fun a => o = Ret a).
Proof. intros env w Hw; simpl. auto. Qed.

Lemma triple_io : triple I io (fun _ => True).
Proof.
  intros env w Hw. unfold io.
  destruct (schedule env) as [|[e|] s]; simpl; auto.
Qed.

Lemma triple_strftime : triple I strftime (fun _ => True).
Proof. intros env w Hw; simpl. auto. Qed.

Lemma triple_get_world : triple I get_world I.
Proof. intros env w Hw; simpl. split; [assumption|]. now intros ? [= <-]. Qed.

Lemma triple_put_world w' : I w' -> triple I (put_world w') (fun _ => True).
Proof. intros Hw' env w Hw; simpl. auto. Qed.

Lemma triple_bind {A B} (m : M A) (k : A -> M B) V V' :
  triple I m V -> (forall a, V a -> triple I (k a) V') ->
  triple I (a ← m; k a) V'.
Proof.
  intros Hm Hk env w Hw. unfold mbind, M_bind, bind.
  destruct (Hm env w Hw) as [HI HV].
  destruct (m env w) as [[[a|e] env'] w']; simpl in *.
  - apply Hk; auto.
  - split; [assumption|discriminate].
Qed.

Lemma triple_weaken {A} (m : M A) (V V' : A -> Prop) :
  triple I m V -> (forall a, V a -> V' a) -> triple I m V'.
Proof.
  intros Hm HV env w Hw. destruct (Hm env w Hw). split; auto.
Qed.

Lemma triple_for_each {A S} (l : list A) (body : A -> S -> M S) V s :
  (forall x s, In x l -> V s -> triple I (body x s) V) -> V s ->
  triple I (for_each l body s) V.
Proof.
  revert s. induction l as [|x l IH]; intros s Hbody Hs; simpl.
  - now apply triple_ret.
  - eapply triple_bind; [apply Hbody; [now left|assumption]|].
    intros s' Hs'. apply IH; [|assumption].
    intros y s'' Hy. apply Hbody. now right.
Qed.

Lemma triple_try {A} (body : M A) (handler : exn -> M A) V :
  triple I body V -> (forall e, triple I (handler e) V) ->
  triple I (try_except body handler) V.
Proof.
  intros Hb Hh env w Hw. unfold try_except.
  destruct (Hb env w Hw) as [HI HV].
  destruct (body env w) as [[[a|e] env'] w']; simpl in *.
  - auto.
  - now apply Hh.
Qed.

(** The file system plays no part in [I]. *)
Hypothesis I_files : forall w f,
  I w -> I {| database := database w; files := f; stdout := stdout w |}.

Lemma triple_open_read path : triple I (open_read path) (fun _ => True).
Proof.
  unfold open_read.
  eapply triple_bind; [apply triple_io|]. intros _ _.
  eapply triple_bind; [apply triple_get_world|]. intros w Hw.
  destruct (files w !! path).
  - now apply triple_ret.
  - apply triple_raise.
Qed.

Lemma triple_json_load f :
  triple I (json_load f) (fun v => json_native v = true).
Proof.
  destruct f; simpl; [apply triple_ret, loads_native|apply triple_raise].
Qed.

Lemma triple_write_file path f : triple I (write_file path f) (fun _ => True).
Proof.
  unfold write_file.
  eapply triple_bind; [apply triple_io|]. intros _ _.
  eapply triple_bind; [apply triple_get_world|]. intros w Hw.
  apply triple_put_world. now apply I_files.
Qed.

Lemma triple_json_dump v path : triple I (json_dump v path) (fun _ => True).
Proof.
  unfold json_dump.
  eapply triple_bind; [apply triple_lift|]. intros j _.
  apply triple_write_file.
Qed.

(** The databases that may be committed. *)
Variable OK : Database -> Prop.
Hypothesis I_database : forall w, I w -> OK (database w).
Hypothesis I_commit : forall w conn,
  I w -> OK conn ->
  I {| database := conn; files := files w; stdout := stdout w |}.

Lemma triple_connect : triple I connect OK.
Proof.
  unfold connect.
  eapply triple_bind; [apply triple_io|]. intros _ _.
  eapply triple_bind; [apply triple_get_world|]. intros w Hw.
  apply triple_ret. now apply I_database.
Qed.

Lemma triple_commit conn : OK conn -> triple I (commit conn) (fun _ => True).
Proof.
  intros Hc. unfold commit.
  eapply triple_bind; [apply triple_io|]. intros _ _.
  eapply triple_bind; [apply triple_get_world|]. intros w Hw.
  apply triple_put_world. now apply I_commit.
Qed.

Lemma triple_close : triple I close (fun _ => True).
Proof. apply triple_io. Qed.

Lemma triple_execute {A} (stmt : Database -> outcome A) conn (V : A -> Prop) :
  (forall a, stmt conn = Ret a -> V a) -> triple I (execute stmt conn) V.
Proof.
  intros Hs. unfold execute.
  eapply triple_bind; [apply triple_io|]. intros _ _.
  eapply triple_weaken; [apply triple_lift|]. exact Hs.
Qed.
End Triples.

(* ===================================================================== *)
(** ** What every call does, whatever the faults *)
(* ===================================================================== *)

Section Invariant.
(** A property of databases that every statement of the store keeps. *)
Variable OK : Database -> Prop.
Hypothesis OK_insert_conversations : forall c db,
  OK db -> OK (set_conversations (sql_insert c) db).
Hypothesis OK_delete_conversations : forall db,
  OK db -> OK (set_conversations sql_delete_all db).
Hypothesis OK_replace_preference : forall s v db,
  OK db -> OK (set_preferences (sql_replace (Some s) v) db).
Hypothesis OK_delete_preferences : forall db,
  OK db -> OK (set_preferences (fun _ => []) db).
Hypothesis OK_insert_scraping_results : forall c db,
  OK db -> OK (set_scraping_results (sql_insert c) db).
Hypothesis OK_delete_scraping_results : forall db,
  OK db -> OK (set_scraping_results sql_delete_all db).
Hypothesis OK_insert_analysis_results : forall c db,
  OK db -> OK (set_analysis_results (sql_insert c) db).
Hypothesis OK_delete_analysis_results : forall db,
  OK db -> OK (set_analysis_results sql_delete_all db).

(** Inside a method body: the database file is fine and nothing has been
    printed since the call began with [s0] on the standard output. *)
Variable s0 : list string.
Definition body_inv (w : World) : Prop := OK (database w) /\ stdout w = s0.

Lemma body_inv_files w f :
  body_inv w ->
  body_inv {| database := database w; files := f; stdout := stdout w |}.
Proof. intros H; exact H. Qed.

Lemma body_inv_database w : body_inv w -> OK (database w).
Proof. now intros [H _]. Qed.

Lemma body_inv_commit w conn :
  body_inv w -> OK conn ->
  body_inv {| database := conn; files := files w; stdout := stdout w |}.
Proof. intros [_ H] Hc. split; assumption. Qed.

Lemma OK_insert_conversation ts j db db' :
  OK db -> insert_conversation ts j db = Ret db' -> OK db'.
Proof.
  unfold insert_conversation. intros Hdb.
  destruct (bind_text ts); simpl; intros [= <-]. auto.
Qed.

Lemma OK_replace_preference_stmt s j db db' :
  OK db -> replace_preference (PyStr s) j db = Ret db' -> OK db'.
Proof. unfold replace_preference. simpl. intros Hdb [= <-]. auto. Qed.

Lemma OK_insert_scraping_result ts u j db db' :
  OK db -> insert_scraping_result ts u j db = Ret db' -> OK db'.
Proof.
  unfold insert_scraping_result. intros Hdb.
  destruct (bind_text ts); simpl; [|discriminate].
  destruct (bind_text u); simpl; intros [= <-]. auto.
Qed.

Lemma OK_insert_analysis_result ts d j db db' :
  OK db -> insert_analysis_result ts d j db = Ret db' -> OK db'.
Proof.
  unfold insert_analysis_result. intros Hdb.
  destruct (bind_text ts); simpl; [|discriminate].
  destruct (bind_text d); simpl; intros [= <-]. auto.
Qed.

Lemma OK_delete_conversations_stmt db db' :
  OK db -> delete_conversations db = Ret db' -> OK db'.
Proof. intros Hdb [= <-]. auto. Qed.

Lemma OK_delete_preferences_stmt db db' :
  OK db -> delete_preferences db = Ret db' -> OK db'.
Proof. intros Hdb [= <-]. auto. Qed.

Lemma OK_delete_scraping_results_stmt db db' :
  OK db -> delete_scraping_results db = Ret db' -> OK db'.
Proof. intros Hdb [= <-]. auto. Qed.

Lemma OK_delete_analysis_results_stmt db db' :
  OK db -> delete_analysis_results db = Ret db' -> OK db'.
Proof. intros Hdb [= <-]. auto. Qed.

Lemma OK_create_table_if_not_exists db db' :
  OK db -> create_table_if_not_exists db = Ret db' -> OK db'.
Proof. now intros Hdb [= <-]. Qed.

(** One step of a body: the rule for the statement at hand. *)
Ltac prim :=
  lazymatch goal with
  | |- triple _ connect _ =>
      apply (triple_connect _ OK body_inv_database)
  | |- triple _ (commit _) _ =>
      apply (triple_commit _ OK body_inv_commit); assumption
  | |- triple _ close _ => apply triple_close
  | |- triple _ strftime _ => apply triple_strftime
  | |- triple _ (lift _) _ => apply triple_lift
  | |- triple _ (open_read _) _ => apply triple_open_read
  | |- triple _ (json_load _) _ => apply triple_json_load
  | |- triple _ (open_write _) _ => apply (triple_write_file _ body_inv_files)
  | |- triple _ (json_dump _ _) _ => apply (triple_json_dump _ body_inv_files)
  | |- triple _ (execute _ _) _ =>
      let a := fresh "a" in
      let Ha := fresh "Ha" in
      apply triple_execute with (V := OK); intros a Ha;
      solve [ eapply OK_insert_conversation; [|exact Ha]; assumption
            | eapply OK_replace_preference_stmt; [|exact Ha]; assumption
            | eapply OK_insert_scraping_result; [|exact Ha]; assumption
            | eapply OK_insert_analysis_result; [|exact Ha]; assumption
            | eapply OK_delete_conversations_stmt; [|exact Ha]; assumption
            | eapply OK_delete_preferences_stmt; [|exact Ha]; assumption
            | eapply OK_delete_scraping_results_stmt; [|exact Ha]; assumption
            | eapply OK_delete_analysis_results_stmt; [|exact Ha]; assumption
            | eapply OK_create_table_if_not_exists; [|exact Ha]; assumption ]
  | |- triple _ (ret _) _ => apply triple_ret; try assumption; exact Logic.I
  | |- triple _ (mret _) _ => apply triple_ret; try assumption; exact Logic.I
  end.

Ltac steps :=
  repeat first
    [ prim
    | (eapply triple_bind; [prim|]; intros ? ?)
    | (eapply triple_bind;
       [apply triple_execute with (V := fun _ => True); intros; exact Logic.I|];
       intros ? ?) ].

Lemma import_conversation_triple conv conn :
  OK conn -> triple body_inv (import_conversation conv conn) OK.
Proof. intros Hc. unfold import_conversation. steps. Qed.

Lemma import_preference_triple kv conn :
  is_str_key (fst kv) = true ->
  OK conn -> triple body_inv (import_preference kv conn) OK.
Proof.
  destruct kv as [[| | |s] v]; try discriminate. intros _ Hc.
  unfold import_preference. simpl. steps.
Qed.

Lemma import_scraping_result_triple r conn :
  OK conn -> triple body_inv (import_scraping_result r conn) OK.
Proof. intros Hc. unfold import_scraping_result. steps. Qed.

Lemma import_analysis_result_triple r conn :
  OK conn -> triple body_inv (import_analysis_result r conn) OK.
Proof. intros Hc. unfold import_analysis_result. steps. Qed.

(** The [try]/[except] of every method: the result is a value; either the
    body completed and printed nothing, or the fallback is returned and one
    diagnostic has been printed. *)
Lemma guarded_spec {A} (body : M A) (msg : string) (a : A) env w :
  triple body_inv body (fun _ => True) -> body_inv w ->
  exists r w',
    call (try_except body (fun e => print msg;; mret a)) env w = (Ret r, w')
    /\ OK (database w')
    /\ files w' = files ((body env w).2)
    /\ (stdout w' = s0 \/ (r = a /\ stdout w' = s0 ++ [msg])).
Proof.
  intros Hb Hw. destruct (Hb env w Hw) as [[Hdb Hout] _].
  unfold call, try_except.
  destruct (body env w) as [[[r|e] env'] w']; simpl in *.
  - exists r, w'. auto.
  - eexists _, _. split; [reflexivity|]. simpl.
    rewrite Hout. auto.
Qed.

Lemma returning_spec {A} (f : A -> pyval) (m : M A) env w r w' :
  call m env w = (Ret r, w') -> call (returning f m) env w = (Ret (f r), w').
Proof.
  unfold call, returning, mbind, M_bind, bind.
  destruct (m env w) as [[[a|e] env'] w'']; intros [= -> ->]; reflexivity.
Qed.

Ltac loops :=
  repeat first
    [ prim
    | (eapply triple_bind; [prim|]; intros ? ?)
    | (eapply triple_bind;
       [apply triple_for_each with (V := OK);
        [intros;
         lazymatch goal with
         | |- triple _ (import_conversation _ _) _ =>
             now apply import_conversation_triple
         | |- triple _ (import_scraping_result _ _) _ =>
             now apply import_scraping_result_triple
         | |- triple _ (import_analysis_result _ _) _ =>
             now apply import_analysis_result_triple
         end
        | assumption ]|];
       intros ? ?) ].

Ltac selects :=
  repeat first
    [ prim
    | (eapply triple_bind; [prim|]; intros ? ?)
    | (eapply triple_bind;
       [apply triple_execute with (V := fun _ => True); intros; exact Logic.I|];
       intros ? ?) ].

(** Every call answers with a value and leaves an [OK] database; either
    nothing was printed, or the answer is the fallback and one diagnostic
    was printed. *)
Lemma exec_spec op env w :
  body_inv w ->
  exists r w',
    call (exec op) env w = (Ret r, w')
    /\ OK (database w')
    /\ (stdout w' = s0
        \/ (r = fallback op /\ exists msg, stdout w' = s0 ++ [msg])).
Proof.
  intros Hw.
  assert (Hfin : forall {A} (f : A -> pyval) (body : M A) msg a,
    triple body_inv body (fun _ => True) ->
    exists r w',
      call (returning f (try_except body (fun e => print msg;; mret a))) env w
      = (Ret r, w')
      /\ OK (database w')
      /\ (stdout w' = s0 \/ (r = f a /\ exists msg, stdout w' = s0 ++ [msg]))).
  { intros A f body msg a Hb.
    destruct (guarded_spec body msg a env w Hb Hw)
      as (r & w' & Hcall & Hdb & _ & Hout).
    exists (f r), w'. split; [now apply returning_spec|]. split; [assumption|].
    destruct Hout as [?|[-> ?]]; eauto. }
  assert (Hfin' : forall (body : M pyval) msg a,
    triple body_inv body (fun _ => True) ->
    exists r w',
      call (try_except body (fun e => print msg;; mret a)) env w = (Ret r, w')
      /\ OK (database w')
      /\ (stdout w' = s0 \/ (r = a /\ exists msg, stdout w' = s0 ++ [msg]))).
  { intros body msg a Hb.
    destruct (guarded_spec body msg a env w Hb Hw)
      as (r & w' & Hcall & Hdb & _ & Hout).
    exists r, w'. split; [assumption|]. split; [assumption|].
    destruct Hout as [?|[-> ?]]; eauto. }
  destruct op; simpl; first [apply Hfin | apply Hfin']; selects.
  - match goal with |- triple _ (match ?x with _ => _ end) _ => destruct x end;
      selects.
  - eapply triple_bind with (V := OK).
    { match goal with |- triple _ (if ?b then _ else _) _ => destruct b end;
        selects. }
    intros conn Hconn. loops. cbv beta in *.
    match goal with
    | Hn : json_native ?doc = true,
      Hp : obind (py_get ?doc "preferences" (PyDict [])) py_items = Ret ?prefs
      |- _ => pose proof (py_items_native doc "preferences" prefs Hn Hp) as Hkeys
    end.
    eapply triple_bind.
    { apply triple_for_each with (V := OK); [|assumption].
      intros kv conn' Hin Hconn'. apply import_preference_triple; [|assumption].
      rewrite forallb_forall in Hkeys. apply Hkeys. now apply in_map. }
    intros ? ?. loops.
Qed.
End Invariant.

(* ===================================================================== *)
(** ** The methods when no fault occurs *)
(* ===================================================================== *)

Definition set_database (db : Database) (w : World) : World :=
  {| database := db; files := files w; stdout := stdout w |}.

Definition log (msg : string) (w : World) : World :=
  {| database := database w; files := files w; stdout := stdout w ++ [msg] |}.

Ltac unfold_monad :=
  repeat progress
    unfold call, try_except, mbind, M_bind, bind, mret, M_ret, ret, raise, lift,
      connect, execute, commit, close, io, strftime, get_world, put_world,
      print, open_read, json_load, open_write, json_dump, write_file.

Ltac run_quiet := unfold_monad; unfold quiet; simpl.


(** Case analysis on the fault schedule, one I/O step after the other. *)
Ltac run_any :=
  unfold_monad; simpl;
  repeat match goal with
         | |- context [match ?s with [] => _ | _ :: _ => _ end] =>
             destruct s as [|[?|] ?]; simpl
         end.

(** A save either leaves the database as it was or adds one row stamped with
    the clock of the call; it answers [True] only in the second case. *)
Lemma save_conversation_effect v env w :
  let r := call (save_conversation v) env w in
  (database r.2 = database w /\ r.1 = Ret false)
  \/ exists j,
       dumps v = Ret j
       /\ database r.2
          = set_conversations
              (sql_insert {| conv_timestamp := Some (now env);
                             conversation_data := j |})
              (database w)
       /\ exists b, r.1 = Ret b.
Proof.
  destruct env as [t s]. unfold save_conversation.
  destruct (dumps v) as [j|e] eqn:Hd; run_any; rewrite ?Hd; simpl;
    run_any; eauto 6.
Qed.

(* ===================================================================== *)
(** ** Row ids *)
(* ===================================================================== *)

(** The three categories whose rows get their id from AUTOINCREMENT. *)
Inductive auto_table : Type := Conversations | ScrapingResults | AnalysisResults.

Definition ids_of (c : auto_table) (db : Database) : list Z :=
  match c with
  | Conversations => map rowid (rows (conversations db))
  | ScrapingResults => map rowid (rows (scraping_results db))
  | AnalysisResults => map rowid (rows (analysis_results db))
  end.

Definition seq_of (c : auto_table) (db : Database) : Z :=
  match c with
  | Conversations => seq (conversations db)
  | ScrapingResults => seq (scraping_results db)
  | AnalysisResults => seq (analysis_results db)
  end.

Definition db_wf (db : Database) : Prop :=
  table_wf (conversations db) /\ table_wf (scraping_results db)
  /\ table_wf (analysis_results db).

(** [db] comes after [d0]: the counters did not go back, and an id of [db]
    that [d0] does not have is beyond the counter of [d0]. *)
Definition later (d0 db : Database) : Prop :=
  db_wf db
  /\ forall c,
       seq_of c d0 <= seq_of c db
       /\ forall x, In x (ids_of c db) -> In x (ids_of c d0) \/ seq_of c d0 < x.


Lemma later_refl db : db_wf db -> later db db.
Proof. intros Hwf. split; [assumption|]. intros c. split; [lia|auto]. Qed.

Lemma insert_ids {C} (c : C) (t : table C) x :
  table_wf t -> In x (map rowid (rows (sql_insert c t))) ->
  In x (map rowid (rows t)) \/ x = seq t + 1.
Proof.
  intros Hwf. rewrite (sql_insert_wf_eq _ _ Hwf); simpl.
  rewrite map_app, in_app_iff; simpl. intuition.
Qed.

Lemma insert_seq {C} (c : C) (t : table C) :
  table_wf t -> seq (sql_insert c t) = seq t + 1.
Proof. intros Hwf. now rewrite (sql_insert_wf_eq _ _ Hwf). Qed.

Section Later.
Variable d0 : Database.

Ltac later_insert Hwf Hlater c' :=
  split;
  [ unfold db_wf in *; simpl; intuition auto using sql_insert_wf
  | intros c'; destruct (Hlater c') as [Hseq Hids];
    destruct Hwf as (Hw1 & Hw2 & Hw3);
    destruct c'; simpl in *;
    rewrite ?insert_seq by assumption;
    (split; [lia|]); intros x Hx;
    try (apply insert_ids in Hx; [|assumption]; destruct Hx as [Hx| ->];
         [|right; lia]);
    destruct (Hids x Hx); auto ].

Lemma later_insert_conversations c db :
  later d0 db -> later d0 (set_conversations (sql_insert c) db).
Proof. intros [Hwf Hlater]. later_insert Hwf Hlater c'. Qed.

Lemma later_insert_scraping_results c db :
  later d0 db -> later d0 (set_scraping_results (sql_insert c) db).
Proof. intros [Hwf Hlater]. later_insert Hwf Hlater c'. Qed.

Lemma later_insert_analysis_results c db :
  later d0 db -> later d0 (set_analysis_results (sql_insert c) db).
Proof. intros [Hwf Hlater]. later_insert Hwf Hlater c'. Qed.

Ltac later_delete Hwf Hlater c' :=
  split;
  [ unfold db_wf in *; simpl; intuition auto using sql_delete_all_wf
  | intros c'; destruct (Hlater c') as [Hseq Hids];
    destruct c'; simpl in *; (split; [lia|]); intros x Hx;
    try contradiction; auto ].

Lemma later_delete_conversations db :
  later d0 db -> later d0 (set_conversations sql_delete_all db).
Proof. intros [Hwf Hlater]. later_delete Hwf Hlater c'. Qed.

Lemma later_delete_scraping_results db :
  later d0 db -> later d0 (set_scraping_results sql_delete_all db).
Proof. intros [Hwf Hlater]. later_delete Hwf Hlater c'. Qed.

Lemma later_delete_analysis_results db :
  later d0 db -> later d0 (set_analysis_results sql_delete_all db).
Proof. intros [Hwf Hlater]. later_delete Hwf Hlater c'. Qed.

Lemma later_set_preferences f db :
  later d0 db -> later d0 (set_preferences f db).
Proof. intros H; exact H. Qed.
End Later.

Lemma later_trans d0 d1 d2 : later d0 d1 -> later d1 d2 -> later d0 d2.
Proof.
  intros [_ H01] [Hwf H12]. split; [assumption|]. intros c.
  destruct (H01 c) as [Hs01 Hi01], (H12 c) as [Hs12 Hi12].
  split; [lia|]. intros x Hx.
  destruct (Hi12 x Hx) as [Hx1|Hx1]; [|right; lia].
  destruct (Hi01 x Hx1); auto.
Qed.

(** One call, in any environment, takes a well-formed database to a later
    one. *)
Lemma exec_later op env w :
  db_wf (database w) -> later (database w) (database (call (exec op) env w).2).
Proof.
  intros Hwf.
  destruct (exec_spec (later (database w))
              (later_insert_conversations _) (later_delete_conversations _)
              (fun k v => later_set_preferences _ (sql_replace (Some k) v))
              (later_set_preferences _ (fun _ => []))
              (later_insert_scraping_results _) (later_delete_scraping_results _)
              (later_insert_analysis_results _) (later_delete_analysis_results _)
              (stdout w) op env w)
    as (r & w' & Hcall & Hlater & _).
  { split; [now apply later_refl|reflexivity]. }
  now rewrite Hcall.
Qed.

Lemma run_later calls w :
  db_wf (database w) -> later (database w) (database (run calls w)).
Proof.
  revert w. induction calls as [|[op env] calls IH]; intros w Hwf; simpl.
  - now apply later_refl.
  - pose proof (exec_later op env w Hwf) as H1.
    eapply later_trans; [exact H1|]. apply IH. apply H1.
Qed.

Lemma empty_database_wf : db_wf empty_database.
Proof.
  unfold db_wf, table_wf; simpl. repeat split; try constructor; lia.
Qed.


Example ids_after_a_clear :
  let w := run [(SaveConversation (PyList []), quiet "t1");
                (SaveConversation (PyList []), quiet "t2");
                (ClearConversationData, quiet "t3");
                (SaveConversation (PyList []), quiet "t4")] new_world in
  ids_of Conversations (database w) = [3].
Proof. vm_compute. reflexivity. Qed.


(* ===================================================================== *)
(** ** Clearing *)
(* ===================================================================== *)

Lemma clear_memory_cases memory_type :
  clear_memory memory_type
  = if String.eqb memory_type "all" then clear_all_data
    else if String.eqb memory_type "conversations" then clear_conversation_data
    else if String.eqb memory_type "scraping" then clear_scraping_data
    else if String.eqb memory_type "analysis" then clear_analysis_data
    else ret false.
Proof. reflexivity. Qed.

(** A clear either leaves the database as it was and answers [False], or
    commits the deletions. *)
Lemma clear_conversation_data_effect env w :
  let r := call clear_conversation_data env w in
  (database r.2 = database w /\ r.1 = Ret false)
  \/ (database r.2 = set_conversations sql_delete_all (database w)
      /\ exists b, r.1 = Ret b).
Proof.
  destruct env as [t s]. unfold clear_conversation_data. run_any;
    first [ left; split; reflexivity
          | right; split; [reflexivity|eexists; reflexivity] ].
Qed.

Lemma clear_scraping_data_effect env w :
  let r := call clear_scraping_data env w in
  (database r.2 = database w /\ r.1 = Ret false)
  \/ (database r.2 = set_scraping_results sql_delete_all (database w)
      /\ exists b, r.1 = Ret b).
Proof.
  destruct env as [t s]. unfold clear_scraping_data. run_any;
    first [ left; split; reflexivity
          | right; split; [reflexivity|eexists; reflexivity] ].
Qed.

Lemma clear_analysis_data_effect env w :
  let r := call clear_analysis_data env w in
  (database r.2 = database w /\ r.1 = Ret false)
  \/ (database r.2 = set_analysis_results sql_delete_all (database w)
      /\ exists b, r.1 = Ret b).
Proof.
  destruct env as [t s]. unfold clear_analysis_data. run_any;
    first [ left; split; reflexivity
          | right; split; [reflexivity|eexists; reflexivity] ].
Qed.

Definition cleared (db : Database) : Database :=
  set_analysis_results sql_delete_all
    (set_scraping_results sql_delete_all
       (set_preferences (fun _ => [])
          (set_conversations sql_delete_all db))).

Lemma clear_all_data_effect env w :
  let r := call clear_all_data env w in
  (database r.2 = database w /\ r.1 = Ret false)
  \/ (database r.2 = cleared (database w) /\ exists b, r.1 = Ret b).
Proof.
  destruct env as [t s]. unfold clear_all_data. run_any;
    first [ left; split; reflexivity
          | right; split; [reflexivity|eexists; reflexivity] ].
Qed.

(** C4, as the code has it.  The store clears by category for "all",
    "conversations", "scraping" and "analysis".  When no fault occurs the
    call answers [True]; under any faults it either answers [False] and
    leaves the database as it was, or the deletion is committed.  A committed
    clear of one category empties the table of that category and leaves the
    three other categories, preferences included, exactly as they were; a
    committed clear of "all" empties the four of them.  Any other category
    name, "preferences" among them, is answered [False] without touching
    the store. *)
Theorem clear_by_category (env : Env) (w : World) :
  let db := database w in
  (forall t, (call (clear_memory "conversations") (quiet t) w).1 = Ret true
          /\ (call (clear_memory "scraping") (quiet t) w).1 = Ret true
          /\ (call (clear_memory "analysis") (quiet t) w).1 = Ret true
          /\ (call (clear_memory "all") (quiet t) w).1 = Ret true)
  /\ (let r := call (clear_memory "conversations") env w in
      (database r.2 = db /\ r.1 = Ret false)
      \/ (rows (conversations (database r.2)) = []
          /\ preferences (database r.2) = preferences db
          /\ scraping_results (database r.2) = scraping_results db
          /\ analysis_results (database r.2) = analysis_results db))
  /\ (let r := call (clear_memory "scraping") env w in
      (database r.2 = db /\ r.1 = Ret false)
      \/ (rows (scraping_results (database r.2)) = []
          /\ conversations (database r.2) = conversations db
          /\ preferences (database r.2) = preferences db
          /\ analysis_results (database r.2) = analysis_results db))
  /\ (let r := call (clear_memory "analysis") env w in
      (database r.2 = db /\ r.1 = Ret false)
      \/ (rows (analysis_results (database r.2)) = []
          /\ conversations (database r.2) = conversations db
          /\ preferences (database r.2) = preferences db
          /\ scraping_results (database r.2) = scraping_results db))
  /\ (let r := call (clear_memory "all") env w in
      (database r.2 = db /\ r.1 = Ret false)
      \/ (rows (conversations (database r.2)) = []
          /\ preferences (database r.2) = []
          /\ rows (scraping_results (database r.2)) = []
          /\ rows (analysis_results (database r.2)) = []))
  /\ (forall memory_type,
        memory_type <> "all" /\ memory_type <> "conversations"
        /\ memory_type <> "scraping" /\ memory_type <> "analysis" ->
        call (clear_memory memory_type) env w = (Ret false, w)).
Proof.
  intros db. split; [|split; [|split; [|split; [|split]]]].
  - intros t. repeat split; reflexivity.
  - change (clear_memory "conversations") with clear_conversation_data.
    destruct (clear_conversation_data_effect env w) as [H|[H _]];
      [left; exact H|right]. rewrite H. repeat split.
  - change (clear_memory "scraping") with clear_scraping_data.
    destruct (clear_scraping_data_effect env w) as [H|[H _]];
      [left; exact H|right]. rewrite H. repeat split.
  - change (clear_memory "analysis") with clear_analysis_data.
    destruct (clear_analysis_data_effect env w) as [H|[H _]];
      [left; exact H|right]. rewrite H. repeat split.
  - change (clear_memory "all") with clear_all_data.
    destruct (clear_all_data_effect env w) as [H|[H _]];
      [left; exact H|right]. rewrite H. repeat split.
  - intros memory_type (H1 & H2 & H3 & H4). rewrite clear_memory_cases.
    apply String.eqb_neq in H1, H2, H3, H4. rewrite H1, H2, H3, H4.
    reflexivity.
Qed.

(** The witness of [clear_by_category] for a name outside the four. *)
Lemma clear_by_category_witness :
  ("preferences" <> "all" /\ "preferences" <> "conversations"
   /\ "preferences" <> "scraping" /\ "preferences" <> "analysis")
  /\ call (clear_memory "preferences") (quiet "t") new_world
     = (Ret false, new_world).
Proof.
  split.
  - repeat split; discriminate.
  - apply (clear_by_category (quiet "t") new_world).
    repeat split; discriminate.
Defined.

(** C4, as stated, fails: there is no clear for the category "preferences".
    On a store holding one preference, asking to clear "preferences" is
    answered [False] and the preference is still there. *)
Lemma clear_preferences_is_not_provided :
  let w := run [(SavePreference "theme" (PyStr "dark"), quiet "t1")] new_world in
  call (clear_memory "preferences") (quiet "t2") w = (Ret false, w)
  /\ preferences (database w) = [(Some "theme", JStr "dark")]
  /\ (call (load_preference "theme" PyNone) (quiet "t3") w).1
     = Ret (PyStr "dark").
Proof. vm_compute. repeat split; reflexivity. Qed.


(* ===================================================================== *)
(** ** Saving and loading *)
(* ===================================================================== *)

Lemma save_scraping_result_effect url v env w :
  let r := call (save_scraping_result url v) env w in
  (database r.2 = database w /\ r.1 = Ret false)
  \/ exists j,
       dumps v = Ret j
       /\ database r.2
          = set_scraping_results
              (sql_insert {| scr_timestamp := Some (now env);
                             scr_url := Some url; scr_data := j |})
              (database w)
       /\ exists b, r.1 = Ret b.
Proof.
  destruct env as [t s]. unfold save_scraping_result.
  destruct (dumps v) as [j|e] eqn:Hd; run_any; rewrite ?Hd; simpl;
    run_any; eauto 6.
Qed.

Lemma save_analysis_result_effect description v env w :
  let r := call (save_analysis_result description v) env w in
  (database r.2 = database w /\ r.1 = Ret false)
  \/ exists j,
       dumps v = Ret j
       /\ database r.2
          = set_analysis_results
              (sql_insert {| ana_timestamp := Some (now env);
                             ana_description := Some description;
                             ana_data := j |})
              (database w)
       /\ exists b, r.1 = Ret b.
Proof.
  destruct env as [t s]. unfold save_analysis_result.
  destruct (dumps v) as [j|e] eqn:Hd; run_any; rewrite ?Hd; simpl;
    run_any; eauto 6.
Qed.



Lemma load_conversations_quiet limit t w :
  call (load_conversations limit) (quiet t) w
  = match select_recent limit (conversations (database w)) with
    | Ret rs => (Ret (map conversation_entry rs), w)
    | Raise _ => (Ret [], log "Error loading conversations" w)
    end.
Proof.
  unfold load_conversations. run_quiet.
  destruct (select_recent limit _); reflexivity.
Qed.

Lemma load_scraping_results_quiet limit t w :
  call (load_scraping_results limit) (quiet t) w
  = match select_recent limit (scraping_results (database w)) with
    | Ret rs => (Ret (map scraping_entry rs), w)
    | Raise _ => (Ret [], log "Error loading scraping results" w)
    end.
Proof.
  unfold load_scraping_results. run_quiet.
  destruct (select_recent limit _); reflexivity.
Qed.

Lemma load_analysis_results_quiet limit t w :
  call (load_analysis_results limit) (quiet t) w
  = match select_recent limit (analysis_results (database w)) with
    | Ret rs => (Ret (map analysis_entry rs), w)
    | Raise _ => (Ret [], log "Error loading analysis results" w)
    end.
Proof.
  unfold load_analysis_results. run_quiet.
  destruct (select_recent limit _); reflexivity.
Qed.

(** The query of the three loads on a table in rowid order. *)
Lemma select_recent_wf {C} (limit : Z) (t : table C) :
  table_wf t -> int64_min <= limit <= int64_max ->
  select_recent limit t = Ret (sql_limit limit (rev (rows t))).
Proof.
  intros (Hs & _) Hl. unfold select_recent.
  rewrite bind_integer_in_range by assumption. simpl.
  now rewrite order_by_id_desc_rev.
Qed.

Lemma select_recent_overflow {C} (limit : Z) (t : table C) :
  limit < int64_min \/ int64_max < limit ->
  select_recent limit t = Raise OverflowError.
Proof.
  intros Hl. unfold select_recent.
  now rewrite bind_integer_out_of_range.
Qed.

(** C10, as the code has it.  On a store in a consistent state and with no
    fault, a negative limit that fits in a signed 64-bit integer makes
    each of the three loads return all the rows of its category, newest
    first; the limit zero makes them return the empty list. *)
Theorem negative_limit_loads_everything (w : World) (limit : Z) (t : string) :
  db_wf (database w) ->
  int64_min <= limit < 0 ->
  let db := database w in
  call (load_conversations limit) (quiet t) w
  = (Ret (map conversation_entry (rev (rows (conversations db)))), w)
  /\ call (load_scraping_results limit) (quiet t) w
     = (Ret (map scraping_entry (rev (rows (scraping_results db)))), w)
  /\ call (load_analysis_results limit) (quiet t) w
     = (Ret (map analysis_entry (rev (rows (analysis_results db)))), w)
  /\ call (load_conversations 0) (quiet t) w = (Ret [], w)
  /\ call (load_scraping_results 0) (quiet t) w = (Ret [], w)
  /\ call (load_analysis_results 0) (quiet t) w = (Ret [], w).
Proof.
  intros (Hc & Hs & Ha) Hl db.
  assert (Hr : int64_min <= limit <= int64_max) by (unfold int64_max; lia).
  assert (H0 : int64_min <= 0 <= int64_max) by (unfold int64_min, int64_max; lia).
  rewrite !load_conversations_quiet, !load_scraping_results_quiet,
    !load_analysis_results_quiet.
  rewrite !select_recent_wf by assumption.
  rewrite !sql_limit_negative by lia.
  repeat split.
Qed.

Definition two_conversations : World :=
  run [(SaveConversation (PyList [PyDict [(KStr "role", PyStr "user");
                                          (KStr "content", PyStr "hi")]]),
        quiet "2024-01-01 10:00:00");
       (SaveConversation (PyList []), quiet "2024-01-01 10:00:05")]
      new_world.

Lemma two_conversations_wf : db_wf (database two_conversations).
Proof.
  unfold db_wf, table_wf. vm_compute.
  repeat split; repeat constructor; discriminate.
Qed.

Lemma negative_limit_loads_everything_witness :
  db_wf (database two_conversations)
  /\ int64_min <= -1 < 0
  /\ call (load_conversations (-1)) (quiet "2024-01-01 10:01:00") two_conversations
     = (Ret (map conversation_entry
               (rev (rows (conversations (database two_conversations))))),
        two_conversations).
Proof.
  split; [exact two_conversations_wf|].
  split; [unfold int64_min; lia|].
  apply (negative_limit_loads_everything two_conversations (-1)
           "2024-01-01 10:01:00").
  - exact two_conversations_wf.
  - unfold int64_min; lia.
Defined.

(** C10, as stated, fails: a negative limit below -2^63 cannot be bound to
    the statement; the load catches the [OverflowError], prints, and
    returns the empty list although the category has rows. *)
Lemma negative_limit_below_int64 :
  -9223372036854775809 < 0
  /\ length (rows (conversations (database two_conversations))) = 2%nat
  /\ call (load_conversations (-9223372036854775809)) (quiet "t")
          two_conversations
     = (Ret [], log "Error loading conversations" two_conversations).
Proof. split; [lia|]. split; vm_compute; reflexivity. Qed.


(** The answers of a sequence of calls, in order. *)
Fixpoint answers (calls : list (operation * Env)) (w : World)
  : list (outcome pyval) :=
  match calls with
  | [] => []
  | (op, env) :: rest =>
      (call (exec op) env w).1 :: answers rest (call (exec op) env w).2
  end.

(** [save_conversation] called with each payload in turn, each call in its
    own environment. *)
Definition save_calls (calls : list (pyval * Env)) : list (operation * Env) :=
  map (fun c => (SaveConversation (fst c), snd c)) calls.

Lemma call_returning {A} (f : A -> pyval) (m : M A) env w :
  call (returning f m) env w
  = (match (call m env w).1 with Ret a => Ret (f a) | Raise e => Raise e end,
     (call m env w).2).
Proof.
  unfold call, returning, mbind, M_bind, bind.
  destruct (m env w) as [[[a|e] env'] w']; reflexivity.
Qed.

(** The conversations that [calls] have appended when each call answered
    [True]. *)
Lemma save_calls_rows calls w :
  table_wf (conversations (database w)) ->
  Forall (fun a => a = Ret (PyBool true)) (answers (save_calls calls) w) ->
  exists cs,
    Forall2 (fun c col => dumps (fst c) = Ret (conversation_data col)
                          /\ conv_timestamp col = Some (now (snd c))) calls cs
    /\ conversations (database (run (save_calls calls) w))
       = insert_all cs (conversations (database w)).
Proof.
  revert w. induction calls as [|[v env] calls IH]; intros w Hwf Hans; simpl in *.
  - exists []. split; [constructor|reflexivity].
  - inversion Hans as [|? ? Hans1 Hans2]; subst. clear Hans.
    rewrite call_returning in *; simpl in *.
    destruct (save_conversation_effect v env w) as [[_ Hf]|(j & Hj & Hdb & _)].
    { rewrite Hf in Hans1. discriminate. }
    destruct (IH _ ltac:(rewrite Hdb; simpl; now apply sql_insert_wf) Hans2)
      as (cs & Hcs & Hrows).
    exists ({| conv_timestamp := Some (now env); conversation_data := j |} :: cs).
    split; [constructor; [split; [exact Hj|reflexivity]|exact Hcs]|].
    rewrite Hrows, Hdb. reflexivity.
Qed.

Lemma take_rev_app {A} (k : nat) (old new : list A) :
  (k <= length new)%nat -> take k (rev (old ++ new)) = take k (rev new).
Proof.
  intros Hk. rewrite rev_app_distr. apply take_app_le.
  now rewrite length_rev.
Qed.

(** C1, as the code has it.  Take a store whose conversations are in a
    consistent state and N calls of [save_conversation], under any faults,
    that each answered [True].  Then N rows [news] have been added after
    the existing ones, one per call and in the order of the calls, each
    holding the JSON text of its payload and the clock of its call, with
    ids that increase along the calls.  With no fault during the load, for
    every k from 0 to N that fits in a signed 64-bit integer,
    [load_conversations(k)] returns the entries of the k last of them,
    newest first (for k = N: all N, in the reverse order of the calls); and
    a limit that is at least the number of stored rows and at most 2^63 - 1
    returns all the stored rows, newest first. *)
Theorem load_after_saves (w : World) (calls : list (pyval * Env)) (t : string) :
  table_wf (conversations (database w)) ->
  Forall (fun a => a = Ret (PyBool true)) (answers (save_calls calls) w) ->
  let w' := run (save_calls calls) w in
  let old := rows (conversations (database w)) in
  exists news,
    rows (conversations (database w')) = old ++ news
    /\ Forall2 (fun c r =>
                  dumps (fst c) = Ret (conversation_data (cols r))
                  /\ conv_timestamp (cols r) = Some (now (snd c)))
               calls news
    /\ StronglySorted Z.lt (map rowid news)
    /\ (forall k : nat,
          (k <= length calls)%nat -> Z.of_nat k <= int64_max ->
          call (load_conversations (Z.of_nat k)) (quiet t) w'
          = (Ret (map conversation_entry (take k (rev news))), w'))
    /\ (forall limit : Z,
          Z.of_nat (length (old ++ news)) <= limit <= int64_max ->
          call (load_conversations limit) (quiet t) w'
          = (Ret (map conversation_entry (rev (old ++ news))), w')).
Proof.
  intros Hwf Hans w' old.
  destruct (save_calls_rows calls w Hwf Hans) as (cs & Hcs & Htable).
  fold w' in Htable.
  assert (Hwf' : table_wf (conversations (database w'))).
  { rewrite Htable. now apply insert_all_wf. }
  assert (Hrows : rows (conversations (database w'))
                  = old ++ number_from (seq (conversations (database w)) + 1) cs).
  { rewrite Htable. now apply insert_all_rows. }
  set (news := number_from (seq (conversations (database w)) + 1) cs) in *.
  assert (Hlen : length news = length calls).
  { unfold news. rewrite number_from_length.
    symmetry. eapply Forall2_length; eauto. }
  exists news. split; [exact Hrows|]. split; [|split; [|split]].
  - unfold news. clear -Hcs.
    generalize (seq (conversations (database w)) + 1) as i.
    induction Hcs as [|c col calls cs Hc _ IH]; intros i; simpl;
      constructor; auto.
  - destruct Hwf' as (Hsorted & _). rewrite Hrows, map_app in Hsorted.
    clear -Hsorted. induction (map rowid old) as [|x l IH]; simpl in *;
      [assumption|]. inversion Hsorted; subst. auto.
  - intros k Hk Hmax. rewrite load_conversations_quiet.
    rewrite select_recent_wf
      by (try assumption; unfold int64_min; lia).
    rewrite sql_limit_take, Hrows, take_rev_app by lia. reflexivity.
  - intros limit Hlimit. rewrite load_conversations_quiet.
    rewrite select_recent_wf
      by (try assumption; unfold int64_min; lia).
    rewrite Hrows, sql_limit_ge by (rewrite length_rev; lia). reflexivity.
Qed.

Lemma load_after_saves_witness :
  let w := new_world in
  let calls :=
    [(PyList [PyDict [(KStr "role", PyStr "user"); (KStr "content", PyStr "hi")]],
      quiet "2024-01-01 10:00:00");
     (PyList [], {| now := "2024-01-01 10:00:05"; schedule := [None; None] |})] in
  table_wf (conversations (database w))
  /\ Forall (fun a => a = Ret (PyBool true)) (answers (save_calls calls) w)
  /\ exists news,
       rows (conversations (database (run (save_calls calls) w)))
       = rows (conversations (database w)) ++ news
       /\ call (load_conversations 1) (quiet "2024-01-01 10:01:00")
               (run (save_calls calls) w)
          = (Ret (map conversation_entry (take 1 (rev news))),
             run (save_calls calls) w).
Proof.
  intros w calls.
  assert (Hwf : table_wf (conversations (database w))).
  { unfold table_wf; simpl. repeat split; try constructor; lia. }
  assert (Hans : Forall (fun a => a = Ret (PyBool true))
                        (answers (save_calls calls) w)).
  { vm_compute. repeat constructor. }
  split; [exact Hwf|]. split; [exact Hans|].
  destruct (load_after_saves w calls "2024-01-01 10:01:00" Hwf Hans)
    as (news & Hrows & _ & _ & Hload & _).
  exists news. split; [exact Hrows|].
  apply (Hload 1%nat); [simpl; lia|unfold int64_max; lia].
Defined.

(** C1, as stated, fails for its last clause: a limit larger than the
    number of stored records does not always return all the records.  With
    two conversations stored, the limit 2^63 cannot be bound to the
    statement; the load catches the [OverflowError], prints, and returns the
    empty list. *)
Lemma limit_above_int64 :
  Z.of_nat (length (rows (conversations (database two_conversations))))
  < 9223372036854775808
  /\ length (rows (conversations (database two_conversations))) = 2%nat
  /\ call (load_conversations 9223372036854775808) (quiet "t") two_conversations
     = (Ret [], log "Error loading conversations" two_conversations).
Proof. split; [vm_compute; reflexivity|]. split; vm_compute; reflexivity. Qed.


(* ===================================================================== *)
(** ** Payloads *)
(* ===================================================================== *)





(* ===================================================================== *)
(** ** Preferences *)
(* ===================================================================== *)

Lemma save_preference_quiet key v t w :
  call (save_preference key v) (quiet t) w
  = match dumps v with
    | Ret j =>
        (Ret true,
         set_database
           (set_preferences (sql_replace (Some key) j) (database w)) w)
    | Raise _ => (Ret false, log "Error saving preference" w)
    end.
Proof.
  unfold save_preference. run_quiet. destruct (dumps v); reflexivity.
Qed.

Lemma load_preference_quiet key default t w :
  call (load_preference key default) (quiet t) w
  = (Ret match select_value (Some key) (preferences (database w)) with
         | Some value => loads value
         | None => default
         end, w).
Proof.
  unfold load_preference. run_quiet.
  destruct (select_value _ _); reflexivity.
Qed.

(** Without a row for the key, the load answers the default, whatever the
    faults. *)
Lemma load_preference_missing key default env w :
  select_value (Some key) (preferences (database w)) = None ->
  (call (load_preference key default) env w).1 = Ret default.
Proof.
  intros Hnone. destruct env as [t s]. unfold load_preference.
  run_any; rewrite ?Hnone; simpl; run_any; reflexivity.
Qed.

Lemma select_value_absent k p :
  select_value k (List.filter (fun kv => negb (key_conflict (fst kv) k)) p) = None.
Proof.
  induction p as [|[k' v] p IH]; simpl; [reflexivity|].
  destruct (key_conflict k' k) eqn:Hk; simpl; [assumption|].
  now rewrite Hk.
Qed.

Lemma select_value_app_absent k p q :
  select_value k p = None -> select_value k (p ++ q) = select_value k q.
Proof.
  induction p as [|[k' v] p IH]; simpl; [reflexivity|].
  destruct (key_conflict k' k); [discriminate|assumption].
Qed.

Lemma select_value_replace key j p :
  select_value (Some key) (sql_replace (Some key) j p) = Some j.
Proof.
  unfold sql_replace.
  rewrite select_value_app_absent by apply select_value_absent.
  simpl. now rewrite String.eqb_refl.
Qed.

Lemma select_value_replace_other k k' j p :
  key_conflict k' k = false ->
  select_value k (sql_replace k' j p) = select_value k p.
Proof.
  intros Hk. unfold sql_replace.
  induction p as [|[k0 v0] p IH]; simpl.
  - now rewrite Hk.
  - destruct (key_conflict k0 k') eqn:H0; simpl.
    + destruct (key_conflict k0 k) eqn:H1; [|assumption].
      exfalso. destruct k0, k, k'; simpl in *; try discriminate.
      apply String.eqb_eq in H0, H1. subst.
      rewrite String.eqb_refl in Hk. discriminate.
    + destruct (key_conflict k0 k); [reflexivity|assumption].
Qed.

Lemma count_replace key j p :
  length (List.filter (fun kv => key_conflict (fst kv) (Some key))
                      (sql_replace (Some key) j p)) = 1%nat.
Proof.
  unfold sql_replace. rewrite List.filter_app, length_app. simpl.
  rewrite String.eqb_refl. simpl.
  induction p as [|[k' v] p IH]; simpl; [reflexivity|].
  destruct (key_conflict k' (Some key)) eqn:Hk; simpl; [assumption|].
  now rewrite Hk.
Qed.

(** C7, as the code has it.  Let [v2] be a value that [json.dumps] accepts,
    [j2] its JSON text.  After [save_preference(k, v1)], under any faults
    and whatever [v1] is, followed by [save_preference(k, v2)] with no
    fault, the table holds exactly one row for [k], and
    [load_preference(k, d)] returns the value that [j2] decodes to; this is
    [v2] itself when [v2] is built from [None], booleans, integers,
    strings, lists and dictionaries with string keys.  For a key that has
    no row, [load_preference] returns the caller's default, whatever the
    faults. *)
Theorem preference_upsert
    (k : string) (v1 v2 d : pyval) (j2 : json) (env1 : Env) (t2 t3 : string)
    (w : World) :
  dumps v2 = Ret j2 ->
  let w1 := (call (save_preference k v1) env1 w).2 in
  let w2 := (call (save_preference k v2) (quiet t2) w1).2 in
  call (load_preference k d) (quiet t3) w2 = (Ret (loads j2), w2)
  /\ (json_native v2 = true -> loads j2 = v2)
  /\ length (List.filter (fun kv => key_conflict (fst kv) (Some k))
                         (preferences (database w2))) = 1%nat
  /\ (forall k' env' w',
        select_value (Some k') (preferences (database w')) = None ->
        (call (load_preference k' d) env' w').1 = Ret d).
Proof.
  intros Hj w1 w2.
  assert (Hdb : preferences (database w2)
                = sql_replace (Some k) j2 (preferences (database w1))).
  { unfold w2. rewrite save_preference_quiet, Hj. reflexivity. }
  split; [|split; [|split]].
  - rewrite load_preference_quiet, Hdb, select_value_replace. reflexivity.
  - intros Hn. destruct (dumps_loads_native v2 Hn) as (j & Hj' & Hl).
    congruence.
  - rewrite Hdb. apply count_replace.
  - intros k' env' w' Hnone. now apply load_preference_missing.
Qed.

Lemma preference_upsert_witness :
  dumps (PyStr "dark") = Ret (JStr "dark")
  /\ (let w1 := (call (save_preference "theme" (PyStr "light"))
                      (quiet "t1") new_world).2 in
      let w2 := (call (save_preference "theme" (PyStr "dark"))
                      (quiet "t2") w1).2 in
      call (load_preference "theme" PyNone) (quiet "t3") w2
      = (Ret (loads (JStr "dark")), w2))
  /\ select_value (Some "missing") (preferences (database new_world)) = None
  /\ (call (load_preference "missing" (PyStr "fallback")) (quiet "t") new_world).1
     = Ret (PyStr "fallback").
Proof.
  split; [reflexivity|]. split; [|split; [reflexivity|]].
  - apply (preference_upsert "theme" (PyStr "light") (PyStr "dark") PyNone
             (JStr "dark") (quiet "t1") "t2" "t3" new_world).
    reflexivity.
  - apply (preference_upsert "theme" (PyStr "light") (PyStr "dark")
             (PyStr "fallback") (JStr "dark") (quiet "t1") "t2" "t3" new_world);
      reflexivity.
Defined.

(** C7, as stated, fails: the value that comes back need not be equal to the
    one written.  A tuple written as the second value (the call answers
    [True]) is read back as a list. *)
Lemma preference_value_is_coerced :
  let v2 := PyTuple [PyInt 800; PyInt 600] in
  let w1 := (call (save_preference "window" (PyInt 1)) (quiet "t1") new_world).2 in
  let saved := call (save_preference "window" v2) (quiet "t2") w1 in
  saved.1 = Ret true
  /\ (call (load_preference "window" PyNone) (quiet "t3") saved.2).1
     = Ret (PyList [PyInt 800; PyInt 600])
  /\ PyList [PyInt 800; PyInt 600] <> v2.
Proof.
  repeat split; try (vm_compute; reflexivity). discriminate.
Qed.


(* ===================================================================== *)
(** ** The import, statement by statement *)
(* ===================================================================== *)

(** A loop whose body can fail, without the monad. *)
Fixpoint ofold {A S} (step : A -> S -> outcome S) (l : list A) (s : S)
  : outcome S :=
  match l with
  | [] => Ret s
  | x :: r => obind (step x s) (ofold step r)
  end.

(** What one turn of each loop of [import_data] does to the connection's
    copy of the database. *)
Definition import_conversation_stmt (conv : pyval) (db : Database)
  : outcome Database :=
  obind (py_getitem conv "data") (fun data =>
  obind (dumps data) (fun data_json =>
  obind (py_getitem conv "timestamp") (fun timestamp =>
  insert_conversation timestamp data_json db))).

Definition import_preference_stmt (kv : pykey * pyval) (db : Database)
  : outcome Database :=
  obind (dumps (snd kv)) (fun value_json =>
  replace_preference (key_val (fst kv)) value_json db).

Definition import_scraping_result_stmt (result : pyval) (db : Database)
  : outcome Database :=
  obind (py_getitem result "data") (fun data =>
  obind (dumps data) (fun data_json =>
  obind (py_getitem result "timestamp") (fun timestamp =>
  obind (py_getitem result "url") (fun url =>
  insert_scraping_result timestamp url data_json db)))).

Definition import_analysis_result_stmt (result : pyval) (db : Database)
  : outcome Database :=
  obind (py_getitem result "data") (fun data =>
  obind (dumps data) (fun data_json =>
  obind (py_getitem result "timestamp") (fun timestamp =>
  obind (py_getitem result "description") (fun description =>
  insert_analysis_result timestamp description data_json db)))).

(** The statements of [import_data] on the decoded document, up to the
    commit. *)
Definition import_statements (import_data : pyval) (replace_existing : bool)
    (db : Database) : outcome Database :=
  let db := if replace_existing then cleared db else db in
  obind (obind (py_get import_data "conversations" (PyList [])) py_iter)
    (fun convs =>
  obind (ofold import_conversation_stmt convs db) (fun db =>
  obind (obind (py_get import_data "preferences" (PyDict [])) py_items)
    (fun prefs =>
  obind (ofold import_preference_stmt prefs db) (fun db =>
  obind (obind (py_get import_data "scraping_results" (PyList [])) py_iter)
    (fun results =>
  obind (ofold import_scraping_result_stmt results db) (fun db =>
  obind (obind (py_get import_data "analysis_results" (PyList [])) py_iter)
    (fun results =>
  ofold import_analysis_result_stmt results db))))))).

Lemma for_each_quiet {A S} (body : A -> S -> M S) (step : A -> S -> outcome S)
    (t : string) (w : World) :
  (forall x s, body x s (quiet t) w = (step x s, quiet t, w)) ->
  forall l s, for_each l body s (quiet t) w = (ofold step l s, quiet t, w).
Proof.
  intros Hbody. induction l as [|x l IH]; intros s; simpl; [reflexivity|].
  unfold mbind, M_bind, bind. rewrite Hbody.
  destruct (step x s); simpl; [apply IH|reflexivity].
Qed.

Lemma import_conversation_quiet conv conn t w :
  import_conversation conv conn (quiet t) w
  = (import_conversation_stmt conv conn, quiet t, w).
Proof.
  unfold import_conversation, import_conversation_stmt. unfold_monad; simpl.
  destruct (py_getitem conv "data"); simpl; [|reflexivity].
  destruct (dumps _); simpl; [|reflexivity].
  destruct (py_getitem conv "timestamp"); reflexivity.
Qed.

Lemma import_preference_quiet kv conn t w :
  import_preference kv conn (quiet t) w
  = (import_preference_stmt kv conn, quiet t, w).
Proof.
  unfold import_preference, import_preference_stmt. unfold_monad; simpl.
  destruct (dumps _); reflexivity.
Qed.

Lemma import_scraping_result_quiet r conn t w :
  import_scraping_result r conn (quiet t) w
  = (import_scraping_result_stmt r conn, quiet t, w).
Proof.
  unfold import_scraping_result, import_scraping_result_stmt.
  unfold_monad; simpl.
  destruct (py_getitem r "data"); simpl; [|reflexivity].
  destruct (dumps _); simpl; [|reflexivity].
  destruct (py_getitem r "timestamp"); simpl; [|reflexivity].
  destruct (py_getitem r "url"); reflexivity.
Qed.

Lemma import_analysis_result_quiet r conn t w :
  import_analysis_result r conn (quiet t) w
  = (import_analysis_result_stmt r conn, quiet t, w).
Proof.
  unfold import_analysis_result, import_analysis_result_stmt.
  unfold_monad; simpl.
  destruct (py_getitem r "data"); simpl; [|reflexivity].
  destruct (dumps _); simpl; [|reflexivity].
  destruct (py_getitem r "timestamp"); simpl; [|reflexivity].
  destruct (py_getitem r "description"); reflexivity.
Qed.

(** With no fault, the import answers [True] and commits exactly when the
    file holds a document on which all the statements succeed; otherwise it
    answers [False] and the database is as before. *)
Lemma import_data_quiet file_path replace_existing t w :
  call (import_data file_path replace_existing) (quiet t) w
  = match files w !! file_path with
    | Some (FileJson j) =>
        match import_statements (loads j) replace_existing (database w) with
        | Ret db => (Ret true, set_database db w)
        | Raise _ => (Ret false, log "Error importing data" w)
        end
    | _ => (Ret false, log "Error importing data" w)
    end.
Proof.
  unfold import_data, import_statements, cleared. unfold_monad; simpl.
  destruct (files w !! file_path) as [[j|]|]; simpl; try reflexivity.
  destruct replace_existing; simpl.
  all: destruct (obind (py_get (loads j) "conversations" (PyList [])) py_iter)
         as [convs|]; simpl; [|reflexivity].
  all: rewrite (for_each_quiet _ _ _ _ (fun x s => import_conversation_quiet x s t w)).
  all: destruct (ofold import_conversation_stmt convs _) as [db1|]; simpl;
         [|reflexivity].
  all: destruct (obind (py_get (loads j) "preferences" (PyDict [])) py_items)
         as [prefs|]; simpl; [|reflexivity].
  all: rewrite (for_each_quiet _ _ _ _ (fun x s => import_preference_quiet x s t w)).
  all: destruct (ofold import_preference_stmt prefs db1) as [db2|]; simpl;
         [|reflexivity].
  all: destruct (obind (py_get (loads j) "scraping_results" (PyList [])) py_iter)
         as [srs|]; simpl; [|reflexivity].
  all: rewrite (for_each_quiet _ _ _ _
                  (fun x s => import_scraping_result_quiet x s t w)).
  all: destruct (ofold import_scraping_result_stmt srs db2) as [db3|]; simpl;
         [|reflexivity].
  all: destruct (obind (py_get (loads j) "analysis_results" (PyList [])) py_iter)
         as [ars|]; simpl; [|reflexivity].
  all: rewrite (for_each_quiet _ _ _ _
                  (fun x s => import_analysis_result_quiet x s t w)).
  all: destruct (ofold import_analysis_result_stmt ars db3) as [db4|]; simpl;
         reflexivity.
Qed.

(** The rows that the import makes of the records of a document. *)
Fixpoint omap {A B} (f : A -> outcome B) (l : list A) : outcome (list B) :=
  match l with
  | [] => Ret []
  | x :: r => obind (f x) (fun y => obind (omap f r) (fun ys => Ret (y :: ys)))
  end.

Definition conversation_cols_of (conv : pyval) : outcome conversation_cols :=
  obind (py_getitem conv "data") (fun data =>
  obind (dumps data) (fun data_json =>
  obind (py_getitem conv "timestamp") (fun timestamp =>
  obind (bind_text timestamp) (fun t =>
  Ret {| conv_timestamp := t; conversation_data := data_json |})))).

Definition preference_row_of (kv : pykey * pyval) : outcome (sqlval * json) :=
  obind (dumps (snd kv)) (fun value_json =>
  obind (bind_text (key_val (fst kv))) (fun k => Ret (k, value_json))).

Definition scraping_cols_of (result : pyval) : outcome scraping_cols :=
  obind (py_getitem result "data") (fun data =>
  obind (dumps data) (fun data_json =>
  obind (py_getitem result "timestamp") (fun timestamp =>
  obind (py_getitem result "url") (fun url =>
  obind (bind_text timestamp) (fun t =>
  obind (bind_text url) (fun u =>
  Ret {| scr_timestamp := t; scr_url := u; scr_data := data_json |})))))).

Definition analysis_cols_of (result : pyval) : outcome analysis_cols :=
  obind (py_getitem result "data") (fun data =>
  obind (dumps data) (fun data_json =>
  obind (py_getitem result "timestamp") (fun timestamp =>
  obind (py_getitem result "description") (fun description =>
  obind (bind_text timestamp) (fun t =>
  obind (bind_text description) (fun d =>
  Ret {| ana_timestamp := t; ana_description := d;
         ana_data := data_json |})))))).

Definition replace_all (ps : list (sqlval * json)) (p : list (sqlval * json))
  : list (sqlval * json) :=
  fold_left (fun p kv => sql_replace (fst kv) (snd kv) p) ps p.

(** The database after the rows of a document have been written. *)
Definition apply_import (cs : list conversation_cols) (ps : list (sqlval * json))
    (ss : list scraping_cols) (ans : list analysis_cols) (db : Database)
  : Database :=
  {| conversations := insert_all cs (conversations db);
     preferences := replace_all ps (preferences db);
     scraping_results := insert_all ss (scraping_results db);
     analysis_results := insert_all ans (analysis_results db) |}.

Definition parse_document (doc : pyval)
  : outcome (list conversation_cols * list (sqlval * json)
             * list scraping_cols * list analysis_cols) :=
  obind (obind (py_get doc "conversations" (PyList [])) py_iter) (fun convs =>
  obind (omap conversation_cols_of convs) (fun cs =>
  obind (obind (py_get doc "preferences" (PyDict [])) py_items) (fun prefs =>
  obind (omap preference_row_of prefs) (fun ps =>
  obind (obind (py_get doc "scraping_results" (PyList [])) py_iter)
    (fun results =>
  obind (omap scraping_cols_of results) (fun ss =>
  obind (obind (py_get doc "analysis_results" (PyList [])) py_iter)
    (fun results =>
  obind (omap analysis_cols_of results) (fun ans =>
  Ret (cs, ps, ss, ans))))))))).

Lemma ofold_omap {A B S} (step : A -> S -> outcome S) (f : A -> outcome B)
    (upd : B -> S -> S) :
  (forall x s, step x s = obind (f x) (fun c => Ret (upd c s))) ->
  forall l s,
    ofold step l s
    = obind (omap f l) (fun cs => Ret (fold_left (fun s c => upd c s) cs s)).
Proof.
  intros Hstep. induction l as [|x l IH]; intros s; simpl; [reflexivity|].
  rewrite Hstep. destruct (f x) as [c|e]; simpl; [|reflexivity].
  rewrite IH. destruct (omap f l); reflexivity.
Qed.

Lemma import_conversation_stmt_cols conv db :
  import_conversation_stmt conv db
  = obind (conversation_cols_of conv)
      (fun c => Ret (set_conversations (sql_insert c) db)).
Proof.
  unfold import_conversation_stmt, conversation_cols_of, insert_conversation.
  destruct (py_getitem conv "data"); simpl; [|reflexivity].
  destruct (dumps _); simpl; [|reflexivity].
  destruct (py_getitem conv "timestamp"); simpl; [|reflexivity].
  destruct (bind_text _); reflexivity.
Qed.

Lemma import_preference_stmt_row kv db :
  import_preference_stmt kv db
  = obind (preference_row_of kv)
      (fun r => Ret (set_preferences (sql_replace (fst r) (snd r)) db)).
Proof.
  unfold import_preference_stmt, preference_row_of, replace_preference.
  destruct (dumps _); simpl; [|reflexivity].
  destruct (bind_text _); reflexivity.
Qed.

Lemma import_scraping_result_stmt_cols r db :
  import_scraping_result_stmt r db
  = obind (scraping_cols_of r)
      (fun c => Ret (set_scraping_results (sql_insert c) db)).
Proof.
  unfold import_scraping_result_stmt, scraping_cols_of, insert_scraping_result.
  destruct (py_getitem r "data"); simpl; [|reflexivity].
  destruct (dumps _); simpl; [|reflexivity].
  destruct (py_getitem r "timestamp"); simpl; [|reflexivity].
  destruct (py_getitem r "url"); simpl; [|reflexivity].
  destruct (bind_text _); simpl; [|reflexivity].
  destruct (bind_text _); reflexivity.
Qed.

Lemma import_analysis_result_stmt_cols r db :
  import_analysis_result_stmt r db
  = obind (analysis_cols_of r)
      (fun c => Ret (set_analysis_results (sql_insert c) db)).
Proof.
  unfold import_analysis_result_stmt, analysis_cols_of, insert_analysis_result.
  destruct (py_getitem r "data"); simpl; [|reflexivity].
  destruct (dumps _); simpl; [|reflexivity].
  destruct (py_getitem r "timestamp"); simpl; [|reflexivity].
  destruct (py_getitem r "description"); simpl; [|reflexivity].
  destruct (bind_text _); simpl; [|reflexivity].
  destruct (bind_text _); reflexivity.
Qed.

Lemma fold_set_conversations cs db :
  fold_left (fun s c => set_conversations (sql_insert c) s) cs db
  = set_conversations (insert_all cs) db.
Proof.
  revert db. induction cs as [|c cs IH]; intros db; simpl.
  - now destruct db.
  - now rewrite IH.
Qed.

Lemma fold_set_scraping_results cs db :
  fold_left (fun s c => set_scraping_results (sql_insert c) s) cs db
  = set_scraping_results (insert_all cs) db.
Proof.
  revert db. induction cs as [|c cs IH]; intros db; simpl.
  - now destruct db.
  - now rewrite IH.
Qed.

Lemma fold_set_analysis_results cs db :
  fold_left (fun s c => set_analysis_results (sql_insert c) s) cs db
  = set_analysis_results (insert_all cs) db.
Proof.
  revert db. induction cs as [|c cs IH]; intros db; simpl.
  - now destruct db.
  - now rewrite IH.
Qed.

Lemma fold_set_preferences ps db :
  fold_left (fun s r => set_preferences (sql_replace (fst r) (snd r)) s) ps db
  = set_preferences (replace_all ps) db.
Proof.
  revert db. induction ps as [|r ps IH]; intros db; simpl.
  - now destruct db.
  - now rewrite IH.
Qed.

(** The statements of the import succeed exactly when all the records of
    the document can be made into rows, and then write these rows. *)
Lemma import_statements_parse doc replace_existing db :
  import_statements doc replace_existing db
  = obind (parse_document doc) (fun '(cs, ps, ss, ans) =>
      Ret (apply_import cs ps ss ans
             (if replace_existing then cleared db else db))).
Proof.
  unfold import_statements, parse_document.
  set (db0 := if replace_existing then cleared db else db).
  destruct (obind (py_get doc "conversations" _) py_iter) as [convs|];
    simpl; [|reflexivity].
  rewrite (ofold_omap _ _ _ import_conversation_stmt_cols).
  destruct (omap conversation_cols_of convs) as [cs|]; simpl; [|reflexivity].
  destruct (obind (py_get doc "preferences" _) py_items) as [prefs|];
    simpl; [|reflexivity].
  rewrite (ofold_omap _ _ _ import_preference_stmt_row).
  destruct (omap preference_row_of prefs) as [ps|]; simpl; [|reflexivity].
  destruct (obind (py_get doc "scraping_results" _) py_iter) as [srs|];
    simpl; [|reflexivity].
  rewrite (ofold_omap _ _ _ import_scraping_result_stmt_cols).
  destruct (omap scraping_cols_of srs) as [ss|]; simpl; [|reflexivity].
  destruct (obind (py_get doc "analysis_results" _) py_iter) as [ars|];
    simpl; [|reflexivity].
  rewrite (ofold_omap _ _ _ import_analysis_result_stmt_cols).
  destruct (omap analysis_cols_of ars) as [ans|]; simpl; [|reflexivity].
  rewrite fold_set_conversations, fold_set_preferences,
    fold_set_scraping_results, fold_set_analysis_results.
  reflexivity.
Qed.

Lemma import_data_quiet_parse file_path replace_existing t w :
  call (import_data file_path replace_existing) (quiet t) w
  = match files w !! file_path with
    | Some (FileJson j) =>
        match parse_document (loads j) with
        | Ret (cs, ps, ss, ans) =>
            (Ret true,
             set_database
               (apply_import cs ps ss ans
                  (if replace_existing then cleared (database w)
                   else database w)) w)
        | Raise _ => (Ret false, log "Error importing data" w)
        end
    | _ => (Ret false, log "Error importing data" w)
    end.
Proof.
  rewrite import_data_quiet.
  destruct (files w !! file_path) as [[j|]|]; try reflexivity.
  rewrite import_statements_parse.
  destruct (parse_document (loads j)) as [[[[cs ps] ss] ans]|]; reflexivity.
Qed.

Lemma omap_Forall2 {A B} (f : A -> outcome B) l ys :
  omap f l = Ret ys -> Forall2 (fun x y => f x = Ret y) l ys.
Proof.
  revert ys. induction l as [|x l IH]; simpl; intros ys.
  - intros [= <-]. constructor.
  - destruct (f x) as [y|] eqn:Hx; simpl; [|discriminate].
    destruct (omap f l) as [ys'|]; simpl; [|discriminate].
    intros [= <-]. constructor; auto.
Qed.

Lemma omap_length {A B} (f : A -> outcome B) l ys :
  omap f l = Ret ys -> length ys = length l.
Proof.
  intros H. apply omap_Forall2 in H. symmetry. eapply Forall2_length; eauto.
Qed.

Lemma conversation_cols_of_timestamp conv c :
  conversation_cols_of conv = Ret c ->
  obind (py_getitem conv "timestamp") bind_text = Ret (conv_timestamp c).
Proof.
  unfold conversation_cols_of.
  destruct (py_getitem conv "data"); simpl; [|discriminate].
  destruct (dumps _); simpl; [|discriminate].
  destruct (py_getitem conv "timestamp"); simpl; [|discriminate].
  destruct (bind_text _); simpl; [|discriminate].
  now intros [= <-].
Qed.

Lemma scraping_cols_of_timestamp r c :
  scraping_cols_of r = Ret c ->
  obind (py_getitem r "timestamp") bind_text = Ret (scr_timestamp c).
Proof.
  unfold scraping_cols_of.
  destruct (py_getitem r "data"); simpl; [|discriminate].
  destruct (dumps _); simpl; [|discriminate].
  destruct (py_getitem r "timestamp"); simpl; [|discriminate].
  destruct (py_getitem r "url"); simpl; [|discriminate].
  destruct (bind_text _); simpl; [|discriminate].
  destruct (bind_text _); simpl; [|discriminate].
  now intros [= <-].
Qed.

Lemma analysis_cols_of_timestamp r c :
  analysis_cols_of r = Ret c ->
  obind (py_getitem r "timestamp") bind_text = Ret (ana_timestamp c).
Proof.
  unfold analysis_cols_of.
  destruct (py_getitem r "data"); simpl; [|discriminate].
  destruct (dumps _); simpl; [|discriminate].
  destruct (py_getitem r "timestamp"); simpl; [|discriminate].
  destruct (py_getitem r "description"); simpl; [|discriminate].
  destruct (bind_text _); simpl; [|discriminate].
  destruct (bind_text _); simpl; [|discriminate].
  now intros [= <-].
Qed.

(* ===================================================================== *)
(** ** Documents of the export format *)
(* ===================================================================== *)

(** The field [k] of a record is a text or null. *)
Definition text_field (v : pyval) (k : string) : bool :=
  match py_getitem v k with
  | Ret (PyStr _) | Ret PyNone => true
  | _ => false
  end.

Definition has_field (v : pyval) (k : string) : bool := is_ret (py_getitem v k).

Definition conversation_record (v : pyval) : bool :=
  text_field v "timestamp" && has_field v "data".

Definition scraping_record (v : pyval) : bool :=
  text_field v "timestamp" && text_field v "url" && has_field v "data".

Definition analysis_record (v : pyval) : bool :=
  text_field v "timestamp" && text_field v "description" && has_field v "data".

Definition list_of (is_record : pyval -> bool) (v : pyval) : bool :=
  match v with
  | PyList l => forallb is_record l
  | _ => false
  end.

Definition is_dict (v : pyval) : bool :=
  match v with PyDict _ => true | _ => false end.

(** A decoded document of the shape that [export_all_data] writes: an
    object whose sections ["conversations"], ["scraping_results"] and
    ["analysis_results"], when present, are arrays of records and whose
    section ["preferences"], when present, is an object. *)
Definition export_format (doc : pyval) : bool :=
  match py_get doc "conversations" (PyList []),
        py_get doc "preferences" (PyDict []),
        py_get doc "scraping_results" (PyList []),
        py_get doc "analysis_results" (PyList []) with
  | Ret c, Ret p, Ret s, Ret a =>
      list_of conversation_record c && is_dict p
      && list_of scraping_record s && list_of analysis_record a
  | _, _, _, _ => false
  end.

Lemma dumps_native v : json_native v = true -> exists j, dumps v = Ret j.
Proof.
  intros Hn. destruct (dumps_loads_native v Hn) as (j & Hj & _). eauto.
Qed.

Lemma text_field_bind v k :
  text_field v k = true ->
  exists x c, py_getitem v k = Ret x /\ bind_text x = Ret c.
Proof.
  unfold text_field. destruct (py_getitem v k) as [[]|]; try discriminate;
    intros _; eexists _, _; split; reflexivity.
Qed.

Lemma conversation_record_cols v :
  json_native v = true -> conversation_record v = true ->
  exists c, conversation_cols_of v = Ret c.
Proof.
  unfold conversation_record, has_field, conversation_cols_of.
  intros Hn [Ht Hd]%andb_true_iff.
  destruct (py_getitem v "data") as [data|] eqn:Hdata; [|discriminate].
  cbn [obind].
  destruct (dumps_native data (py_getitem_native _ _ _ Hn Hdata)) as (j & ->).
  cbn [obind].
  destruct (text_field_bind _ _ Ht) as (x & c & -> & Hc).
  simpl. rewrite Hc. simpl. eauto.
Qed.

Lemma scraping_record_cols v :
  json_native v = true -> scraping_record v = true ->
  exists c, scraping_cols_of v = Ret c.
Proof.
  unfold scraping_record, has_field, scraping_cols_of.
  intros Hn [[Ht Hu]%andb_true_iff Hd]%andb_true_iff.
  destruct (py_getitem v "data") as [data|] eqn:Hdata; [|discriminate].
  cbn [obind].
  destruct (dumps_native data (py_getitem_native _ _ _ Hn Hdata)) as (j & ->).
  cbn [obind].
  destruct (text_field_bind _ _ Ht) as (x & c & -> & Hc).
  destruct (text_field_bind _ _ Hu) as (y & u & -> & Hy).
  simpl. rewrite Hc. simpl. rewrite Hy. simpl. eauto.
Qed.

Lemma analysis_record_cols v :
  json_native v = true -> analysis_record v = true ->
  exists c, analysis_cols_of v = Ret c.
Proof.
  unfold analysis_record, has_field, analysis_cols_of.
  intros Hn [[Ht Hu]%andb_true_iff Hd]%andb_true_iff.
  destruct (py_getitem v "data") as [data|] eqn:Hdata; [|discriminate].
  cbn [obind].
  destruct (dumps_native data (py_getitem_native _ _ _ Hn Hdata)) as (j & ->).
  cbn [obind].
  destruct (text_field_bind _ _ Ht) as (x & c & -> & Hc).
  destruct (text_field_bind _ _ Hu) as (y & u & -> & Hy).
  simpl. rewrite Hc. simpl. rewrite Hy. simpl. eauto.
Qed.

Lemma omap_total {A B} (f : A -> outcome B) (l : list A) :
  Forall (fun x => exists y, f x = Ret y) l -> exists ys, omap f l = Ret ys.
Proof.
  induction 1 as [|x l [y Hy] _ [ys Hys]]; simpl.
  - eauto.
  - rewrite Hy, Hys. simpl. eauto.
Qed.

Lemma list_of_records_cols {B} (is_record : pyval -> bool)
    (cols_of : pyval -> outcome B) (v : pyval) :
  (forall x, json_native x = true -> is_record x = true ->
             exists c, cols_of x = Ret c) ->
  json_native v = true -> list_of is_record v = true ->
  exists l cs, v = PyList l /\ py_iter v = Ret l /\ omap cols_of l = Ret cs.
Proof.
  intros Hrec Hn Hl. destruct v; try discriminate. simpl in *.
  destruct (omap_total cols_of l) as [cs Hcs].
  { apply List.Forall_forall. intros x Hx.
    rewrite forallb_forall in Hn, Hl. auto. }
  eauto.
Qed.

Lemma preference_rows_total d :
  native_dict d = true -> exists ps, omap preference_row_of d = Ret ps.
Proof.
  unfold native_dict. intros [[Hk _]%andb_true_iff Hv]%andb_true_iff.
  apply omap_total. apply List.Forall_forall. intros [k v] Hin.
  rewrite forallb_forall in Hk, Hv.
  specialize (Hv _ Hin). specialize (Hk k (in_map fst _ _ Hin)). simpl in *.
  unfold preference_row_of; simpl.
  destruct (dumps_native v Hv) as (j & ->). simpl.
  destruct k; try discriminate. simpl. eauto.
Qed.

(** The statements of the import succeed on every decoded document of the
    export format. *)
Lemma parse_export_format doc :
  json_native doc = true -> export_format doc = true ->
  exists convs prefs scrapings analyses cs ps ss ans,
    py_get doc "conversations" (PyList []) = Ret (PyList convs)
    /\ py_get doc "preferences" (PyDict []) = Ret (PyDict prefs)
    /\ py_get doc "scraping_results" (PyList []) = Ret (PyList scrapings)
    /\ py_get doc "analysis_results" (PyList []) = Ret (PyList analyses)
    /\ omap conversation_cols_of convs = Ret cs
    /\ omap preference_row_of prefs = Ret ps
    /\ omap scraping_cols_of scrapings = Ret ss
    /\ omap analysis_cols_of analyses = Ret ans
    /\ native_dict prefs = true
    /\ parse_document doc = Ret (cs, ps, ss, ans).
Proof.
  intros Hn. unfold export_format, parse_document.
  destruct (py_get doc "conversations" _) as [c|] eqn:Hc; [|discriminate].
  destruct (py_get doc "preferences" _) as [p|] eqn:Hp; [|discriminate].
  destruct (py_get doc "scraping_results" _) as [s|] eqn:Hs; [|discriminate].
  destruct (py_get doc "analysis_results" _) as [a|] eqn:Ha; [|discriminate].
  intros [[[H1 H2]%andb_true_iff H3]%andb_true_iff H4]%andb_true_iff.
  destruct (list_of_records_cols _ _ c conversation_record_cols
              (py_get_native doc "conversations" (PyList []) c Hn eq_refl Hc) H1)
    as (convs & cs & -> & Hic & Hcs).
  destruct (list_of_records_cols _ _ s scraping_record_cols
              (py_get_native doc "scraping_results" (PyList []) s Hn eq_refl Hs) H3)
    as (srs & ss & -> & His & Hss).
  destruct (list_of_records_cols _ _ a analysis_record_cols
              (py_get_native doc "analysis_results" (PyList []) a Hn eq_refl Ha) H4)
    as (ars & ans & -> & Hia & Hans).
  destruct p as [| | | | | |prefs|]; try discriminate.
  assert (Hnp : native_dict prefs = true).
  { exact (py_get_native doc "preferences" (PyDict []) (PyDict prefs) Hn eq_refl Hp). }
  destruct (preference_rows_total prefs Hnp) as (ps & Hps).
  exists convs, prefs, srs, ars, cs, ps, ss, ans.
  simpl. rewrite Hcs. simpl. rewrite Hps. simpl. rewrite Hss. simpl.
  rewrite Hans. simpl. repeat split; auto.
Qed.

(* ===================================================================== *)
(** ** Merge import *)
(* ===================================================================== *)

Lemma select_value_sql_replace k k' j p :
  select_value k (sql_replace k' j p)
  = if key_conflict k' k then Some j else select_value k p.
Proof.
  destruct (key_conflict k' k) eqn:Hk.
  - destruct k' as [s'|], k as [s|]; simpl in Hk; try discriminate.
    apply String.eqb_eq in Hk. subst. apply select_value_replace.
  - now apply select_value_replace_other.
Qed.

Lemma replace_all_other k ps p :
  Forall (fun r => key_conflict (fst r) k = false) ps ->
  select_value k (replace_all ps p) = select_value k p.
Proof.
  unfold replace_all. revert p.
  induction ps as [|r ps IH]; intros p Hps; simpl; [reflexivity|].
  inversion Hps as [|? ? Hr Hps']; subst.
  rewrite IH by assumption. rewrite select_value_sql_replace. now rewrite Hr.
Qed.

Lemma preference_row_key kv r :
  preference_row_of kv = Ret r -> is_str_key (fst kv) = true ->
  fetch_key (fst r) = fst kv /\ dumps (snd kv) = Ret (snd r).
Proof.
  unfold preference_row_of. destruct kv as [k v]; simpl.
  destruct (dumps v) as [j|]; simpl; [|discriminate].
  destruct k; try discriminate. simpl. intros [= <-] _. auto.
Qed.

Lemma key_conflict_fetch_key k1 k2 :
  key_conflict k1 k2 = true -> key_eqb (fetch_key k1) (fetch_key k2) = true.
Proof. destruct k1, k2; simpl; auto; discriminate. Qed.

(** The rows written for the preferences of a document: a key of the
    document is found with its value, any other key is as before. *)
Lemma imported_preferences prefs ps p k :
  omap preference_row_of prefs = Ret ps ->
  forallb is_str_key (map fst prefs) = true ->
  keys_distinct (map fst prefs) = true ->
  match dict_get prefs (KStr k) with
  | Some v =>
      exists j, dumps v = Ret j
                /\ select_value (Some k) (replace_all ps p) = Some j
  | None => select_value (Some k) (replace_all ps p) = select_value (Some k) p
  end.
Proof.
  revert ps p. induction prefs as [|[k0 v0] prefs IH]; intros ps p; simpl.
  - intros [= <-] _ _. reflexivity.
  - destruct (preference_row_of (k0, v0)) as [r|] eqn:Hr; simpl; [|discriminate].
    destruct (omap preference_row_of prefs) as [ps'|] eqn:Hps; simpl;
      [|discriminate].
    intros [= <-] [Hk0 Hstr]%andb_true_iff [Hfresh Hdist]%andb_true_iff.
    destruct (preference_row_key _ _ Hr Hk0) as [Hkey Hval]. simpl in *.
    change (replace_all (r :: ps') p)
      with (replace_all ps' (sql_replace (fst r) (snd r) p)).
    destruct (key_eqb k0 (KStr k)) eqn:Hkk.
    + exists (snd r). split; [assumption|].
      rewrite replace_all_other.
      * rewrite select_value_sql_replace.
        destruct k0; try discriminate. simpl in Hkk.
        apply String.eqb_eq in Hkk. subst.
        destruct r as [[s'|] j']; simpl in *; try discriminate.
        injection Hkey as ->. now rewrite String.eqb_refl.
      * assert (Hk : fetch_key (Some k) = k0).
        { destruct k0; try discriminate. simpl in *.
          apply String.eqb_eq in Hkk. now subst. }
        clear IH Hr Hval Hkey Hkk. subst k0.
        revert ps' Hps. induction prefs as [|[k1 v1] prefs IHp];
          intros ps' Hps; simpl in *.
        { injection Hps as <-. constructor. }
        destruct (preference_row_of (k1, v1)) as [r1|] eqn:Hr1; simpl in *;
          [|discriminate].
        destruct (omap preference_row_of prefs) as [ps1|]; simpl in *;
          [|discriminate].
        injection Hps as <-.
        apply andb_true_iff in Hstr as [Hk1 Hstr].
        apply andb_true_iff in Hfresh as [Hne Hfresh].
        apply andb_true_iff in Hdist as [_ Hdist].
        destruct (preference_row_key _ _ Hr1 Hk1) as [Hkey1 _]. simpl in *.
        constructor; [|now apply IHp].
        destruct k1 as [| | |s1]; try discriminate.
        destruct r1 as [[s'|] j1]; simpl in *; try discriminate.
        injection Hkey1 as ->.
        rewrite String.eqb_sym. now apply negb_true_iff.
    + specialize (IH ps' (sql_replace (fst r) (snd r) p) eq_refl Hstr Hdist).
      destruct (dict_get prefs (KStr k)) as [v|]; [exact IH|].
      rewrite IH, select_value_sql_replace.
      destruct (key_conflict (fst r) (Some k)) eqn:Hc; [|reflexivity].
      apply key_conflict_fetch_key in Hc. rewrite Hkey in Hc. simpl in Hc.
      rewrite Hkk in Hc. discriminate.
Qed.

(** C8.  Take a store with exactly one conversation and a file holding a
    document of the export format whose section of conversations has
    exactly one record.  With no fault, [import_data] without replacement
    answers [True] and leaves exactly two conversations: the one that was
    there, then the imported one, made of the record.  The preferences of
    the document are written by upsert: a key of the document reads as the
    value of the document, whether or not the store had a row for it; any
    other key reads as before. *)
Theorem merge_import
    (w : World) (file_path : string) (j : json) (conv : pyval)
    (old : row conversation_cols) (t : string) :
  files w !! file_path = Some (FileJson j) ->
  export_format (loads j) = true ->
  py_get (loads j) "conversations" (PyList []) = Ret (PyList [conv]) ->
  rows (conversations (database w)) = [old] ->
  let r := call (import_data file_path false) (quiet t) w in
  r.1 = Ret true
  /\ (exists new,
        rows (conversations (database r.2)) = [old; new]
        /\ conversation_cols_of conv = Ret (cols new))
  /\ (forall prefs k d t',
        py_get (loads j) "preferences" (PyDict []) = Ret (PyDict prefs) ->
        (call (load_preference k d) (quiet t') r.2).1
        = match dict_get prefs (KStr k) with
          | Some v => Ret v
          | None => (call (load_preference k d) (quiet t') w).1
          end).
Proof.
  intros Hfile Hformat Hconvs Hold r.
  destruct (parse_export_format (loads j) (loads_native j) Hformat)
    as (convs & prefs & srs & ars & cs & ps & ss & ans
        & Hc & Hp & Hs & Ha & Hcs & Hps & Hss & Hans & Hnp & Hparse).
  assert (convs = [conv]) by congruence. subst convs.
  assert (Hr : r = (Ret true,
                    set_database (apply_import cs ps ss ans (database w)) w)).
  { unfold r. rewrite import_data_quiet_parse, Hfile, Hparse. reflexivity. }
  rewrite Hr. cbn [fst snd]. split; [reflexivity|]. split.
  - simpl in Hcs.
    destruct (conversation_cols_of conv) as [c|]; simpl in Hcs; [|discriminate].
    injection Hcs as <-. simpl. rewrite Hold. simpl. eexists. split; reflexivity.
  - intros prefs' k d t' Hp'.
    assert (prefs' = prefs) by congruence. subst prefs'.
    rewrite !load_preference_quiet. cbn [fst snd]. simpl.
    apply andb_true_iff in Hnp as [[Hstr Hdist]%andb_true_iff Hvals].
    pose proof (imported_preferences prefs ps (preferences (database w)) k
                  Hps Hstr Hdist) as Himp.
    destruct (dict_get prefs (KStr k)) as [v|] eqn:Hget.
    + destruct Himp as (jv & Hjv & ->).
      destruct (dumps_loads_native v (dict_get_native _ _ _ Hvals Hget))
        as (jv' & Hjv' & Hl).
      congruence.
    + now rewrite Himp.
Qed.

Definition backup_with_one_conversation : json :=
  JObj [("conversations",
         JArr [JObj [("id", JNum 7);
                     ("timestamp", JStr "1999-12-31 23:59:59");
                     ("data", JArr [JObj [("role", JStr "user");
                                          ("content", JStr "hello")]])]]);
        ("preferences", JObj [("theme", JStr "dark")]);
        ("scraping_results", JArr []);
        ("analysis_results", JArr []);
        ("export_timestamp", JStr "2000-01-01 00:00:00")].

Definition one_conversation_and_a_backup : World :=
  {| database :=
       (call (save_preference "theme" (PyStr "light")) (quiet "t0")
          (call (save_conversation (PyList [])) (quiet "2024-01-01 09:00:00")
             new_world).2).2.(database);
     files := {["backup.json" := FileJson backup_with_one_conversation]};
     stdout := [] |}.

Lemma merge_import_witness :
  let w := one_conversation_and_a_backup in
  let j := backup_with_one_conversation in
  let conv := PyDict [(KStr "id", PyInt 7);
                      (KStr "timestamp", PyStr "1999-12-31 23:59:59");
                      (KStr "data",
                       PyList [PyDict [(KStr "role", PyStr "user");
                                       (KStr "content", PyStr "hello")]])] in
  let old := Row 1 {| conv_timestamp := Some "2024-01-01 09:00:00";
                      conversation_data := JArr [] |} in
  files w !! "backup.json" = Some (FileJson j)
  /\ export_format (loads j) = true
  /\ py_get (loads j) "conversations" (PyList []) = Ret (PyList [conv])
  /\ rows (conversations (database w)) = [old]
  /\ (call (import_data "backup.json" false) (quiet "2024-01-01 10:00:00") w).1
     = Ret true.
Proof.
  intros w j conv old.
  assert (H1 : files w !! "backup.json" = Some (FileJson j))
    by (vm_compute; reflexivity).
  assert (H2 : export_format (loads j) = true) by (vm_compute; reflexivity).
  assert (H3 : py_get (loads j) "conversations" (PyList [])
               = Ret (PyList [conv])) by (vm_compute; reflexivity).
  assert (H4 : rows (conversations (database w)) = [old])
    by (vm_compute; reflexivity).
  repeat (split; [assumption|]).
  apply (merge_import w "backup.json" j conv old "2024-01-01 10:00:00"
           H1 H2 H3 H4).
Defined.

Example merge_import_run :
  let r := call (import_data "backup.json" false) (quiet "2024-01-01 10:00:00")
                one_conversation_and_a_backup in
  map rowid (rows (conversations (database r.2))) = [1; 2]
  /\ (call (load_preference "theme" PyNone) (quiet "t") r.2).1
     = Ret (PyStr "dark").
Proof. split; vm_compute; reflexivity. Qed.


(* ===================================================================== *)
(** ** Export, then import in replace mode *)
(* ===================================================================== *)

(** The dictionary that [export_all_data] dumps. *)
Definition export_document (db : Database) (export_timestamp : string) : pyval :=
  PyDict
    [(KStr "conversations",
      PyList (map conversation_entry (select_all (conversations db))));
     (KStr "preferences",
      PyDict (dict_of_pairs
                (map (fun kv => (fetch_key (fst kv), loads (snd kv)))
                     (preferences db))));
     (KStr "scraping_results",
      PyList (map scraping_entry (select_all (scraping_results db))));
     (KStr "analysis_results",
      PyList (map analysis_entry (select_all (analysis_results db))));
     (KStr "export_timestamp", PyStr export_timestamp)].

Lemma export_all_data_quiet file_path t w :
  call (export_all_data file_path) (quiet t) w
  = match dumps (export_document (database w) t) with
    | Ret j =>
        (Ret true,
         {| database := database w;
            files := <[file_path := FileJson j]>
                       (<[file_path := FileText]> (files w));
            stdout := stdout w |})
    | Raise _ =>
        (Ret false,
         {| database := database w;
            files := <[file_path := FileText]> (files w);
            stdout := stdout w ++ ["Error exporting data"] |})
    end.
Proof.
  unfold export_all_data, export_document. unfold_monad. unfold quiet.
  cbn -[dumps]. destruct (dumps _); reflexivity.
Qed.

(** The keys of the preferences are texts, all different: what the primary
    key of the table and the methods that write to it guarantee. *)
Definition prefs_wf (p : list (sqlval * json)) : bool :=
  forallb is_str_key (map (fun kv => fetch_key (fst kv)) p)
  && keys_distinct (map (fun kv => fetch_key (fst kv)) p).

Lemma fetch_text_native c : json_native (fetch_text c) = true.
Proof. now destruct c. Qed.

Lemma bind_fetch_text c : bind_text (fetch_text c) = Ret c.
Proof. now destruct c. Qed.

Lemma entries_native {C} (entry : row C -> pyval) (rs : list (row C)) :
  (forall r, json_native (entry r) = true) ->
  forallb json_native (map entry rs) = true.
Proof.
  intros H. induction rs as [|r rs IH]; simpl; [reflexivity|].
  now rewrite H, IH.
Qed.

Lemma conversation_entry_native r : json_native (conversation_entry r) = true.
Proof.
  unfold conversation_entry. simpl.
  now rewrite fetch_text_native, loads_native.
Qed.

Lemma scraping_entry_native r : json_native (scraping_entry r) = true.
Proof.
  unfold scraping_entry. simpl.
  now rewrite !fetch_text_native, loads_native.
Qed.

Lemma analysis_entry_native r : json_native (analysis_entry r) = true.
Proof.
  unfold analysis_entry. simpl.
  now rewrite !fetch_text_native, loads_native.
Qed.

Lemma exported_preferences p :
  prefs_wf p = true ->
  dict_of_pairs (map (fun kv => (fetch_key (fst kv), loads (snd kv))) p)
  = map (fun kv => (fetch_key (fst kv), loads (snd kv))) p.
Proof.
  intros [_ Hd]%andb_true_iff. apply dict_of_pairs_distinct.
  now rewrite map_map.
Qed.

Lemma export_document_native db t :
  prefs_wf (preferences db) = true ->
  json_native (export_document db t) = true.
Proof.
  intros Hp. unfold export_document.
  rewrite (exported_preferences _ Hp).
  cbn -[conversation_entry scraping_entry analysis_entry].
  rewrite !entries_native
    by auto using conversation_entry_native, scraping_entry_native,
         analysis_entry_native.
  apply andb_true_iff in Hp as [Hs Hd].
  rewrite !map_map. cbn [fst snd]. rewrite Hs, Hd. simpl.
  rewrite andb_true_r.
  induction (preferences db) as [|kv p IH]; simpl; [reflexivity|].
  simpl in Hs, Hd. apply andb_true_iff in Hs as [_ Hs].
  apply andb_true_iff in Hd as [_ Hd].
  now rewrite loads_native, IH.
Qed.

(** What a client can see of a row, its id apart: the timestamp, the url or
    description, and the decoded payload. *)
Definition conversation_view (c : conversation_cols) : sqlval * pyval :=
  (conv_timestamp c, loads (conversation_data c)).

Definition scraping_view (c : scraping_cols) : sqlval * sqlval * pyval :=
  (scr_timestamp c, scr_url c, loads (scr_data c)).

Definition analysis_view (c : analysis_cols) : sqlval * sqlval * pyval :=
  (ana_timestamp c, ana_description c, loads (ana_data c)).

Definition preference_view (kv : sqlval * json) : sqlval * pyval :=
  (fst kv, loads (snd kv)).

(** The rows that the import makes of the exported entries. *)
Definition reencode_conversation (c : conversation_cols) : conversation_cols :=
  {| conv_timestamp := conv_timestamp c;
     conversation_data := canon (conversation_data c) |}.

Definition reencode_scraping (c : scraping_cols) : scraping_cols :=
  {| scr_timestamp := scr_timestamp c; scr_url := scr_url c;
     scr_data := canon (scr_data c) |}.

Definition reencode_analysis (c : analysis_cols) : analysis_cols :=
  {| ana_timestamp := ana_timestamp c; ana_description := ana_description c;
     ana_data := canon (ana_data c) |}.

Definition reencode_preference (kv : sqlval * json) : sqlval * json :=
  (fst kv, canon (snd kv)).

Lemma conversation_cols_of_entry r :
  conversation_cols_of (conversation_entry r)
  = Ret (reencode_conversation (cols r)).
Proof.
  unfold conversation_cols_of, conversation_entry, py_getitem.
  cbn [dict_get key_eqb String.eqb Ascii.eqb Bool.eqb obind].
  rewrite dumps_loads. cbn [obind]. rewrite bind_fetch_text. reflexivity.
Qed.

Lemma scraping_cols_of_entry r :
  scraping_cols_of (scraping_entry r) = Ret (reencode_scraping (cols r)).
Proof.
  unfold scraping_cols_of, scraping_entry, py_getitem.
  cbn [dict_get key_eqb String.eqb Ascii.eqb Bool.eqb obind].
  rewrite dumps_loads. cbn [obind]. rewrite !bind_fetch_text. reflexivity.
Qed.

Lemma analysis_cols_of_entry r :
  analysis_cols_of (analysis_entry r) = Ret (reencode_analysis (cols r)).
Proof.
  unfold analysis_cols_of, analysis_entry, py_getitem.
  cbn [dict_get key_eqb String.eqb Ascii.eqb Bool.eqb obind].
  rewrite dumps_loads. cbn [obind]. rewrite !bind_fetch_text. reflexivity.
Qed.

Lemma omap_map {A B C} (f : B -> outcome C) (g : A -> B) (h : A -> C) l :
  (forall x, f (g x) = Ret (h x)) -> omap f (map g l) = Ret (map h l).
Proof.
  intros H. induction l as [|x l IH]; simpl; [reflexivity|].
  now rewrite H, IH.
Qed.

Lemma preference_rows_of_export p :
  forallb is_str_key (map (fun kv => fetch_key (fst kv)) p) = true ->
  omap preference_row_of
    (map (fun kv => (fetch_key (fst kv), loads (snd kv))) p)
  = Ret (map reencode_preference p).
Proof.
  induction p as [|[k v] p IH]; simpl; [reflexivity|].
  intros [Hk Hp]%andb_true_iff. rewrite IH by assumption.
  unfold preference_row_of; simpl. rewrite dumps_loads; simpl.
  destruct k; [reflexivity|discriminate].
Qed.

Lemma parse_export_document db t :
  prefs_wf (preferences db) = true ->
  parse_document (export_document db t)
  = Ret (map (fun r => reencode_conversation (cols r)) (rows (conversations db)),
         map reencode_preference (preferences db),
         map (fun r => reencode_scraping (cols r)) (rows (scraping_results db)),
         map (fun r => reencode_analysis (cols r)) (rows (analysis_results db))).
Proof.
  intros Hp. unfold parse_document, export_document, py_get, select_all.
  cbn [dict_get key_eqb String.eqb Ascii.eqb Bool.eqb obind py_iter py_items].
  rewrite (omap_map _ _ _ _ conversation_cols_of_entry). cbn [obind].
  rewrite (exported_preferences _ Hp).
  apply andb_true_iff in Hp as [Hs _].
  rewrite (preference_rows_of_export _ Hs). cbn [obind].
  rewrite (omap_map _ _ _ _ scraping_cols_of_entry). cbn [obind].
  rewrite (omap_map _ _ _ _ analysis_cols_of_entry). cbn [obind].
  reflexivity.
Qed.

Lemma insert_all_cols {C} (cs : list C) (t : table C) :
  map cols (rows (insert_all cs t)) = map cols (rows t) ++ cs.
Proof.
  revert t. induction cs as [|c cs IH]; intros t; simpl.
  - now rewrite app_nil_r.
  - rewrite IH. unfold sql_insert; simpl. rewrite map_app; simpl.
    now rewrite <- app_assoc.
Qed.

Lemma sql_replace_fresh k v p :
  forallb (fun k' => negb (key_eqb k' (fetch_key k)))
          (map (fun kv => fetch_key (fst kv)) p) = true ->
  sql_replace k v p = p ++ [(k, v)].
Proof.
  intros H. unfold sql_replace. f_equal.
  induction p as [|[k' v'] p IH]; simpl in *; [reflexivity|].
  apply andb_true_iff in H as [Hk Hp].
  destruct (key_conflict k' k) eqn:Hc.
  - apply key_conflict_fetch_key in Hc. rewrite Hc in Hk. discriminate.
  - simpl. now rewrite IH.
Qed.

Lemma replace_all_app ps acc :
  keys_distinct (map (fun kv => fetch_key (fst kv)) (acc ++ ps)) = true ->
  replace_all ps acc = acc ++ ps.
Proof.
  unfold replace_all. revert acc.
  induction ps as [|[k v] ps IH]; intros acc Hd; simpl.
  - now rewrite app_nil_r.
  - assert (Hfresh : forallb (fun k' => negb (key_eqb k' (fetch_key k)))
                             (map (fun kv => fetch_key (fst kv)) acc) = true).
    { clear IH. induction acc as [|[k' v'] acc IHa]; simpl in *; [reflexivity|].
      apply andb_true_iff in Hd as [Hk Hd].
      rewrite map_app, forallb_app in Hk. apply andb_true_iff in Hk as [_ Hk].
      simpl in Hk. apply andb_true_iff in Hk as [Hk _].
      rewrite Hk. now apply IHa. }
    rewrite (sql_replace_fresh _ _ _ Hfresh). rewrite IH.
    + now rewrite <- app_assoc.
    + now rewrite <- app_assoc.
Qed.

Lemma map_view_reencode {A B C} (view : B -> C) (re : B -> B) (f : A -> B) l :
  (forall c, view (re c) = view c) ->
  map view (map (fun r => re (f r)) l) = map view (map f l).
Proof.
  intros H. rewrite !map_map. apply map_ext. intros; apply H.
Qed.

(** C3.  Take a store whose preferences are in a consistent state (text
    keys, all different) and export it to a file, with no fault.  Then
    import that file in replace mode, with no fault, into any store that
    finds the exported file at that path: the same store, a cleared one or
    another one.  Both calls answer [True], and afterwards each category
    holds as many records as the exported store, in the same order, with
    the same timestamps, urls and descriptions and with payloads that decode
    to the same values; the preferences have the same keys with values that
    decode to the same values.  Nothing is said of the ids, which are
    assigned anew. *)
Theorem export_import_round_trip
    (w w' : World) (file_path t1 t2 : string) :
  prefs_wf (preferences (database w)) = true ->
  let exported := call (export_all_data file_path) (quiet t1) w in
  files w' !! file_path = files exported.2 !! file_path ->
  let imported := call (import_data file_path true) (quiet t2) w' in
  let db := database w in
  let db' := database imported.2 in
  exported.1 = Ret true
  /\ imported.1 = Ret true
  /\ map conversation_view (map cols (rows (conversations db')))
     = map conversation_view (map cols (rows (conversations db)))
  /\ map preference_view (preferences db')
     = map preference_view (preferences db)
  /\ map scraping_view (map cols (rows (scraping_results db')))
     = map scraping_view (map cols (rows (scraping_results db)))
  /\ map analysis_view (map cols (rows (analysis_results db')))
     = map analysis_view (map cols (rows (analysis_results db)))
  /\ length (rows (conversations db')) = length (rows (conversations db))
  /\ length (preferences db') = length (preferences db)
  /\ length (rows (scraping_results db')) = length (rows (scraping_results db))
  /\ length (rows (analysis_results db')) = length (rows (analysis_results db)).
Proof.
  intros Hp exported Hfile imported db db'.
  destruct (dumps_loads_native _ (export_document_native db t1 Hp))
    as (j & Hj & Hl).
  assert (Hexp : exported
                 = (Ret true,
                    {| database := db;
                       files := <[file_path := FileJson j]>
                                  (<[file_path := FileText]> (files w));
                       stdout := stdout w |})).
  { unfold exported. rewrite export_all_data_quiet. fold db. now rewrite Hj. }
  assert (Hfile' : files w' !! file_path = Some (FileJson j)).
  { rewrite Hfile, Hexp. simpl. apply lookup_insert_eq. }
  assert (Himp : imported
                 = (Ret true,
                    set_database
                      (apply_import
                         (map (fun r => reencode_conversation (cols r))
                              (rows (conversations db)))
                         (map reencode_preference (preferences db))
                         (map (fun r => reencode_scraping (cols r))
                              (rows (scraping_results db)))
                         (map (fun r => reencode_analysis (cols r))
                              (rows (analysis_results db)))
                         (cleared (database w'))) w')).
  { unfold imported. rewrite import_data_quiet_parse, Hfile', Hl.
    now rewrite (parse_export_document db t1 Hp). }
  assert (Hc : map conversation_view (map cols (rows (conversations db')))
               = map conversation_view (map cols (rows (conversations db)))).
  { unfold db'. rewrite Himp. simpl. rewrite insert_all_cols. simpl.
    apply map_view_reencode. intros c. unfold conversation_view; simpl.
    now rewrite loads_canon. }
  assert (Hs : map scraping_view (map cols (rows (scraping_results db')))
               = map scraping_view (map cols (rows (scraping_results db)))).
  { unfold db'. rewrite Himp. simpl. rewrite insert_all_cols. simpl.
    apply map_view_reencode. intros c. unfold scraping_view; simpl.
    now rewrite loads_canon. }
  assert (Ha : map analysis_view (map cols (rows (analysis_results db')))
               = map analysis_view (map cols (rows (analysis_results db)))).
  { unfold db'. rewrite Himp. simpl. rewrite insert_all_cols. simpl.
    apply map_view_reencode. intros c. unfold analysis_view; simpl.
    now rewrite loads_canon. }
  assert (Hpr : map preference_view (preferences db')
                = map preference_view (preferences db)).
  { unfold db'. rewrite Himp. simpl. rewrite replace_all_app.
    - simpl. rewrite map_map. apply map_ext. intros [k v].
      unfold preference_view; simpl. now rewrite loads_canon.
    - simpl. rewrite map_map. simpl.
      apply andb_true_iff in Hp as [_ Hd]. exact Hd. }
  split; [now rewrite Hexp|]. split; [now rewrite Himp|].
  repeat split; try assumption.
  - apply (f_equal (@length _)) in Hc. now rewrite !length_map in Hc.
  - apply (f_equal (@length _)) in Hpr. now rewrite !length_map in Hpr.
  - apply (f_equal (@length _)) in Hs. now rewrite !length_map in Hs.
  - apply (f_equal (@length _)) in Ha. now rewrite !length_map in Ha.
Qed.

Definition a_store_with_records : World :=
  run [(SaveConversation
          (PyList [PyDict [(KStr "role", PyStr "user");
                           (KStr "content", PyStr "hi")]]),
        quiet "2024-01-01 10:00:00");
       (SavePreference "api_keys" (PyDict [(KStr "openai", PyStr "sk")]),
        quiet "2024-01-01 10:00:01");
       (SaveScrapingResult "https://x.test"
          (PyDict [(KStr "text", PyStr "hello"); (KStr "links", PyList [])]),
        quiet "2024-01-01 10:00:02");
       (SaveAnalysisResult "summary" (PyDict [(KInt 1, PyInt 10)]),
        quiet "2024-01-01 10:00:03")]
      new_world.

Lemma export_import_round_trip_witness :
  let w := a_store_with_records in
  let exported := call (export_all_data "export.json")
                       (quiet "2024-01-02 08:00:00") w in
  let imported := call (import_data "export.json" true)
                       (quiet "2024-01-02 08:00:05") exported.2 in
  prefs_wf (preferences (database w)) = true
  /\ files exported.2 !! "export.json" = files exported.2 !! "export.json"
  /\ exported.1 = Ret true
  /\ imported.1 = Ret true
  /\ map conversation_view
         (map cols (rows (conversations (database imported.2))))
     = map conversation_view (map cols (rows (conversations (database w)))).
Proof.
  intros w exported imported.
  assert (Hp : prefs_wf (preferences (database w)) = true)
    by (vm_compute; reflexivity).
  split; [exact Hp|]. split; [reflexivity|].
  destruct (export_import_round_trip w exported.2 "export.json"
              "2024-01-02 08:00:00" "2024-01-02 08:00:05" Hp eq_refl)
    as (H1 & H2 & H3 & _).
  split; [exact H1|]. split; [exact H2|exact H3].
Defined.

Example ids_after_a_round_trip :
  let w := a_store_with_records in
  let exported := call (export_all_data "export.json") (quiet "t1") w in
  let imported := call (import_data "export.json" true) (quiet "t2")
                       exported.2 in
  map rowid (rows (conversations (database w))) = [1]
  /\ map rowid (rows (conversations (database imported.2))) = [2]
  /\ map (fun r => loads (ana_data (cols r)))
         (rows (analysis_results (database imported.2)))
     = [PyDict [(KStr "1", PyInt 10)]].
Proof. repeat split; vm_compute; reflexivity. Qed.


(* ===================================================================== *)
(** ** Every reachable store is consistent *)
(* ===================================================================== *)

Lemma keys_distinct_snoc ks k :
  keys_distinct ks = true ->
  forallb (fun k' => negb (key_eqb k' k)) ks = true ->
  keys_distinct (ks ++ [k]) = true.
Proof.
  induction ks as [|k0 ks IH]; simpl; [reflexivity|].
  intros [Hk0 Hks]%andb_true_iff [Hk Hfresh]%andb_true_iff.
  rewrite forallb_app, Hk0, IH by assumption. simpl. now rewrite Hk.
Qed.

Lemma forallb_filter_keys (P : pykey -> bool) (f : sqlval * json -> bool) p :
  forallb P (map (fun kv => fetch_key (fst kv)) p) = true ->
  forallb P (map (fun kv => fetch_key (fst kv)) (List.filter f p)) = true.
Proof.
  induction p as [|kv p IH]; simpl; [reflexivity|].
  intros [Hk Hp]%andb_true_iff. destruct (f kv); simpl; [rewrite Hk|]; auto.
Qed.

Lemma keys_distinct_filter (f : sqlval * json -> bool) p :
  keys_distinct (map (fun kv => fetch_key (fst kv)) p) = true ->
  keys_distinct (map (fun kv => fetch_key (fst kv)) (List.filter f p)) = true.
Proof.
  induction p as [|kv p IH]; simpl; [reflexivity|].
  intros [Hk Hp]%andb_true_iff. destruct (f kv); simpl; [|auto].
  rewrite forallb_filter_keys by assumption. auto.
Qed.

(** [INSERT OR REPLACE] with a text key keeps the keys texts and
    different. *)
Lemma prefs_wf_replace s v p :
  prefs_wf p = true -> prefs_wf (sql_replace (Some s) v p) = true.
Proof.
  unfold prefs_wf, sql_replace. intros [Hstr Hdist]%andb_true_iff.
  rewrite !map_app, forallb_app. simpl.
  rewrite forallb_filter_keys by assumption. simpl.
  apply keys_distinct_snoc; [now apply keys_distinct_filter|].
  clear. induction p as [|[[s'|] v'] p IH]; simpl; [reflexivity| |].
  - destruct (String.eqb s' s) eqn:Hs; simpl; [assumption|].
    now rewrite Hs.
  - assumption.
Qed.

Lemma exec_prefs_wf op env w :
  prefs_wf (preferences (database w)) = true ->
  prefs_wf (preferences (database (call (exec op) env w).2)) = true.
Proof.
  intros Hwf.
  destruct (exec_spec (fun db => prefs_wf (preferences db) = true)
              ltac:(auto) ltac:(auto)
              (fun s v db => prefs_wf_replace s v (preferences db))
              ltac:(intros; reflexivity)
              ltac:(auto) ltac:(auto) ltac:(auto) ltac:(auto)
              (stdout w) op env w)
    as (r & w' & Hcall & Hok & _).
  { split; [assumption|reflexivity]. }
  now rewrite Hcall.
Qed.

(** Whatever calls have been made since the constructor created the
    database, under any faults: rowids increase along the storage order
    below the counters, and the keys of the preferences are texts, all
    different. *)
Lemma reachable_consistent (calls : list (operation * Env)) :
  db_wf (database (run calls new_world))
  /\ prefs_wf (preferences (database (run calls new_world))) = true.
Proof.
  split.
  - apply (run_later calls new_world empty_database_wf).
  - assert (H : forall w, prefs_wf (preferences (database w)) = true ->
                prefs_wf (preferences (database (run calls w))) = true).
    { induction calls as [|[op env] calls IH]; intros w Hw; simpl;
        [assumption|]. apply IH. now apply exec_prefs_wf. }
    now apply H.
Qed.


(** The constructor's [_init_database] keeps what the database holds, and,
    having no [try], lets a fault through. *)
Example init_database_keeps_the_rows :
  call _init_database (quiet "t") two_conversations = (Ret tt, two_conversations).
Proof. vm_compute. reflexivity. Qed.

Example init_database_can_raise :
  (call _init_database {| now := "t"; schedule := [Some OperationalError] |}
        new_world).1
  = Raise OperationalError.
Proof. vm_compute. reflexivity. Qed.

(* ===================================================================== *)
(** ** The import under faults *)
(* ===================================================================== *)

(** [reads w m o]: run in the world [w], under any faults, the computation
    [m] leaves the world as it is, and returns [o] unless a fault makes it
    raise. *)
Definition reads (w : World) {A} (m : M A) (o : outcome A) : Prop :=
  forall env,
    (m env w).2 = w
    /\ ((m env w).1.1 = o \/ exists e, (m env w).1.1 = Raise e).

(** [effect w m Q]: run in the world [w], under any faults, [m] ends with an
    outcome and a world that satisfy [Q]. *)
Definition effect (w : World) {A} (m : M A) (Q : outcome A -> World -> Prop)
  : Prop :=
  forall env, Q (m env w).1.1 (m env w).2.

Lemma reads_ret {A} w (a : A) : reads w (ret a) (Ret a).
Proof. intros env; simpl. auto. Qed.

Lemma reads_lift {A} w (o : outcome A) : reads w (lift o) o.
Proof. intros env; simpl. auto. Qed.

Lemma reads_io w : reads w io (Ret tt).
Proof.
  intros env. unfold io. destruct (schedule env) as [|[e|] s]; simpl; eauto.
Qed.

Lemma reads_bind {A B} w (m : M A) (k : A -> M B) o (g : A -> outcome B) :
  reads w m o -> (forall a, o = Ret a -> reads w (k a) (g a)) ->
  reads w (a ← m; k a) (obind o g).
Proof.
  intros Hm Hk env. unfold mbind, M_bind, bind.
  destruct (Hm env) as [Hw Hr].
  destruct (m env w) as [[[a|e] env'] w']; simpl in *; subst w'.
  - destruct Hr as [<-|[e He]]; [|discriminate]. simpl. now apply Hk.
  - split; [reflexivity|]. eauto.
Qed.

Lemma reads_connect w : reads w connect (Ret (database w)).
Proof.
  intros env. unfold connect, mbind, M_bind, bind, io, get_world, mret, M_ret, ret.
  destruct (schedule env) as [|[e|] s]; simpl; eauto.
Qed.

Lemma reads_execute {A} w (stmt : Database -> outcome A) conn :
  reads w (execute stmt conn) (stmt conn).
Proof.
  intros env. unfold execute, mbind, M_bind, bind, io, lift.
  destruct (schedule env) as [|[e|] s]; simpl; eauto.
Qed.

Lemma reads_open_read w path :
  reads w (open_read path)
    (match files w !! path with Some f => Ret f | None => Raise OSError end).
Proof.
  intros env.
  unfold open_read, mbind, M_bind, bind, io, get_world, mret, M_ret, ret, raise.
  destruct (schedule env) as [|[e|] s]; simpl; eauto;
    destruct (files w !! path); simpl; eauto.
Qed.

Lemma reads_json_load w f :
  reads w (json_load f)
    (match f with
     | FileJson j => Ret (loads j)
     | FileText => Raise JSONDecodeError
     end).
Proof. intros env. destruct f; simpl; eauto. Qed.

Lemma reads_for_each {A S} w (body : A -> S -> M S)
    (step : A -> S -> outcome S) :
  (forall x s, reads w (body x s) (step x s)) ->
  forall l s, reads w (for_each l body s) (ofold step l s).
Proof.
  intros Hbody. induction l as [|x l IH]; intros s; simpl.
  - apply reads_ret.
  - apply reads_bind; [apply Hbody|]. intros a _. apply IH.
Qed.

Lemma reads_import_conversation w conv conn :
  reads w (import_conversation conv conn) (import_conversation_stmt conv conn).
Proof.
  unfold import_conversation, import_conversation_stmt.
  repeat (apply reads_bind; [apply reads_lift|]; intros ? _).
  apply reads_execute.
Qed.

Lemma reads_import_preference w kv conn :
  reads w (import_preference kv conn) (import_preference_stmt kv conn).
Proof.
  unfold import_preference, import_preference_stmt.
  repeat (apply reads_bind; [apply reads_lift|]; intros ? _).
  apply reads_execute.
Qed.

Lemma reads_import_scraping_result w r conn :
  reads w (import_scraping_result r conn) (import_scraping_result_stmt r conn).
Proof.
  unfold import_scraping_result, import_scraping_result_stmt.
  repeat (apply reads_bind; [apply reads_lift|]; intros ? _).
  apply reads_execute.
Qed.

Lemma reads_import_analysis_result w r conn :
  reads w (import_analysis_result r conn) (import_analysis_result_stmt r conn).
Proof.
  unfold import_analysis_result, import_analysis_result_stmt.
  repeat (apply reads_bind; [apply reads_lift|]; intros ? _).
  apply reads_execute.
Qed.

Lemma effect_bind {A B} w (m : M A) (k : A -> M B) o Q :
  reads w m o -> (forall e, Q (Raise e) w) ->
  (forall a, o = Ret a -> effect w (k a) Q) ->
  effect w (a ← m; k a) Q.
Proof.
  intros Hm Hraise Hk env. unfold mbind, M_bind, bind.
  destruct (Hm env) as [Hw Hr].
  destruct (m env w) as [[[a|e] env'] w']; simpl in *; subst w'.
  - destruct Hr as [<-|[e He]]; [|discriminate]. now apply Hk.
  - apply Hraise.
Qed.

(** The end of every writing method: commit, close, answer [True]. *)
Lemma effect_commit w conn (Q : outcome bool -> World -> Prop) :
  (forall e, Q (Raise e) w) ->
  (forall e, Q (Raise e) (set_database conn w)) ->
  Q (Ret true) (set_database conn w) ->
  effect w (commit conn;; close;; ret true) Q.
Proof.
  intros H1 H2 H3 env. destruct env as [t s]. run_any; auto.
Qed.

Lemma reads_clear w conn :
  reads w
    (conn ← execute delete_conversations conn;
     conn ← execute delete_preferences conn;
     conn ← execute delete_scraping_results conn;
     execute delete_analysis_results conn)
    (Ret (cleared conn)).
Proof.
  change (Ret (cleared conn))
    with (obind (delete_conversations conn) (fun c1 =>
          obind (delete_preferences c1) (fun c2 =>
          obind (delete_scraping_results c2) (fun c3 =>
          delete_analysis_results c3)))).
  repeat (apply reads_bind; [apply reads_execute|]; intros ? _).
  apply reads_execute.
Qed.

(** Under any faults, the import either leaves the database as it was and
    answers [False], or commits the database that its statements make of the
    document in the file. *)
Lemma import_data_effect file_path replace_existing env w :
  let r := call (import_data file_path replace_existing) env w in
  (database r.2 = database w /\ r.1 = Ret false)
  \/ exists j db',
       files w !! file_path = Some (FileJson j)
       /\ import_statements (loads j) replace_existing (database w) = Ret db'
       /\ database r.2 = db'
       /\ exists b, r.1 = Ret b.
Proof.
  set (Q := fun (r : outcome bool) (w' : World) =>
    (w' = w /\ exists e, r = Raise e)
    \/ exists j db',
         files w !! file_path = Some (FileJson j)
         /\ import_statements (loads j) replace_existing (database w) = Ret db'
         /\ w' = set_database db' w).
  assert (Hraise : forall e, Q (Raise e) w) by (intros e; left; eauto).
  assert (Hbody : effect w
    (f ← open_read file_path;
     import_data ← json_load f;
     conn ← connect;
     conn ← (if replace_existing then
               conn ← execute delete_conversations conn;
               conn ← execute delete_preferences conn;
               conn ← execute delete_scraping_results conn;
               execute delete_analysis_results conn
             else ret conn);
     convs ← lift (obind (py_get import_data "conversations" (PyList []))
                         py_iter);
     conn ← for_each convs import_conversation conn;
     prefs ← lift (obind (py_get import_data "preferences" (PyDict []))
                         py_items);
     conn ← for_each prefs import_preference conn;
     results ← lift (obind (py_get import_data "scraping_results" (PyList []))
                           py_iter);
     conn ← for_each results import_scraping_result conn;
     results ← lift (obind (py_get import_data "analysis_results" (PyList []))
                           py_iter);
     conn ← for_each results import_analysis_result conn;
     commit conn;;
     close;;
     ret true) Q).
  { eapply effect_bind; [apply reads_open_read|exact Hraise|]. intros f Hf.
    eapply effect_bind; [apply reads_json_load|exact Hraise|]. intros doc Hdoc.
    eapply effect_bind; [apply reads_connect|exact Hraise|]. intros conn [= <-].
    eapply effect_bind with
      (o := Ret (if replace_existing then cleared (database w) else database w));
      [destruct replace_existing; [apply reads_clear|apply reads_ret]
      |exact Hraise|].
    intros conn0 [= <-].
    eapply effect_bind; [apply reads_lift|exact Hraise|]. intros convs Hconvs.
    eapply effect_bind;
      [apply (reads_for_each w _ _ (reads_import_conversation w))
      |exact Hraise|]. intros conn1 H1.
    eapply effect_bind; [apply reads_lift|exact Hraise|]. intros prefs Hprefs.
    eapply effect_bind;
      [apply (reads_for_each w _ _ (reads_import_preference w))
      |exact Hraise|]. intros conn2 H2.
    eapply effect_bind; [apply reads_lift|exact Hraise|]. intros srs Hsrs.
    eapply effect_bind;
      [apply (reads_for_each w _ _ (reads_import_scraping_result w))
      |exact Hraise|]. intros conn3 H3.
    eapply effect_bind; [apply reads_lift|exact Hraise|]. intros ars Hars.
    eapply effect_bind;
      [apply (reads_for_each w _ _ (reads_import_analysis_result w))
      |exact Hraise|]. intros conn4 H4.
    assert (Hdone : exists j,
              files w !! file_path = Some (FileJson j)
              /\ import_statements (loads j) replace_existing (database w)
                 = Ret conn4).
    { destruct (files w !! file_path) as [f'|]; [|discriminate].
      injection Hf as ->. destruct f as [j|]; [|discriminate].
      injection Hdoc as <-. exists j. split; [reflexivity|].
      unfold import_statements.
      rewrite Hconvs; cbn [obind]. rewrite H1; cbn [obind].
      rewrite Hprefs; cbn [obind]. rewrite H2; cbn [obind].
      rewrite Hsrs; cbn [obind]. rewrite H3; cbn [obind].
      rewrite Hars; cbn [obind]. exact H4. }
    destruct Hdone as (j & Hfile & Hstmts).
    apply effect_commit; [exact Hraise| |];
      right; exists j, conn4; auto. }
  intros r. unfold r, call, import_data, try_except.
  specialize (Hbody env).
  match type of Hbody with
  | Q (?m env w).1.1 _ => destruct (m env w) as [[[b|e] env'] w']
  end; simpl in *.
  - destruct Hbody as [[_ [e He]]|(j & db' & Hfile & Hstmts & ->)];
      [discriminate|].
    right. exists j, db'. eauto.
  - destruct Hbody as [[-> _]|(j & db' & Hfile & Hstmts & ->)].
    + left. split; reflexivity.
    + right. exists j, db'. simpl. eauto.
Qed.


(* ===================================================================== *)
(** ** Faults never leave a call *)
(* ===================================================================== *)

(** The faults of a call are of two kinds.  The environment may fail one of
    the I/O steps that the call takes: the entries of the schedule that the
    call has used are the [steps] with [schedule env = steps ++ schedule
    env'], [env'] being the environment that the call leaves, and a fault is
    an entry [Some e] among them.  Or the arguments and the files make a
    statement of the body raise, whatever the environment does: *)


























Example import_of_a_broken_file :
  call (import_data "dump.json" true) (quiet "t")
    {| database := empty_database; files := {["dump.json" := FileText]};
       stdout := [] |}
  = (Ret false,
     {| database := empty_database; files := {["dump.json" := FileText]};
        stdout := ["Error importing data"] |}).
Proof. vm_compute. reflexivity. Qed.

Example save_with_a_failing_disk :
  call (save_conversation (PyList []))
    {| now := "t"; schedule := [None; Some OperationalError] |} new_world
  = (Ret false,
     {| database := empty_database; files := ∅;
        stdout := ["Error saving conversation"] |}).
Proof. vm_compute. reflexivity. Qed.

Example save_with_a_fault_at_the_commit :
  let env :=
    {| now := "t"; schedule := [None; None; Some OperationalError; None] |} in
  exec (SaveConversation (PyList [])) env new_world
  = (Ret (PyBool false),
     {| now := "t"; schedule := [None] |},
     {| database := empty_database; files := ∅;
        stdout := ["Error saving conversation"] |}).
Proof. vm_compute. reflexivity. Qed.

(* ===================================================================== *)
(** ** Timestamps *)
(* ===================================================================== *)

(** C2, as the code has it.  A save of a conversation, of a scraping
    result or of an analysis result, under any faults, either leaves the
    database as it was or adds one row whose timestamp is the clock of the
    call: the caller has no say in it.  A preference row is a key and a
    value, and what [save_preference] writes does not depend on the clock.
    The import is different.  Under any faults it either answers [False]
    and leaves the database as it was, or writes the rows [cs], [ss], [ans]
    made of the records of the document, after the existing rows or in
    place of them; the timestamp of each of these rows is the ["timestamp"]
    field of its record, as bound to the statement, and the clock of the
    call plays no part. *)
Theorem timestamps_of_writes
    (v : pyval) (url description key file_path : string)
    (replace_existing : bool) (env : Env) (t t' : string) (w : World) :
  (let r := call (save_conversation v) env w in
   (database r.2 = database w /\ r.1 = Ret false)
   \/ exists j,
        database r.2
        = set_conversations
            (sql_insert {| conv_timestamp := Some (now env);
                           conversation_data := j |}) (database w))
  /\ (let r := call (save_scraping_result url v) env w in
      (database r.2 = database w /\ r.1 = Ret false)
      \/ exists j,
           database r.2
           = set_scraping_results
               (sql_insert {| scr_timestamp := Some (now env);
                              scr_url := Some url; scr_data := j |})
               (database w))
  /\ (let r := call (save_analysis_result description v) env w in
      (database r.2 = database w /\ r.1 = Ret false)
      \/ exists j,
           database r.2
           = set_analysis_results
               (sql_insert {| ana_timestamp := Some (now env);
                              ana_description := Some description;
                              ana_data := j |}) (database w))
  /\ database (call (save_preference key v) (quiet t) w).2
     = database (call (save_preference key v) (quiet t') w).2
  /\ (let r := call (import_data file_path replace_existing) env w in
      (database r.2 = database w /\ r.1 = Ret false)
      \/ exists j convs scrapings analyses cs ps ss ans,
           files w !! file_path = Some (FileJson j)
           /\ obind (py_get (loads j) "conversations" (PyList [])) py_iter
              = Ret convs
           /\ obind (py_get (loads j) "scraping_results" (PyList []))
                py_iter = Ret scrapings
           /\ obind (py_get (loads j) "analysis_results" (PyList []))
                py_iter = Ret analyses
           /\ database r.2
              = apply_import cs ps ss ans
                  (if replace_existing then cleared (database w)
                   else database w)
           /\ Forall2 (fun conv c =>
                         obind (py_getitem conv "timestamp") bind_text
                         = Ret (conv_timestamp c)) convs cs
           /\ Forall2 (fun r c =>
                         obind (py_getitem r "timestamp") bind_text
                         = Ret (scr_timestamp c)) scrapings ss
           /\ Forall2 (fun r c =>
                         obind (py_getitem r "timestamp") bind_text
                         = Ret (ana_timestamp c)) analyses ans)
  /\ database (call (import_data file_path replace_existing) (quiet t) w).2
     = database (call (import_data file_path replace_existing) (quiet t') w).2.
Proof.
  split; [|split; [|split; [|split; [|split]]]].
  - destruct (save_conversation_effect v env w) as [H|(j & _ & H & _)];
      [left; exact H|right; eauto].
  - destruct (save_scraping_result_effect url v env w) as [H|(j & _ & H & _)];
      [left; exact H|right; eauto].
  - destruct (save_analysis_result_effect description v env w)
      as [H|(j & _ & H & _)]; [left; exact H|right; eauto].
  - rewrite !save_preference_quiet. destruct (dumps v); reflexivity.
  - destruct (import_data_effect file_path replace_existing env w)
      as [H|(j & db' & Hfile & Hstmts & Hdb & _)]; [left; exact H|right].
    rewrite import_statements_parse in Hstmts. unfold parse_document in Hstmts.
    destruct (obind (py_get (loads j) "conversations" _) py_iter)
      as [convs|] eqn:Hconvs; simpl in Hstmts; [|discriminate].
    destruct (omap conversation_cols_of convs) as [cs|] eqn:Hcs;
      simpl in Hstmts; [|discriminate].
    destruct (obind (py_get (loads j) "preferences" _) py_items)
      as [prefs|]; simpl in Hstmts; [|discriminate].
    destruct (omap preference_row_of prefs) as [ps|];
      simpl in Hstmts; [|discriminate].
    destruct (obind (py_get (loads j) "scraping_results" _) py_iter)
      as [srs|] eqn:Hsrs; simpl in Hstmts; [|discriminate].
    destruct (omap scraping_cols_of srs) as [ss|] eqn:Hss;
      simpl in Hstmts; [|discriminate].
    destruct (obind (py_get (loads j) "analysis_results" _) py_iter)
      as [ars|] eqn:Hars; simpl in Hstmts; [|discriminate].
    destruct (omap analysis_cols_of ars) as [ans|] eqn:Hans;
      simpl in Hstmts; [|discriminate].
    injection Hstmts as Hdb'.
    exists j, convs, srs, ars, cs, ps, ss, ans.
    split; [assumption|]. split; [exact Hconvs|]. split; [exact Hsrs|].
    split; [exact Hars|]. split; [congruence|]. split; [|split].
    + apply omap_Forall2 in Hcs. clear -Hcs.
      induction Hcs; constructor; auto using conversation_cols_of_timestamp.
    + apply omap_Forall2 in Hss. clear -Hss.
      induction Hss; constructor; auto using scraping_cols_of_timestamp.
    + apply omap_Forall2 in Hans. clear -Hans.
      induction Hans; constructor; auto using analysis_cols_of_timestamp.
  - rewrite !import_data_quiet_parse. reflexivity.
Qed.

(** C2, as stated, fails for the import: a conversation imported at
    10:00 on 1 January 2024 from a document that gives it the timestamp of
    31 December 1999 is stored with the timestamp of the document. *)
Lemma import_keeps_the_timestamp_of_the_document :
  let doc :=
    JObj [("conversations",
           JArr [JObj [("id", JNum 7);
                       ("timestamp", JStr "1999-12-31 23:59:59");
                       ("data", JArr [])]])] in
  let w := {| database := empty_database;
              files := {["backup.json" := FileJson doc]}; stdout := [] |} in
  let r := call (import_data "backup.json" false)
                (quiet "2024-01-01 10:00:00") w in
  r.1 = Ret true
  /\ rows (conversations (database r.2))
     = [Row 1 {| conv_timestamp := Some "1999-12-31 23:59:59";
                 conversation_data := JArr [] |}]
  /\ Some "1999-12-31 23:59:59" <> Some "2024-01-01 10:00:00".
Proof.
  repeat split; try (vm_compute; reflexivity). discriminate.
Qed.


(* ===================================================================== *)
(** ** More about the store: what a failed call leaves behind *)
(* ===================================================================== *)

(** The document of a file, when the file is there and holds JSON. *)
Definition document_at (w : World) (file_path : string) : option pyval :=
  match files w !! file_path with
  | Some (FileJson j) => Some (loads j)
  | _ => None
  end.

(** X1.  An import that cannot be carried out in full changes nothing.
    When the file is missing, does not hold JSON, or holds a document of
    which some section or record cannot be read (a section that is not a
    list, a record without its ["timestamp"], a payload that cannot be
    bound), [import_data] answers [False] and the database is as it was,
    whatever the faults: no record of the document is kept, not even
    those that came before the bad one, and in replace mode the existing
    records are not deleted. *)
Theorem failed_import_changes_nothing
    (file_path : string) (replace_existing : bool) (env : Env) (w : World) :
  match document_at w file_path with
  | Some doc => is_ret (parse_document doc) = false
  | None => True
  end ->
  (call (import_data file_path replace_existing) env w).1 = Ret false
  /\ database (call (import_data file_path replace_existing) env w).2
     = database w.
Proof.
  intros Hbad.
  destruct (import_data_effect file_path replace_existing env w)
    as [[Hdb Hr]|(j & db' & Hfile & Hstmts & _)]; [now split|].
  exfalso. unfold document_at in Hbad. rewrite Hfile in Hbad.
  rewrite import_statements_parse in Hstmts.
  destruct (parse_document (loads j)); [discriminate|discriminate].
Qed.

Definition backup_with_a_bad_record : json :=
  JObj [("conversations",
         JArr [JObj [("id", JNum 1);
                     ("timestamp", JStr "2024-01-01 09:00:00");
                     ("data", JArr [])];
               JObj [("id", JNum 2); ("data", JArr [])]])].

Definition two_conversations_and_a_bad_backup : World :=
  {| database := database two_conversations;
     files := {["backup.json" := FileJson backup_with_a_bad_record]};
     stdout := [] |}.

Lemma failed_import_changes_nothing_witness :
  is_ret (parse_document (loads backup_with_a_bad_record)) = false
  /\ (call (import_data "backup.json" true) (quiet "2024-01-02 08:00:00")
        two_conversations_and_a_bad_backup).1 = Ret false
  /\ database
       (call (import_data "backup.json" true) (quiet "2024-01-02 08:00:00")
          two_conversations_and_a_bad_backup).2
     = database two_conversations.
Proof.
  split; [vm_compute; reflexivity|].
  apply (failed_import_changes_nothing "backup.json" true
           (quiet "2024-01-02 08:00:00") two_conversations_and_a_bad_backup).
  vm_compute. reflexivity.
Defined.

(** A preference write either leaves the database as it was or replaces the
    row of the key; it answers [True] only in the second case. *)
Lemma save_preference_effect key v env w :
  let r := call (save_preference key v) env w in
  (database r.2 = database w /\ r.1 = Ret false)
  \/ exists j,
       dumps v = Ret j
       /\ database r.2
          = set_preferences (sql_replace (Some key) j) (database w)
       /\ exists b, r.1 = Ret b.
Proof.
  destruct env as [t s]. unfold save_preference.
  destruct (dumps v) as [j|e] eqn:Hd; run_any; rewrite ?Hd; simpl;
    run_any; eauto 6.
Qed.

(** The answer of a call with the database it leaves. *)
Definition observe {A} (m : M A) (env : Env) (w : World)
  : outcome A * Database :=
  ((call m env w).1, database (call m env w).2).

(** X2.  A payload that [json.dumps] rejects (a set, or anything that
    holds one) is not stored: each of the three saves and
    [save_preference] answers [False] and leaves the database as it was,
    whatever the faults. *)
Theorem rejected_payload_is_not_stored
    (v : pyval) (e : exn) (url description key : string) (env : Env)
    (w : World) :
  dumps v = Raise e ->
  observe (save_conversation v) env w = (Ret false, database w)
  /\ observe (save_scraping_result url v) env w = (Ret false, database w)
  /\ observe (save_analysis_result description v) env w
     = (Ret false, database w)
  /\ observe (save_preference key v) env w = (Ret false, database w).
Proof.
  intros Hd. unfold observe. repeat split.
  - destruct (save_conversation_effect v env w) as [[-> ->]|(j & Hj & _)];
      [reflexivity|congruence].
  - destruct (save_scraping_result_effect url v env w)
      as [[-> ->]|(j & Hj & _)]; [reflexivity|congruence].
  - destruct (save_analysis_result_effect description v env w)
      as [[-> ->]|(j & Hj & _)]; [reflexivity|congruence].
  - destruct (save_preference_effect key v env w) as [[-> ->]|(j & Hj & _)];
      [reflexivity|congruence].
Qed.

Lemma rejected_payload_is_not_stored_witness :
  let v := PyDict [(KStr "tags", PySet [KStr "a"; KStr "b"])] in
  dumps v = Raise TypeError
  /\ observe (save_conversation v)
       {| now := "2024-01-01 10:00:00"; schedule := [None; Some OSError] |}
       two_conversations
     = (Ret false, database two_conversations).
Proof.
  intros v. split; [reflexivity|].
  apply (rejected_payload_is_not_stored v TypeError "u" "d" "k"
           {| now := "2024-01-01 10:00:00"; schedule := [None; Some OSError] |}
           two_conversations eq_refl).
Defined.

(** X3.  The four loads only read: whatever the limit, the key and the
    faults, the database and the files are afterwards what they were (a
    diagnostic may have been printed). *)
Theorem loads_change_nothing
    (limit : Z) (key : string) (default : pyval) (env : Env) (w : World) :
  let same (w' : World) := database w' = database w /\ files w' = files w in
  same (call (load_conversations limit) env w).2
  /\ same (call (load_scraping_results limit) env w).2
  /\ same (call (load_analysis_results limit) env w).2
  /\ same (call (load_preference key default) env w).2.
Proof.
  destruct env as [t s]. intros same. unfold same. repeat split.
  all: unfold load_conversations, load_scraping_results,
         load_analysis_results, load_preference; run_any;
       repeat match goal with
              | |- context [select_recent ?l ?t] =>
                  destruct (select_recent l t); simpl
              | |- context [select_value ?k ?p] =>
                  destruct (select_value k p); simpl
              end; run_any; reflexivity.
Qed.

(** X4.  Writing the preference [key] does not disturb the preference
    [other]: whatever the faults of the write, a later
    [load_preference(other, d)] answers what it answered before. *)
Theorem save_preference_keeps_other_keys
    (key other : string) (v default : pyval) (env : Env) (t : string)
    (w : World) :
  key <> other ->
  (call (load_preference other default) (quiet t)
        (call (save_preference key v) env w).2).1
  = (call (load_preference other default) (quiet t) w).1.
Proof.
  intros Hne. rewrite !load_preference_quiet. cbn [fst].
  destruct (save_preference_effect key v env w) as [[-> _]|(j & _ & -> & _)];
    [reflexivity|].
  simpl. rewrite select_value_replace_other; [reflexivity|].
  simpl. now apply String.eqb_neq.
Qed.

Lemma save_preference_keeps_other_keys_witness :
  "theme" <> "api_keys"
  /\ (call (load_preference "api_keys" PyNone) (quiet "t2")
        (call (save_preference "theme" (PyStr "dark")) (quiet "t1")
              a_store_with_records).2).1
     = Ret (PyDict [(KStr "openai", PyStr "sk")]).
Proof.
  assert (H : "theme" <> "api_keys") by discriminate.
  split; [exact H|].
  rewrite (save_preference_keeps_other_keys "theme" "api_keys" (PyStr "dark")
             PyNone (quiet "t1") "t2" a_store_with_records H).
  vm_compute. reflexivity.
Defined.

(** X5.  Clearing twice is clearing once.  With no fault, each of the four
    clears answers [True], and a second call of the same clear answers
    [True] again and leaves the database exactly as the first call left
    it: clearing a category that is already empty is a success. *)
Theorem clear_is_idempotent (t1 t2 : string) (w : World) :
  let twice (clear : M bool) :=
    let w1 := (call clear (quiet t1) w).2 in
    (call clear (quiet t1) w).1 = Ret true
    /\ observe clear (quiet t2) w1 = (Ret true, database w1) in
  twice clear_all_data /\ twice clear_conversation_data
  /\ twice clear_scraping_data /\ twice clear_analysis_data.
Proof.
  repeat split; vm_compute; reflexivity.
Qed.

(* ===================================================================== *)
(** ** More about the store: invariants and bounds *)
(* ===================================================================== *)

Lemma distinct_keys_NoDup (ks : list sqlval) :
  keys_distinct (map fetch_key ks) = true -> NoDup ks.
Proof.
  induction ks as [|k ks IH]; simpl; [constructor|].
  intros [Hk Hks]%andb_true_iff. constructor; [|auto].
  intros Hin%list_elem_of_In. rewrite forallb_forall in Hk.
  specialize (Hk (fetch_key k) (in_map _ _ _ Hin)).
  now rewrite key_eqb_refl in Hk.
Qed.

(** X6.  However the store has been used since it was created (saves,
    preference writes, clears, exports, imports of any file in either
    mode, under any faults), the table of preferences holds no two rows
    with the same key, and every key is a text (none is [NULL]). *)
Theorem preference_keys_are_unique (calls : list (operation * Env)) :
  let p := preferences (database (run calls new_world)) in
  NoDup (map fst p) /\ Forall (fun kv => exists s, fst kv = Some s) p.
Proof.
  intros p. destruct (reachable_consistent calls) as [_ Hp]. fold p in Hp.
  unfold prefs_wf in Hp. apply andb_true_iff in Hp as [Hstr Hdist]. split.
  - apply distinct_keys_NoDup. now rewrite map_map.
  - clear Hdist. induction p as [|[[s|] v] p IH]; simpl in *;
      [constructor| |discriminate].
    constructor; [now exists s|auto].
Qed.

(** X7.  A limit between 0 and 2^63 - 1 is an upper bound that is reached
    when there are enough rows: in every state reachable from a new store,
    with no fault during the load, each of the three loads returns
    [min(limit, n)] entries, [n] being the number of rows of its
    category. *)
Theorem load_returns_min_of_limit_and_count
    (calls : list (operation * Env)) (limit : Z) (t : string) :
  0 <= limit <= int64_max ->
  let w := run calls new_world in
  let db := database w in
  (exists l, (call (load_conversations limit) (quiet t) w).1 = Ret l
             /\ Z.of_nat (length l)
                = Z.min limit (Z.of_nat (length (rows (conversations db)))))
  /\ (exists l, (call (load_scraping_results limit) (quiet t) w).1 = Ret l
                /\ Z.of_nat (length l)
                   = Z.min limit
                       (Z.of_nat (length (rows (scraping_results db)))))
  /\ (exists l, (call (load_analysis_results limit) (quiet t) w).1 = Ret l
                /\ Z.of_nat (length l)
                   = Z.min limit
                       (Z.of_nat (length (rows (analysis_results db))))).
Proof.
  intros Hl w db.
  destruct (reachable_consistent calls) as [(Hc & Hs & Ha) _].
  fold w in Hc, Hs, Ha. fold db in Hc, Hs, Ha.
  assert (Hr : int64_min <= limit <= int64_max) by (unfold int64_min; lia).
  assert (Hlen : forall {A B} (f : A -> B) (l : list A),
            Z.of_nat (length (map f (sql_limit limit (rev l))))
            = Z.min limit (Z.of_nat (length l))).
  { intros A B f l. rewrite length_map.
    rewrite <- (Z2Nat.id limit) at 1 by lia.
    rewrite sql_limit_take, length_take, length_rev. lia. }
  rewrite load_conversations_quiet, load_scraping_results_quiet,
    load_analysis_results_quiet.
  fold db. rewrite !select_recent_wf by assumption. cbn [fst].
  repeat split; eexists; (split; [reflexivity|apply Hlen]).
Qed.

Lemma load_returns_min_of_limit_and_count_witness :
  0 <= 1 <= int64_max
  /\ exists l,
       (call (load_conversations 1) (quiet "t") two_conversations).1 = Ret l
       /\ Z.of_nat (length l) = 1.
Proof.
  assert (H : 0 <= 1 <= int64_max) by (unfold int64_max; lia).
  split; [exact H|].
  destruct (load_returns_min_of_limit_and_count
              [(SaveConversation
                  (PyList [PyDict [(KStr "role", PyStr "user");
                                   (KStr "content", PyStr "hi")]]),
                quiet "2024-01-01 10:00:00");
               (SaveConversation (PyList []), quiet "2024-01-01 10:00:05")]
              1 "t" H) as [(l & Hl & Hn) _].
  exists l. split; [exact Hl|exact Hn].
Defined.

(* ===================================================================== *)
(** ** More about the export and the import *)
(* ===================================================================== *)

(** X8.  The export touches no file but its own.  Whatever the faults,
    [export_all_data] leaves every other file as it was.  When it answers
    [True], its file holds the JSON text of the dictionary made of the four
    categories and of the clock of the call.  When it answers [False], its
    file is as it was or has been truncated: what a previous export had
    left at that path may be lost. *)
Theorem export_writes_only_its_file
    (file_path : string) (env : Env) (w : World) :
  let r := call (export_all_data file_path) env w in
  (forall other, other <> file_path ->
     files r.2 !! other = files w !! other)
  /\ (r.1 = Ret true ->
      exists j,
        dumps (export_document (database w) (now env)) = Ret j
        /\ files r.2 !! file_path = Some (FileJson j))
  /\ (r.1 = Ret false ->
      files r.2 !! file_path = files w !! file_path
      \/ files r.2 !! file_path = Some FileText).
Proof.
  destruct env as [t s]. intros r. unfold r, export_all_data.
  unfold_monad. cbn -[dumps insert lookup].
  repeat (first
    [ match goal with
      | |- context [match ?s with [] => _ | _ :: _ => _ end] =>
          destruct s as [|[?|] ?]
      end
    | match goal with
      | |- context [dumps ?v] =>
          replace v with (export_document (database w) t) by reflexivity;
          destruct (dumps (export_document (database w) t)) eqn:?
      end ];
    cbn -[dumps insert lookup]).
  all: split;
    [intros other Hne; rewrite ?lookup_insert_ne by congruence; reflexivity|].
  all: split; [try discriminate|try discriminate].
  all: try (intros _; eexists; split; [reflexivity|apply lookup_insert_eq]).
  all: try (intros _; left; reflexivity).
  all: intros _; right; rewrite ?lookup_insert_eq; reflexivity.
Qed.

Example export_that_fails_after_the_file_was_opened :
  let w := {| database := empty_database;
              files := {["export.json" := FileJson (JObj [])]};
              stdout := [] |} in
  let env :=
    {| now := "t";
       schedule := [None; None; None; None; None; None; None;
                    Some OSError] |} in
  let r := call (export_all_data "export.json") env w in
  r.1 = Ret false /\ files r.2 !! "export.json" = Some FileText.
Proof. vm_compute. split; reflexivity. Qed.

(** X9.  A document without sections is accepted.  When the file holds a
    JSON object that has none of the four sections (the empty object, or
    any other object, such as a configuration file), the import with no
    fault answers [True]; in merge mode the database is as it was, and in
    replace mode the four categories have been emptied. *)
Theorem import_of_a_document_without_sections
    (file_path : string) (j : json) (d : list (pykey * pyval)) (t : string)
    (w : World) :
  files w !! file_path = Some (FileJson j) ->
  loads j = PyDict d ->
  dict_get d (KStr "conversations") = None ->
  dict_get d (KStr "preferences") = None ->
  dict_get d (KStr "scraping_results") = None ->
  dict_get d (KStr "analysis_results") = None ->
  observe (import_data file_path false) (quiet t) w = (Ret true, database w)
  /\ observe (import_data file_path true) (quiet t) w
     = (Ret true, cleared (database w)).
Proof.
  intros Hfile Hj Hc Hp Hs Ha. unfold observe.
  rewrite !import_data_quiet_parse, Hfile, Hj.
  unfold parse_document, py_get. rewrite Hc, Hp, Hs, Ha. simpl.
  unfold apply_import, cleared; simpl. split; [|reflexivity].
  now destruct (database w).
Qed.

Lemma import_of_a_document_without_sections_witness :
  let j := JObj [("data_dir", JStr "data")] in
  let w := {| database := database two_conversations;
              files := {["config.json" := FileJson j]}; stdout := [] |} in
  observe (import_data "config.json" true) (quiet "t") w
  = (Ret true, cleared (database two_conversations)).
Proof.
  intros j w.
  apply (import_of_a_document_without_sections "config.json" j
           [(KStr "data_dir", PyStr "data")] "t" w);
    vm_compute; reflexivity.
Defined.

Lemma filter_no_conflict (k : sqlval) (p : list (sqlval * json)) :
  forallb (fun k' => negb (key_eqb (fetch_key k) k'))
          (map (fun kv => fetch_key (fst kv)) p) = true ->
  List.filter (fun kv => negb (key_conflict (fst kv) k)) p = p.
Proof.
  induction p as [|[k' v] p IH]; simpl; [reflexivity|].
  intros [Hk Hp]%andb_true_iff.
  destruct (key_conflict k' k) eqn:Hc; simpl.
  - apply key_conflict_fetch_key in Hc. rewrite key_eqb_sym, Hc in Hk.
    discriminate.
  - now rewrite IH.
Qed.

(** Writing back to a table of preferences its own rows, re-encoded, gives
    these rows in the order they had. *)
Lemma replace_all_own (ps acc : list (sqlval * json)) :
  prefs_wf (ps ++ acc) = true ->
  replace_all (map reencode_preference ps) (ps ++ acc)
  = acc ++ map reencode_preference ps.
Proof.
  revert acc. induction ps as [|[k v] ps IH]; intros acc Hwf.
  - simpl. now rewrite app_nil_r.
  - assert (Hk : exists s, k = Some s).
    { unfold prefs_wf in Hwf. simpl in Hwf.
      destruct k as [s|]; [now exists s|discriminate]. }
    destruct Hk as [s ->].
    unfold replace_all in *. simpl.
    match goal with
    | |- fold_left _ _ ?l = _ =>
        assert (Hstep : l = ps ++ (acc ++ [(Some s, canon v)]))
    end.
    { unfold sql_replace. simpl. rewrite String.eqb_refl. simpl.
      rewrite filter_no_conflict; [now rewrite <- app_assoc|].
      unfold prefs_wf in Hwf. simpl in Hwf.
      apply andb_true_iff in Hwf as [_ [Hfresh _]%andb_true_iff].
      exact Hfresh. }
    rewrite Hstep, IH; [now rewrite <- app_assoc|].
    rewrite <- Hstep. now apply prefs_wf_replace.
Qed.

(** X10.  Importing one's own export in merge mode doubles the records.
    Take a store whose preference keys are texts, all different (as they
    are in every reachable state), export it and import the file into the
    same store without replacement, with no fault.  The import answers
    [True]; each of the three numbered categories then holds its records
    twice, the copies after the originals, with the same timestamps, urls
    and descriptions and payloads that decode to the same values; the
    preferences are as they were. *)
Theorem merge_import_of_own_export_doubles
    (w : World) (file_path t1 t2 : string) :
  prefs_wf (preferences (database w)) = true ->
  let exported := call (export_all_data file_path) (quiet t1) w in
  let imported := call (import_data file_path false) (quiet t2) exported.2 in
  let db := database w in
  let db' := database imported.2 in
  let twice {A} (l : list A) := l ++ l in
  imported.1 = Ret true
  /\ map conversation_view (map cols (rows (conversations db')))
     = twice (map conversation_view (map cols (rows (conversations db))))
  /\ map scraping_view (map cols (rows (scraping_results db')))
     = twice (map scraping_view (map cols (rows (scraping_results db))))
  /\ map analysis_view (map cols (rows (analysis_results db')))
     = twice (map analysis_view (map cols (rows (analysis_results db))))
  /\ map preference_view (preferences db')
     = map preference_view (preferences db).
Proof.
  intros Hp exported imported db db' twice.
  destruct (dumps_loads_native _ (export_document_native db t1 Hp))
    as (j & Hj & Hl).
  assert (Hexp : exported
                 = (Ret true,
                    {| database := db;
                       files := <[file_path := FileJson j]>
                                  (<[file_path := FileText]> (files w));
                       stdout := stdout w |})).
  { unfold exported. rewrite export_all_data_quiet. fold db. now rewrite Hj. }
  assert (Hfile : files exported.2 !! file_path = Some (FileJson j)).
  { rewrite Hexp. simpl. apply lookup_insert_eq. }
  assert (Himp : imported
                 = (Ret true,
                    set_database
                      (apply_import
                         (map (fun r => reencode_conversation (cols r))
                              (rows (conversations db)))
                         (map reencode_preference (preferences db))
                         (map (fun r => reencode_scraping (cols r))
                              (rows (scraping_results db)))
                         (map (fun r => reencode_analysis (cols r))
                              (rows (analysis_results db)))
                         db) exported.2)).
  { unfold imported. rewrite import_data_quiet_parse, Hfile, Hl.
    rewrite (parse_export_document db t1 Hp). now rewrite Hexp. }
  split; [now rewrite Himp|].
  unfold db'. rewrite Himp. unfold twice. cbn [snd database set_database
    apply_import conversations scraping_results analysis_results preferences].
  rewrite !insert_all_cols, !map_app.
  split; [|split; [|split]].
  - f_equal. apply map_view_reencode. intros c. unfold conversation_view; simpl.
    now rewrite loads_canon.
  - f_equal. apply map_view_reencode. intros c. unfold scraping_view; simpl.
    now rewrite loads_canon.
  - f_equal. apply map_view_reencode. intros c. unfold analysis_view; simpl.
    now rewrite loads_canon.
  - rewrite <- (app_nil_r (preferences db)) at 2.
    rewrite replace_all_own by now rewrite app_nil_r.
    simpl. rewrite map_map. apply map_ext. intros [k v].
    unfold preference_view; simpl. now rewrite loads_canon.
Qed.

Lemma merge_import_of_own_export_doubles_witness :
  let w := a_store_with_records in
  let exported := call (export_all_data "export.json")
                       (quiet "2024-01-02 08:00:00") w in
  let imported := call (import_data "export.json" false)
                       (quiet "2024-01-02 08:00:05") exported.2 in
  prefs_wf (preferences (database w)) = true
  /\ imported.1 = Ret true
  /\ length (rows (conversations (database imported.2))) = 2%nat.
Proof.
  intros w exported imported.
  assert (Hp : prefs_wf (preferences (database w)) = true)
    by (vm_compute; reflexivity).
  split; [exact Hp|].
  destruct (merge_import_of_own_export_doubles w "export.json"
              "2024-01-02 08:00:00" "2024-01-02 08:00:05" Hp)
    as (H1 & _).
  split; [exact H1|]. vm_compute. reflexivity.
Defined.


(* ===================================================================== *)
(** ** More Python: truth values, integers, slices, item assignment *)
(* ===================================================================== *)

(** [bool(v)]: [None], [False], zero and the empty string and containers
    are false. *)
Definition py_truth (v : pyval) : bool :=
  match v with
  | PyNone => false
  | PyBool b => b
  | PyInt z => negb (z =? 0)
  | PyStr s => negb (String.eqb s "")
  | PyList l | PyTuple l => match l with [] => false | _ => true end
  | PyDict d => match d with [] => false | _ => true end
  | PySet l => match l with [] => false | _ => true end
  end.

(** [x or y]. *)
Definition py_or (x y : pyval) : pyval := if py_truth x then x else y.

(** The integer that a value stands for where an [int] is compared with it
    or where it is negated: [int] and [bool] only.  [None], strings and
    containers raise.  A floating point number, with which an [int]
    compares without raising, is not among the values [pyval]. *)
Definition py_int (v : pyval) : outcome Z :=
  match v with
  | PyInt z => Ret z
  | PyBool b => Ret (if b then 1 else 0)
  | _ => Raise TypeError
  end.

(** [l[start:]]: a negative [start] counts from the end, and both ends are
    clamped. *)
Definition slice_from {A} (start : Z) (l : list A) : list A :=
  let n := Z.of_nat (length l) in
  let i := if start <? 0 then Z.max (n + start) 0 else Z.min start n in
  drop (Z.to_nat i) l.

(** [d.update(u)]. *)
Definition dict_update (d u : list (pykey * pyval)) : list (pykey * pyval) :=
  fold_left (fun d kv => dict_set d (fst kv) (snd kv)) u d.

(** [os.path.exists(path)]: it reads the file system and does not raise. *)
Definition path_exists (path : string) : M bool :=
  w ← get_world;
  ret (match files w !! path with Some _ => true | None => false end).

(* ===================================================================== *)
(** ** [NLPModule]: the conversation context *)
(* ===================================================================== *)

Module NLPModule.

(** The attributes that the methods below use.  [context] is a list as long
    as only [add_to_context] and [clear_context] write it; [load_context]
    stores whatever the file holds.  [max_context_length] and
    [current_provider] are whatever the configuration gave. *)
Record t : Type :=
  { context : pyval;
    max_context_length : pyval;
    current_provider : pyval }.

Definition set_context (c : pyval) (self : t) : t :=
  {| context := c;
     max_context_length := max_context_length self;
     current_provider := current_provider self |}.

(** [NLPModule(config)]. *)
Definition __init__ (config : pyval) : outcome t :=
  let config := py_or config (PyDict []) in
  obind (py_get config "max_context_length" (PyInt 10)) (fun m =>
  obind (py_get config "default_provider" (PyStr "gemini")) (fun p =>
  Ret {| context := PyList []; max_context_length := m;
         current_provider := p |})).

(** [add_to_context(message)]: the message is appended, then the list is
    cut to its last [max_context_length] elements if it is longer.  What
    has been appended stays when the comparison raises. *)
Definition add_to_context (message : pyval) (self : t) : outcome unit * t :=
  match context self with
  | PyList l =>
      let l := l ++ [message] in
      let self := set_context (PyList l) self in
      match py_int (max_context_length self) with
      | Ret n =>
          if Z.of_nat (length l) >? n
          then (Ret tt, set_context (PyList (slice_from (- n) l)) self)
          else (Ret tt, self)
      | Raise e => (Raise e, self)
      end
  | _ => (Raise AttributeError, self)
  end.

Definition clear_context (self : t) : t := set_context (PyList []) self.

Definition get_context (self : t) : pyval := context self.



End NLPModule.

(** Messages added one after the other, up to the first that raises. *)
Fixpoint add_all (messages : list pyval) (self : NLPModule.t)
  : outcome unit * NLPModule.t :=
  match messages with
  | [] => (Ret tt, self)
  | m :: ms =>
      match NLPModule.add_to_context m self with
      | (Ret _, self') => add_all ms self'
      | (Raise e, self') => (Raise e, self')
      end
  end.

(** The last [n] elements of a list. *)
Definition last_n {A} (n : nat) (l : list A) : list A :=
  drop (length l - n) l.

Lemma slice_from_last {A} (n : Z) (l : list A) :
  0 < n -> slice_from (- n) l = last_n (Z.to_nat n) l.
Proof.
  intros Hn. unfold slice_from, last_n.
  destruct (Z.ltb_spec (- n) 0); [|lia]. f_equal. lia.
Qed.

Lemma add_to_context_window (l : list pyval) (n : Z) m self :
  NLPModule.context self = PyList l ->
  NLPModule.max_context_length self = PyInt n ->
  0 < n ->
  NLPModule.add_to_context m self
  = (Ret tt,
     NLPModule.set_context (PyList (last_n (Z.to_nat n) (l ++ [m]))) self).
Proof.
  intros Hc Hm Hn. unfold NLPModule.add_to_context. rewrite Hc. simpl.
  rewrite Hm. simpl.
  destruct (Z.gtb_spec (Z.of_nat (length (l ++ [m]))) n) as [Hgt|Hle].
  - rewrite slice_from_last by assumption. reflexivity.
  - unfold last_n. replace (length (l ++ [m]) - Z.to_nat n)%nat with 0%nat by lia.
    simpl. now destruct self.
Qed.

Lemma add_all_window (ms l : list pyval) (n : Z) self :
  NLPModule.context self = PyList l ->
  NLPModule.max_context_length self = PyInt n ->
  0 < n ->
  (length l <= Z.to_nat n)%nat ->
  add_all ms self
  = (Ret tt,
     NLPModule.set_context (PyList (last_n (Z.to_nat n) (l ++ ms))) self).
Proof.
  revert l self. induction ms as [|m ms IH]; intros l self Hc Hm Hn Hl; simpl.
  - rewrite app_nil_r. unfold last_n.
    replace (length l - Z.to_nat n)%nat with 0%nat by lia. simpl.
    destruct self; simpl in *. now subst.
  - rewrite (add_to_context_window l n m self Hc Hm Hn).
    rewrite (IH (last_n (Z.to_nat n) (l ++ [m]))); try assumption;
      try reflexivity.
    + f_equal. unfold NLPModule.set_context; simpl. f_equal. f_equal.
      unfold last_n.
      set (N := Z.to_nat n).
      set (a := (length (l ++ [m]) - N)%nat).
      assert (Ha : (a <= length (l ++ [m]))%nat) by (unfold a; lia).
      rewrite <- (drop_app_le (l ++ [m]) ms a Ha), drop_drop.
      rewrite <- app_assoc. simpl. f_equal.
      rewrite length_drop. unfold a. rewrite !length_app. simpl. lia.
    + unfold last_n. rewrite length_drop, length_app. simpl. lia.
Qed.

(** X11.  The context is a sliding window.  For a module whose
    [max_context_length] is an integer [n >= 1] and whose context holds at
    most [n] messages (as it does after the constructor), adding any
    messages one after the other raises nothing and leaves in the context
    the last [n] of the messages it held and was given, in their order:
    never more than [n], and all of them as long as they are at most
    [n]. *)
Theorem context_keeps_the_last_messages
    (self : NLPModule.t) (l ms : list pyval) (n : Z) :
  NLPModule.context self = PyList l ->
  NLPModule.max_context_length self = PyInt n ->
  1 <= n ->
  (length l <= Z.to_nat n)%nat ->
  let kept := last_n (Z.to_nat n) (l ++ ms) in
  add_all ms self = (Ret tt, NLPModule.set_context (PyList kept) self)
  /\ (length kept <= Z.to_nat n)%nat
  /\ ((length (l ++ ms) <= Z.to_nat n)%nat -> kept = l ++ ms).
Proof.
  intros Hc Hm Hn Hl kept. split; [|split].
  - apply add_all_window; try assumption. lia.
  - unfold kept, last_n. rewrite length_drop. lia.
  - intros Hle. unfold kept, last_n.
    replace (length (l ++ ms) - Z.to_nat n)%nat with 0%nat by lia.
    reflexivity.
Qed.

Definition three_messages : list pyval :=
  [PyDict [(KStr "role", PyStr "user"); (KStr "content", PyStr "a")];
   PyDict [(KStr "role", PyStr "assistant"); (KStr "content", PyStr "b")];
   PyDict [(KStr "role", PyStr "user"); (KStr "content", PyStr "c")]].

Definition window_of_two : NLPModule.t :=
  {| NLPModule.context := PyList [];
     NLPModule.max_context_length := PyInt 2;
     NLPModule.current_provider := PyStr "gemini" |}.

Lemma context_keeps_the_last_messages_witness :
  NLPModule.__init__ (PyDict [(KStr "max_context_length", PyInt 2)])
  = Ret window_of_two
  /\ add_all three_messages window_of_two
     = (Ret tt,
        NLPModule.set_context
          (PyList
             [PyDict [(KStr "role", PyStr "assistant");
                      (KStr "content", PyStr "b")];
              PyDict [(KStr "role", PyStr "user");
                      (KStr "content", PyStr "c")]])
          window_of_two).
Proof.
  split; [reflexivity|].
  apply (context_keeps_the_last_messages window_of_two [] three_messages 2
           eq_refl eq_refl); simpl; lia.
Defined.

Lemma add_to_context_nonpositive (l : list pyval) (n : Z) m self :
  NLPModule.context self = PyList l ->
  NLPModule.max_context_length self = PyInt n ->
  n <= 0 ->
  NLPModule.add_to_context m self
  = (Ret tt,
     NLPModule.set_context (PyList (drop (Z.to_nat (- n)) (l ++ [m]))) self).
Proof.
  intros Hc Hm Hn. unfold NLPModule.add_to_context. rewrite Hc. simpl.
  rewrite Hm. simpl.
  destruct (Z.gtb_spec (Z.of_nat (length (l ++ [m]))) n) as [Hgt|Hle];
    [|rewrite length_app in Hle; simpl in Hle; lia].
  unfold slice_from. destruct (Z.ltb_spec (- n) 0); [lia|].
  destruct (Z.min_spec (- n) (Z.of_nat (length (l ++ [m])))) as [[_ ->]|[Hge ->]];
    [reflexivity|].
  rewrite Nat2Z.id. rewrite !drop_ge by lia. reflexivity.
Qed.

Lemma add_all_nonpositive (ms l : list pyval) (n : Z) self :
  NLPModule.context self = PyList l ->
  NLPModule.max_context_length self = PyInt n ->
  n <= 0 ->
  add_all ms self
  = (Ret tt,
     NLPModule.set_context
       (PyList (drop (length ms * Z.to_nat (- n)) (l ++ ms))) self).
Proof.
  revert l self. induction ms as [|m ms IH]; intros l self Hc Hm Hn; simpl.
  - rewrite app_nil_r. destruct self; simpl in *. now subst.
  - rewrite (add_to_context_nonpositive l n m self Hc Hm Hn).
    set (k := Z.to_nat (- n)).
    rewrite (IH (drop k (l ++ [m]))) by (try reflexivity; assumption).
    fold k. f_equal. unfold NLPModule.set_context; simpl. f_equal. f_equal.
    replace (l ++ m :: ms) with ((l ++ [m]) ++ ms)
      by (now rewrite <- app_assoc).
    destruct (Nat.le_gt_cases k (length (l ++ [m]))) as [Hle|Hgt].
    + rewrite <- (drop_app_le (l ++ [m]) ms k Hle), drop_drop.
      f_equal; try lia.
    + rewrite (drop_ge (l ++ [m])) by lia. simpl.
      rewrite !drop_ge; [reflexivity| |].
      * rewrite length_app. nia.
      * nia.
Qed.

(** X12.  A limit below one does not give an empty context.  With
    [max_context_length = 0] the list is cut with [context[-0:]], which is
    the whole list: every message ever added is kept.  With a negative
    limit [-k] each call appends the message and then drops the [k] oldest
    elements of the list.  So, for a limit [n <= 0], adding the messages
    [ms] to a context [l] leaves [l ++ ms] without its first
    [k * len(ms)] elements, [k] being [-n]: from an empty context nothing
    is ever kept when [n < 0], and with [-1] a context (one that
    [load_context] has set, say) keeps its length and slides. *)
Theorem nonpositive_max_context_length
    (self : NLPModule.t) (l ms : list pyval) (n : Z) :
  NLPModule.context self = PyList l ->
  NLPModule.max_context_length self = PyInt n ->
  n <= 0 ->
  let kept := drop (length ms * Z.to_nat (- n)) (l ++ ms) in
  add_all ms self = (Ret tt, NLPModule.set_context (PyList kept) self)
  /\ (n = 0 -> kept = l ++ ms)
  /\ (n < 0 -> l = [] -> kept = [])
  /\ (n = -1 -> length kept = length l).
Proof.
  intros Hc Hm Hn kept. split; [|split; [|split]].
  - now apply add_all_nonpositive.
  - intros ->. unfold kept. simpl. now rewrite Nat.mul_0_r.
  - intros Hneg ->. unfold kept. simpl. apply drop_ge. nia.
  - intros ->. unfold kept. simpl. rewrite Nat.mul_1_r.
    rewrite length_drop, length_app. lia.
Qed.

Lemma nonpositive_max_context_length_witness :
  (let self := {| NLPModule.context := PyList [];
                  NLPModule.max_context_length := PyInt 0;
                  NLPModule.current_provider := PyStr "gemini" |} in
   add_all three_messages self
   = (Ret tt, NLPModule.set_context (PyList three_messages) self))
  /\ (let self := {| NLPModule.context := PyList three_messages;
                     NLPModule.max_context_length := PyInt (-1);
                     NLPModule.current_provider := PyStr "gemini" |} in
      add_all [PyStr "d"] self
      = (Ret tt,
         NLPModule.set_context
           (PyList (drop 1 three_messages ++ [PyStr "d"])) self)).
Proof.
  split; intros self.
  - apply (nonpositive_max_context_length self [] three_messages 0
             eq_refl eq_refl). lia.
  - apply (nonpositive_max_context_length self three_messages [PyStr "d"] (-1)
             eq_refl eq_refl). lia.
Defined.

(** The values that are neither integers nor booleans. *)
Definition not_a_number (v : pyval) : bool :=
  match v with
  | PyInt _ | PyBool _ => false
  | PyNone | PyStr _ | PyList _ | PyTuple _ | PyDict _ | PySet _ => true
  end.

(** X13.  A limit that is [None], a string, a list, a tuple, a dictionary
    or a set makes every [add_to_context] raise, after the message has been
    appended.  When the context is a list and [max_context_length] is such
    a value (a string or [null] from the configuration file, say), the call
    raises [TypeError] at the comparison and the context holds the message
    all the same; nothing is ever cut. *)
Theorem message_is_kept_when_the_limit_is_not_a_number
    (self : NLPModule.t) (l : list pyval) (message : pyval) :
  NLPModule.context self = PyList l ->
  not_a_number (NLPModule.max_context_length self) = true ->
  NLPModule.add_to_context message self
  = (Raise TypeError, NLPModule.set_context (PyList (l ++ [message])) self).
Proof.
  intros Hc Hm. unfold NLPModule.add_to_context. rewrite Hc. simpl.
  destruct (NLPModule.max_context_length self); simpl in *;
    try discriminate; reflexivity.
Qed.

Lemma message_is_kept_when_the_limit_is_not_a_number_witness :
  let self := {| NLPModule.context := PyList [];
                 NLPModule.max_context_length := PyStr "10";
                 NLPModule.current_provider := PyStr "gemini" |} in
  NLPModule.__init__ (PyDict [(KStr "max_context_length", PyStr "10")])
  = Ret self
  /\ NLPModule.add_to_context (PyStr "hello") self
     = (Raise TypeError, NLPModule.set_context (PyList [PyStr "hello"]) self).
Proof.
  intros self. split; [reflexivity|].
  apply (message_is_kept_when_the_limit_is_not_a_number self []
           (PyStr "hello") eq_refl eq_refl).
Defined.





(* ===================================================================== *)
(** ** The other modules, as far as the controller uses them here *)
(* ===================================================================== *)

(** The entries of the three in-memory histories hold floating point
    timestamps and are not inspected by the methods below: their type [E]
    is a parameter. *)

Module WebScrapingModule.

Record t (E : Type) : Type := { history : list E }.
Arguments history {E} _.

Definition get_history {E} (self : t E) : list E := history self.

Definition clear_history {E} (self : t E) : t E := {| history := [] |}.

End WebScrapingModule.

Module DataAnalysisModule.

Record t (E : Type) : Type := { analysis_history : list E }.
Arguments analysis_history {E} _.

Definition get_history {E} (self : t E) : list E := analysis_history self.

Definition clear_history {E} (self : t E) : t E :=
  {| analysis_history := [] |}.

End DataAnalysisModule.

Module APIIntegrationManager.

(** [api_keys] is modelled where it is a dictionary, as it is unless the
    configuration puts something else under ["api_keys"]. *)
Record t (E : Type) : Type :=
  { api_keys : list (pykey * pyval);
    default_provider : pyval;
    request_history : list E }.
Arguments api_keys {E} _.
Arguments default_provider {E} _.
Arguments request_history {E} _.

Definition set_api_keys {E} (keys : list (pykey * pyval)) (self : t E)
  : t E :=
  {| api_keys := keys;
     default_provider := default_provider self;
     request_history := request_history self |}.

(** [self.api_keys[provider] = api_key], for a hashable [provider]. *)
Definition set_api_key {E} (provider : pykey) (api_key : pyval) (self : t E)
  : t E :=
  set_api_keys (dict_set (api_keys self) provider api_key) self.

(** [self.api_keys.get(provider)]. *)
Definition get_api_key {E} (provider : pykey) (self : t E) : pyval :=
  match dict_get (api_keys self) provider with
  | Some key => key
  | None => PyNone
  end.

Definition get_default_provider {E} (self : t E) : pyval :=
  default_provider self.

Definition get_history {E} (self : t E) : list E := request_history self.

Definition clear_history {E} (self : t E) : t E :=
  {| api_keys := api_keys self;
     default_provider := default_provider self;
     request_history := [] |}.

End APIIntegrationManager.

(* ===================================================================== *)
(** ** [ApplicationController] *)
(* ===================================================================== *)

Module ApplicationController.

(** The modules that the controller holds; its session manager is the
    database of the world. *)
Record t (E : Type) : Type :=
  { nlp_module : NLPModule.t;
    web_scraping_module : WebScrapingModule.t E;
    data_analysis_module : DataAnalysisModule.t E;
    api_integration : APIIntegrationManager.t E }.
Arguments nlp_module {E} _.
Arguments web_scraping_module {E} _.
Arguments data_analysis_module {E} _.
Arguments api_integration {E} _.

Definition set_nlp_module {E} (m : NLPModule.t) (self : t E) : t E :=
  {| nlp_module := m;
     web_scraping_module := web_scraping_module self;
     data_analysis_module := data_analysis_module self;
     api_integration := api_integration self |}.

Definition set_web_scraping_module {E} (m : WebScrapingModule.t E)
    (self : t E) : t E :=
  {| nlp_module := nlp_module self;
     web_scraping_module := m;
     data_analysis_module := data_analysis_module self;
     api_integration := api_integration self |}.

Definition set_data_analysis_module {E} (m : DataAnalysisModule.t E)
    (self : t E) : t E :=
  {| nlp_module := nlp_module self;
     web_scraping_module := web_scraping_module self;
     data_analysis_module := m;
     api_integration := api_integration self |}.

Definition set_api_integration {E} (m : APIIntegrationManager.t E)
    (self : t E) : t E :=
  {| nlp_module := nlp_module self;
     web_scraping_module := web_scraping_module self;
     data_analysis_module := data_analysis_module self;
     api_integration := m |}.

Definition default_config : list (pykey * pyval) :=
  [(KStr "data_dir", PyStr "data");
   (KStr "nlp_config",
    PyDict [(KStr "max_context_length", PyInt 10);
            (KStr "default_provider", PyStr "gemini")]);
   (KStr "web_scraping_config",
    PyDict [(KStr "user_agent", PyStr "AI Agent App/1.0");
            (KStr "rate_limit", PyInt 1)]);
   (KStr "data_analysis_config", PyDict []);
   (KStr "api_config", PyDict [(KStr "default_provider", PyStr "gemini")])].

(** One turn of the loop of [_load_config]: a dictionary of the file is
    merged into the default dictionary of the same key, anything else
    takes the place of the default. *)
Definition merge_entry (default_config : list (pykey * pyval))
    (kv : pykey * pyval) : list (pykey * pyval) :=
  let '(key, value) := kv in
  match dict_get default_config key, value with
  | Some (PyDict d), PyDict u =>
      dict_set default_config key (PyDict (dict_update d u))
  | _, _ => dict_set default_config key value
  end.

Definition _load_config (config_path : option string) : M pyval :=
  found ← match config_path with
          | Some path =>
              if String.eqb path "" then ret false else path_exists path
          | None => ret false
          end;
  match config_path, found with
  | Some path, true =>
      try_except
        (f ← open_read path;
         loaded_config ← json_load f;
         items ← lift (py_items loaded_config);
         config ← for_each items (fun kv config => ret (merge_entry config kv))
                    default_config;
         ret (PyDict config))
        (fun e => print "Error loading configuration";;
                  ret (PyDict default_config))
  | _, _ => ret (PyDict default_config)
  end.

(** [_load_api_keys]: the controller afterwards. *)
Definition _load_api_keys {E} (self : t E) : M (t E) :=
  api_keys ← load_preference "api_keys" (PyDict []);
  items ← lift (py_items api_keys);
  api ← for_each items
          (fun kv api =>
             ret (APIIntegrationManager.set_api_key (fst kv) (snd kv) api))
          (api_integration self);
  ret (set_api_integration api self).

Definition _save_api_keys {E} (self : t E) : M unit :=
  save_preference "api_keys"
    (PyDict (APIIntegrationManager.api_keys (api_integration self)));;
  ret tt.

(** [set_api_key]: the controller afterwards. *)
Definition set_api_key {E} (provider : pykey) (api_key : pyval) (self : t E)
  : M (t E) :=
  let api := APIIntegrationManager.set_api_key provider api_key
               (api_integration self) in
  let self := set_api_integration api self in
  _save_api_keys self;;
  ret self.

(** [clear_memory]: the answer and the controller afterwards. *)
Definition clear_memory {E} (memory_type : string) (self : t E)
  : M (bool * t E) :=
  if String.eqb memory_type "all" then
    success ← clear_all_data;
    if success : bool then
      let self := set_nlp_module (NLPModule.clear_context (nlp_module self))
                    self in
      let self := set_web_scraping_module
                    (WebScrapingModule.clear_history (web_scraping_module self))
                    self in
      let self := set_data_analysis_module
                    (DataAnalysisModule.clear_history
                       (data_analysis_module self)) self in
      let self := set_api_integration
                    (APIIntegrationManager.clear_history (api_integration self))
                    self in
      ret (success, self)
    else ret (success, self)
  else if String.eqb memory_type "conversations" then
    success ← clear_conversation_data;
    if success : bool then
      ret (success,
           set_nlp_module (NLPModule.clear_context (nlp_module self)) self)
    else ret (success, self)
  else if String.eqb memory_type "scraping" then
    success ← clear_scraping_data;
    if success : bool then
      ret (success,
           set_web_scraping_module
             (WebScrapingModule.clear_history (web_scraping_module self)) self)
    else ret (success, self)
  else if String.eqb memory_type "analysis" then
    success ← clear_analysis_data;
    if success : bool then
      ret (success,
           set_data_analysis_module
             (DataAnalysisModule.clear_history (data_analysis_module self))
             self)
    else ret (success, self)
  else ret (false, self).

Definition export_data (file_path : string) : M bool :=
  export_all_data file_path.

Definition import_data (file_path : string) (replace_existing : bool)
  : M bool :=
  import_data file_path replace_existing.

Definition get_conversation_history (limit : Z) : M (list pyval) :=
  load_conversations limit.

Definition get_scraping_history (limit : Z) : M (list pyval) :=
  load_scraping_results limit.

Definition get_analysis_history (limit : Z) : M (list pyval) :=
  load_analysis_results limit.

End ApplicationController.

(* ===================================================================== *)
(** ** The configuration *)
(* ===================================================================== *)

Lemma dict_get_eqv d k1 k2 :
  key_eqb k1 k2 = true -> dict_get d k1 = dict_get d k2.
Proof.
  intros Hk. induction d as [|[k v] d IH]; simpl; [reflexivity|].
  destruct (key_eqb k k1) eqn:H1, (key_eqb k k2) eqn:H2; auto.
  - rewrite (key_eqb_trans _ _ _ H1 Hk) in H2. discriminate.
  - rewrite key_eqb_sym in Hk.
    rewrite (key_eqb_trans _ _ _ H2 Hk) in H1. discriminate.
Qed.

(** Lookup after assignment. *)
Lemma dict_get_set d k v k' :
  dict_get (dict_set d k v) k'
  = if key_eqb k k' then Some v else dict_get d k'.
Proof.
  induction d as [|[k0 v0] d IH]; simpl; [reflexivity|].
  destruct (key_eqb k0 k) eqn:H0; simpl.
  - destruct (key_eqb k0 k') eqn:H1, (key_eqb k k') eqn:H2; auto.
    + rewrite key_eqb_sym in H0.
      rewrite (key_eqb_trans _ _ _ H0 H1) in H2. discriminate.
    + rewrite (key_eqb_trans _ _ _ H0 H2) in H1. discriminate.
  - rewrite IH. destruct (key_eqb k0 k') eqn:H1, (key_eqb k k') eqn:H2; auto.
    rewrite key_eqb_sym in H2.
    rewrite (key_eqb_trans _ _ _ H1 H2) in H0. discriminate.
Qed.

Lemma dict_get_fresh d k :
  forallb (fun k' => negb (key_eqb k k')) (map fst d) = true ->
  forall k', key_eqb k k' = true -> dict_get d k' = None.
Proof.
  induction d as [|[k0 v0] d IH]; simpl; [reflexivity|].
  intros [H0 Hd]%andb_true_iff k' Hk.
  destruct (key_eqb k0 k') eqn:H1; [|now apply IH].
  rewrite key_eqb_sym in H1.
  rewrite (key_eqb_trans _ _ _ Hk H1) in H0. discriminate.
Qed.

(** What the configuration holds for a key once the entries of a file have
    been merged into it, one after the other. *)
Definition merged_value (default : option pyval) (value : pyval) : pyval :=
  match default, value with
  | Some (PyDict d), PyDict u => PyDict (dict_update d u)
  | _, _ => value
  end.

Lemma merge_entry_set config key value :
  ApplicationController.merge_entry config (key, value)
  = dict_set config key (merged_value (dict_get config key) value).
Proof.
  unfold ApplicationController.merge_entry, merged_value.
  destruct (dict_get config key) as [[]|]; try reflexivity.
  destruct value; reflexivity.
Qed.

Lemma merged_lookup items config k :
  keys_distinct (map fst items) = true ->
  dict_get (fold_left ApplicationController.merge_entry items config) k
  = match dict_get items k with
    | Some value => Some (merged_value (dict_get config k) value)
    | None => dict_get config k
    end.
Proof.
  revert config. induction items as [|[k1 v1] items IH]; intros config Hd;
    [reflexivity|].
  simpl in Hd. apply andb_true_iff in Hd as [Hfresh Hd].
  cbn [fold_left dict_get].
  rewrite IH by assumption. rewrite merge_entry_set, dict_get_set.
  destruct (key_eqb k1 k) eqn:Hk.
  - rewrite (dict_get_fresh items k1 Hfresh k Hk).
    now rewrite (dict_get_eqv config k1 k Hk).
  - reflexivity.
Qed.

Lemma for_each_ret {A S} (f : S -> A -> S) (l : list A) (s : S) env w :
  for_each l (fun x s => ret (f s x)) s env w = (Ret (fold_left f l s), env, w).
Proof.
  revert s. induction l as [|x l IH]; intros s; simpl; [reflexivity|].
  unfold mbind, M_bind, bind. simpl. apply IH.
Qed.

(** X16.  [_load_config] gives the defaults or the defaults with the whole
    file merged in, and never raises.  Whatever the faults, the database
    and the files are left as they were; the result is the default
    configuration, unless the path is given and not empty and the file is
    there and holds a JSON object, in which case it may also be the
    defaults with every entry of the object merged in.  So a missing,
    unreadable or malformed file, or one that holds a list, silently gives
    the defaults. *)
Theorem load_config_gives_defaults_or_the_merge
    (config_path : option string) (env : Env) (w : World) :
  let r := call (ApplicationController._load_config config_path) env w in
  database r.2 = database w
  /\ files r.2 = files w
  /\ (r.1 = Ret (PyDict ApplicationController.default_config)
      \/ exists path j items,
           config_path = Some path /\ path <> ""
           /\ files w !! path = Some (FileJson j)
           /\ loads j = PyDict items
           /\ r.1 = Ret (PyDict
                           (fold_left ApplicationController.merge_entry items
                              ApplicationController.default_config))).
Proof.
  destruct env as [t s]. intros r.
  unfold r, ApplicationController._load_config, path_exists.
  destruct config_path as [path|]; [|repeat split; now left].
  destruct (String.eqb_spec path "") as [->|Hne]; [repeat split; now left|].
  unfold_monad. cbn -[lookup loads ApplicationController.default_config].
  destruct (files w !! path) as [[j|]|] eqn:Hfile;
    cbn -[lookup loads ApplicationController.default_config];
    repeat match goal with
           | |- context [match ?s with [] => _ | _ :: _ => _ end] =>
               destruct s as [|[?|] ?];
               cbn -[lookup loads ApplicationController.default_config]
           end;
    rewrite ?Hfile;
    cbn -[lookup loads ApplicationController.default_config];
    try (repeat split; now left).
  all: destruct (loads j) as [| | | | | |items|] eqn:Hj;
    cbn -[lookup loads ApplicationController.default_config];
    try (repeat split; now left).
  all: pose proof (for_each_ret
                (fun config kv => ApplicationController.merge_entry config kv)
                items ApplicationController.default_config) as Hloop;
    unfold ret in Hloop; rewrite Hloop;
    cbn -[lookup loads ApplicationController.default_config];
    repeat split; right; exists path, j, items; repeat split; auto.
Qed.

(** X17.  The file is merged into the defaults one level deep.  When the
    file holds a JSON object, [_load_config], with no fault, returns a
    configuration in which a key that the file does not have keeps its
    default; a key of the file whose value and whose default are both
    dictionaries holds the default dictionary updated with the entries of
    the file's (the entries of the file win, the other defaults stay, and
    dictionaries nested deeper are replaced, not merged); any other key of
    the file holds the value of the file. *)
Theorem load_config_merges_one_level
    (path : string) (j : json) (items : list (pykey * pyval)) (t : string)
    (w : World) (k : pykey) :
  path <> "" ->
  files w !! path = Some (FileJson j) ->
  loads j = PyDict items ->
  exists config,
    (call (ApplicationController._load_config (Some path)) (quiet t) w).1
    = Ret (PyDict config)
    /\ dict_get config k
       = match dict_get items k with
         | Some value =>
             Some (match dict_get ApplicationController.default_config k,
                         value with
                   | Some (PyDict d), PyDict u => PyDict (dict_update d u)
                   | _, _ => value
                   end)
         | None => dict_get ApplicationController.default_config k
         end.
Proof.
  intros Hne Hfile Hj.
  exists (fold_left ApplicationController.merge_entry items
            ApplicationController.default_config).
  split.
  - unfold ApplicationController._load_config, path_exists.
    destruct (String.eqb_spec path ""); [contradiction|].
    unfold_monad. unfold quiet.
    cbn -[lookup loads ApplicationController.default_config].
    rewrite Hfile. cbn -[lookup loads ApplicationController.default_config].
    rewrite Hfile. cbn -[lookup loads ApplicationController.default_config].
    rewrite Hj. cbn -[lookup loads ApplicationController.default_config].
    pose proof (for_each_ret
                  (fun config kv => ApplicationController.merge_entry config kv)
                  items ApplicationController.default_config) as Hloop.
    unfold ret in Hloop. rewrite Hloop. reflexivity.
  - pose proof (loads_native j) as Hn. rewrite Hj in Hn. simpl in Hn.
    apply andb_true_iff in Hn as [[_ Hd]%andb_true_iff _].
    rewrite (merged_lookup items _ k Hd). reflexivity.
Qed.

Definition a_configuration_file : json :=
  JObj [("nlp_config", JObj [("max_context_length", JNum 5)]);
        ("data_dir", JStr "elsewhere")].

Lemma load_config_merges_one_level_witness :
  let w := {| database := empty_database;
              files := {["config.json" := FileJson a_configuration_file]};
              stdout := [] |} in
  exists config,
    (call (ApplicationController._load_config (Some "config.json"))
          (quiet "t") w).1 = Ret (PyDict config)
    /\ dict_get config (KStr "nlp_config")
       = Some (PyDict [(KStr "max_context_length", PyInt 5);
                       (KStr "default_provider", PyStr "gemini")]).
Proof.
  intros w.
  destruct (load_config_merges_one_level "config.json" a_configuration_file
              [(KStr "nlp_config", PyDict [(KStr "max_context_length", PyInt 5)]);
               (KStr "data_dir", PyStr "elsewhere")]
              "t" w (KStr "nlp_config"))
    as (config & Hcall & Hget); try reflexivity; try discriminate.
  exists config. split; [exact Hcall|exact Hget].
Defined.

(** X18.  With no configuration file the context holds the last ten
    messages.  [_load_config(None)] gives, whatever the faults, a
    configuration whose ["nlp_config"] makes [NLPModule] a module with an
    empty context in which, after any messages have been added, the last
    ten of them remain. *)
Theorem default_context_holds_ten_messages
    (env : Env) (w : World) (ms : list pyval) :
  exists config nlp_config self,
    (call (ApplicationController._load_config None) env w).1 = Ret config
    /\ py_get config "nlp_config" (PyDict []) = Ret nlp_config
    /\ NLPModule.__init__ nlp_config = Ret self
    /\ add_all ms self
       = (Ret tt, NLPModule.set_context (PyList (last_n 10 ms)) self).
Proof.
  destruct env as [t s].
  eexists _, _, _. split; [reflexivity|]. split; [reflexivity|].
  split; [reflexivity|].
  apply (add_all_window ms [] 10); try reflexivity. simpl. lia.
Qed.

(* ===================================================================== *)
(** ** The API keys *)
(* ===================================================================== *)

Lemma for_each_set_api_key {E} (items : list (pykey * pyval))
    (api : APIIntegrationManager.t E) env w :
  for_each items
    (fun kv api =>
       ret (APIIntegrationManager.set_api_key (fst kv) (snd kv) api))
    api env w
  = (Ret (APIIntegrationManager.set_api_keys
            (dict_update (APIIntegrationManager.api_keys api) items) api),
     env, w).
Proof.
  revert api. induction items as [|[k v] items IH]; intros api; simpl.
  - now destruct api.
  - unfold mbind, M_bind, bind, ret. fold (@ret (APIIntegrationManager.t E)).
    rewrite IH. reflexivity.
Qed.

(** X19.  An API key set through the controller is there after a restart.
    When the keys in memory are a dictionary with string keys and values
    that JSON has a notation for, [set_api_key(provider, api_key)] with no
    fault stores the key in memory and writes the whole dictionary to the
    preference ["api_keys"]; a controller that starts later with no keys
    of its own and runs [_load_api_keys], with no fault, has in memory
    exactly the dictionary that was saved. *)
Theorem api_keys_survive_a_restart {E : Type}
    (self fresh : ApplicationController.t E) (provider : string)
    (api_key : pyval) (t1 t2 : string) (w : World) :
  let keys :=
    APIIntegrationManager.api_keys (ApplicationController.api_integration self)
  in
  native_dict keys = true ->
  json_native api_key = true ->
  APIIntegrationManager.api_keys (ApplicationController.api_integration fresh)
  = [] ->
  let saved :=
    call (ApplicationController.set_api_key (KStr provider) api_key self)
         (quiet t1) w in
  let loaded :=
    call (ApplicationController._load_api_keys fresh) (quiet t2) saved.2 in
  exists self' fresh',
    saved.1 = Ret self'
    /\ APIIntegrationManager.api_keys
         (ApplicationController.api_integration self')
       = dict_set keys (KStr provider) api_key
    /\ loaded.1 = Ret fresh'
    /\ APIIntegrationManager.api_keys
         (ApplicationController.api_integration fresh')
       = dict_set keys (KStr provider) api_key.
Proof.
  intros keys Hn Hv Hfresh saved loaded.
  set (keys' := dict_set keys (KStr provider) api_key).
  assert (Hn' : native_dict keys' = true)
    by (apply dict_set_native; auto).
  assert (Hjn : json_native (PyDict keys') = true) by exact Hn'.
  destruct (dumps_loads_native _ Hjn) as (j & Hj & Hl).
  set (self' := ApplicationController.set_api_integration
                  (APIIntegrationManager.set_api_keys keys'
                     (ApplicationController.api_integration self)) self).
  assert (Hsaved : saved
                   = (Ret self',
                      set_database
                        (set_preferences (sql_replace (Some "api_keys") j)
                           (database w)) w)).
  { unfold saved, ApplicationController.set_api_key,
      ApplicationController._save_api_keys,
      APIIntegrationManager.set_api_key.
    fold keys. fold keys'.
    pose proof (save_preference_quiet "api_keys" (PyDict keys') t1 w) as Hs.
    rewrite Hj in Hs. unfold call in Hs |- *.
    unfold mbind, M_bind, bind, ret.
    cbn [ApplicationController.api_integration
           ApplicationController.set_api_integration
           APIIntegrationManager.api_keys APIIntegrationManager.set_api_keys].
    destruct (save_preference "api_keys" (PyDict keys') (quiet t1) w)
      as [[r env'] w'].
    injection Hs as -> ->. reflexivity. }
  assert (Hloaded : loaded.1
                    = Ret (ApplicationController.set_api_integration
                             (APIIntegrationManager.set_api_keys keys'
                                (ApplicationController.api_integration fresh))
                             fresh)).
  { unfold loaded. rewrite Hsaved. cbn [snd].
    unfold ApplicationController._load_api_keys.
    pose proof (load_preference_quiet "api_keys" (PyDict []) t2
                  (set_database
                     (set_preferences (sql_replace (Some "api_keys") j)
                        (database w)) w)) as Hload.
    cbn [database set_database set_preferences preferences] in Hload.
    rewrite select_value_replace, Hl in Hload.
    unfold call in Hload |- *. unfold mbind, M_bind, bind.
    destruct (load_preference "api_keys" (PyDict []) (quiet t2) _)
      as [[r env'] w'].
    injection Hload as -> ->. cbn [py_items lift].
    rewrite (for_each_set_api_key keys' _ env' _).
    unfold ret. cbn [fst]. rewrite Hfresh. do 4 f_equal.
    unfold dict_update. fold (dict_of_pairs keys').
    apply dict_of_pairs_distinct.
    unfold native_dict in Hn'.
    now apply andb_true_iff in Hn' as [[_ ?]%andb_true_iff _]. }
  eexists _, _. split; [now rewrite Hsaved|]. split; [reflexivity|].
  split; [exact Hloaded|reflexivity].
Qed.

Definition a_new_controller : ApplicationController.t unit :=
  {| ApplicationController.nlp_module :=
       {| NLPModule.context := PyList [];
          NLPModule.max_context_length := PyInt 10;
          NLPModule.current_provider := PyStr "gemini" |};
     ApplicationController.web_scraping_module :=
       {| WebScrapingModule.history := [] |};
     ApplicationController.data_analysis_module :=
       {| DataAnalysisModule.analysis_history := [] |};
     ApplicationController.api_integration :=
       {| APIIntegrationManager.api_keys := [];
          APIIntegrationManager.default_provider := PyStr "gemini";
          APIIntegrationManager.request_history := [] |} |}.

Lemma api_keys_survive_a_restart_witness :
  let saved :=
    call (ApplicationController.set_api_key (KStr "gemini") (PyStr "key-1")
            a_new_controller) (quiet "t1") new_world in
  let loaded :=
    call (ApplicationController._load_api_keys a_new_controller) (quiet "t2")
         saved.2 in
  exists fresh',
    loaded.1 = Ret fresh'
    /\ APIIntegrationManager.api_keys
         (ApplicationController.api_integration fresh')
       = [(KStr "gemini", PyStr "key-1")].
Proof.
  intros saved loaded.
  destruct (api_keys_survive_a_restart a_new_controller a_new_controller
              "gemini" (PyStr "key-1") "t1" "t2" new_world
              eq_refl eq_refl eq_refl)
    as (self' & fresh' & _ & _ & H3 & H4).
  exists fresh'. split; [exact H3|exact H4].
Defined.

(** X20.  A preference ["api_keys"] that is not an object stops
    [_load_api_keys].  When the table of preferences holds for
    ["api_keys"] a JSON text that does not decode to a dictionary (a list
    or a string, written by [save_preference] or brought by an import),
    [_load_api_keys], with no fault, raises [AttributeError]: the
    constructor of the controller, which calls it outside any [try], does
    not complete. *)
Theorem load_api_keys_needs_an_object {E : Type}
    (self : ApplicationController.t E) (j : json) (t : string) (w : World) :
  select_value (Some "api_keys") (preferences (database w)) = Some j ->
  is_dict (loads j) = false ->
  (call (ApplicationController._load_api_keys self) (quiet t) w).1
  = Raise AttributeError.
Proof.
  intros Hsel Hnd. unfold ApplicationController._load_api_keys.
  pose proof (load_preference_quiet "api_keys" (PyDict []) t w) as Hload.
  rewrite Hsel in Hload. unfold call in Hload |- *.
  unfold mbind, M_bind, bind.
  destruct (load_preference "api_keys" (PyDict []) (quiet t) w)
    as [[r env'] w'].
  injection Hload as -> ->.
  destruct (loads j); simpl in *; try reflexivity. discriminate.
Qed.

Lemma load_api_keys_needs_an_object_witness :
  let w := (call (save_preference "api_keys" (PyList [PyStr "key-1"]))
                 (quiet "t1") new_world).2 in
  (call (ApplicationController._load_api_keys a_new_controller) (quiet "t2")
        w).1
  = Raise AttributeError.
Proof.
  intros w.
  apply (load_api_keys_needs_an_object a_new_controller
           (JArr [JStr "key-1"]) "t2" w eq_refl eq_refl).
Defined.

(* ===================================================================== *)
(** ** Clearing through the controller *)
(* ===================================================================== *)

(** A clear of the store followed by the clearing of the memory when it
    answered [True]. *)
Lemma clear_then_forget {E : Type} (clear : M bool)
    (self cleared : ApplicationController.t E) env w :
  (exists b w', call clear env w = (Ret b, w')) ->
  let r := call (success ← clear;
                 if success : bool then ret (success, cleared)
                 else ret (success, self)) env w in
  exists b : bool,
    r.1 = Ret (b, if b then cleared else self)
    /\ call clear env w = (Ret b, r.2).
Proof.
  intros (b & w' & Hc) r. unfold r, call in *.
  unfold mbind, M_bind, bind.
  destruct (clear env w) as [[o env'] w'']. injection Hc as -> ->.
  exists b. destruct b; simpl; split; reflexivity.
Qed.

(** X21.  [clear_memory] of the controller clears the memory of a module
    exactly when the store cleared its category.  Whatever the faults, the
    call does not raise; what it does to the world and what it answers are
    what the clear of the store alone does and answers.  When the answer
    is [False] (a fault, or a type other than "all", "conversations",
    "scraping" and "analysis") the controller is as it was.  When the
    answer is [True], the context of the NLP module is empty for "all" and
    "conversations", the scraping history for "all" and "scraping", the
    analysis history for "all" and "analysis", the request history of the
    API manager for "all"; everything else in memory, the API keys among
    it, is as it was. *)
Theorem clear_memory_follows_the_store {E : Type}
    (memory_type : string) (self : ApplicationController.t E) (env : Env)
    (w : World) :
  let r := call (ApplicationController.clear_memory memory_type self) env w in
  let is_one_of (names : list string) :=
    existsb (String.eqb memory_type) names in
  exists b self',
    r.1 = Ret (b, self')
    /\ call (clear_memory memory_type) env w = (Ret b, r.2)
    /\ (b = false -> self' = self)
    /\ (b = true ->
        ApplicationController.nlp_module self'
        = (if is_one_of ["all"; "conversations"]
           then NLPModule.clear_context (ApplicationController.nlp_module self)
           else ApplicationController.nlp_module self)
        /\ WebScrapingModule.history
             (ApplicationController.web_scraping_module self')
           = (if is_one_of ["all"; "scraping"] then []
              else WebScrapingModule.history
                     (ApplicationController.web_scraping_module self))
        /\ DataAnalysisModule.analysis_history
             (ApplicationController.data_analysis_module self')
           = (if is_one_of ["all"; "analysis"] then []
              else DataAnalysisModule.analysis_history
                     (ApplicationController.data_analysis_module self))
        /\ APIIntegrationManager.request_history
             (ApplicationController.api_integration self')
           = (if is_one_of ["all"] then []
              else APIIntegrationManager.request_history
                     (ApplicationController.api_integration self))
        /\ APIIntegrationManager.api_keys
             (ApplicationController.api_integration self')
           = APIIntegrationManager.api_keys
               (ApplicationController.api_integration self)
        /\ APIIntegrationManager.default_provider
             (ApplicationController.api_integration self')
           = APIIntegrationManager.default_provider
               (ApplicationController.api_integration self)).
Proof.
  intros r is_one_of.
  assert (Hguard := fun clear H cleared =>
            @clear_then_forget E clear self cleared env w H).
  assert (Hnever : forall op, exists b w',
            call (exec op) env w = (Ret b, w')).
  { intros op.
    destruct (exec_spec (fun _ => True) ltac:(auto) ltac:(auto) ltac:(auto)
                ltac:(auto) ltac:(auto) ltac:(auto) ltac:(auto) ltac:(auto)
                (stdout w) op env w) as (b & w' & Hc & _).
    { split; [exact Logic.I|reflexivity]. }
    eauto. }
  assert (Hbool : forall (clear : M bool) op,
            exec op = returning PyBool clear ->
            exists b w', call clear env w = (Ret b, w')).
  { intros clear op Hop. destruct (Hnever op) as (v & w' & Hc).
    rewrite Hop, call_returning in Hc.
    destruct (call clear env w) as [[b|e] w'']; simpl in Hc;
      [|discriminate].
    injection Hc as _ <-. eauto. }
  unfold r, ApplicationController.clear_memory, clear_memory, is_one_of.
  cbn [existsb].
  destruct (String.eqb memory_type "all") eqn:Hall.
  { destruct (Hguard clear_all_data (Hbool _ ClearAllData eq_refl)
                (ApplicationController.set_api_integration
                   (APIIntegrationManager.clear_history
                      (ApplicationController.api_integration self))
                   (ApplicationController.set_data_analysis_module
                      (DataAnalysisModule.clear_history
                         (ApplicationController.data_analysis_module self))
                      (ApplicationController.set_web_scraping_module
                         (WebScrapingModule.clear_history
                            (ApplicationController.web_scraping_module self))
                         (ApplicationController.set_nlp_module
                            (NLPModule.clear_context
                               (ApplicationController.nlp_module self))
                            self)))))
      as (b & H1 & H2).
    exists b. eexists. split; [exact H1|]. split; [exact H2|].
    destruct b; split; try discriminate; try reflexivity.
    intros _. repeat split. }
  destruct (String.eqb memory_type "conversations") eqn:Hconv.
  { destruct (Hguard clear_conversation_data
                (Hbool _ ClearConversationData eq_refl)
                (ApplicationController.set_nlp_module
                   (NLPModule.clear_context
                      (ApplicationController.nlp_module self)) self))
      as (b & H1 & H2).
    exists b. eexists. split; [exact H1|]. split; [exact H2|].
    destruct b; split; try discriminate; try reflexivity.
    intros _. rewrite ?orb_false_r.
    destruct (String.eqb_spec memory_type "scraping") as [->|_];
      [discriminate|].
    destruct (String.eqb_spec memory_type "analysis") as [->|_];
      [discriminate|].
    repeat split. }
  destruct (String.eqb memory_type "scraping") eqn:Hscr.
  { destruct (Hguard clear_scraping_data (Hbool _ ClearScrapingData eq_refl)
                (ApplicationController.set_web_scraping_module
                   (WebScrapingModule.clear_history
                      (ApplicationController.web_scraping_module self)) self))
      as (b & H1 & H2).
    exists b. eexists. split; [exact H1|]. split; [exact H2|].
    destruct b; split; try discriminate; try reflexivity.
    intros _.
    destruct (String.eqb_spec memory_type "analysis") as [->|_];
      [discriminate|].
    repeat split. }
  destruct (String.eqb memory_type "analysis") eqn:Hana.
  { destruct (Hguard clear_analysis_data (Hbool _ ClearAnalysisData eq_refl)
                (ApplicationController.set_data_analysis_module
                   (DataAnalysisModule.clear_history
                      (ApplicationController.data_analysis_module self)) self))
      as (b & H1 & H2).
    exists b. eexists. split; [exact H1|]. split; [exact H2|].
    destruct b; split; try discriminate; try reflexivity.
    intros _. repeat split. }
  exists false, self. repeat split; try discriminate.
Qed.

(** X22.  Clearing all memory erases the stored API keys, not the keys in
    memory.  When [clear_memory("all")] answers [True], whatever the
    faults, the keys that the API manager holds are the ones it held, but
    the preference that kept them is gone with the other preferences: a
    controller that starts afterwards and runs [_load_api_keys], with no
    fault, loads nothing. *)
Theorem clear_all_forgets_the_stored_api_keys {E : Type}
    (self self' fresh : ApplicationController.t E) (env : Env) (t : string)
    (w : World) :
  (call (ApplicationController.clear_memory "all" self) env w).1
  = Ret (true, self') ->
  APIIntegrationManager.api_keys (ApplicationController.api_integration self')
  = APIIntegrationManager.api_keys (ApplicationController.api_integration self)
  /\ (call (ApplicationController._load_api_keys fresh) (quiet t)
            (call (ApplicationController.clear_memory "all" self) env w).2).1
     = Ret fresh.
Proof.
  unfold ApplicationController.clear_memory. cbn [String.eqb Ascii.eqb Bool.eqb].
  match goal with
  | |- (call (success ← clear_all_data;
              if success then ret (success, ?c) else _) env w).1 = _ -> _ =>
      set (cleared' := c)
  end.
  assert (Hex : exists b w', call clear_all_data env w = (Ret b, w')).
  { destruct (clear_all_data_effect env w) as [[_ H]|[_ [b H]]];
      destruct (call clear_all_data env w) as [o w']; simpl in H; subst o; eauto. }
  destruct (clear_then_forget clear_all_data self cleared' env w Hex)
    as (b & H1 & H2).
  intros Hr. rewrite H1 in Hr. injection Hr as -> <-.
  split; [reflexivity|].
  assert (Hdb : preferences
                  (database
                     (call (success ← clear_all_data;
                            if success : bool then ret (success, cleared')
                            else ret (success, self)) env w).2) = []).
  { destruct (clear_all_data_effect env w) as [[_ H]|[H _]];
      rewrite H2 in H; simpl in H; [discriminate|]. now rewrite H. }
  match goal with
  | |- (call _ (quiet t) ?x).1 = _ => set (w1 := x) in *
  end.
  clearbody w1. clear H1 H2.
  unfold ApplicationController._load_api_keys.
  pose proof (load_preference_quiet "api_keys" (PyDict []) t w1) as Hload.
  rewrite Hdb in Hload. simpl select_value in Hload.
  unfold call in Hload |- *. unfold mbind, M_bind, bind.
  destruct (load_preference "api_keys" (PyDict []) (quiet t) w1)
    as [[r env'] w''].
  injection Hload as -> ->. simpl. now destruct fresh.
Qed.

Lemma clear_all_forgets_the_stored_api_keys_witness :
  let saved :=
    call (ApplicationController.set_api_key (KStr "gemini") (PyStr "key-1")
            a_new_controller) (quiet "t1") new_world in
  exists self self',
    saved.1 = Ret self
    /\ (call (ApplicationController.clear_memory "all" self) (quiet "t2")
            saved.2).1 = Ret (true, self')
    /\ APIIntegrationManager.api_keys
         (ApplicationController.api_integration self')
       = [(KStr "gemini", PyStr "key-1")]
    /\ (call (ApplicationController._load_api_keys a_new_controller)
              (quiet "t3")
              (call (ApplicationController.clear_memory "all" self)
                    (quiet "t2") saved.2).2).1
       = Ret a_new_controller.
Proof.
  intros saved. eexists _, _.
  split; [vm_compute; reflexivity|].
  assert (H : forall self self',
            saved.1 = Ret self ->
            (call (ApplicationController.clear_memory "all" self) (quiet "t2")
                  saved.2).1 = Ret (true, self') ->
            APIIntegrationManager.api_keys
              (ApplicationController.api_integration self')
            = APIIntegrationManager.api_keys
                (ApplicationController.api_integration self)
            /\ (call (ApplicationController._load_api_keys a_new_controller)
                      (quiet "t3")
                      (call (ApplicationController.clear_memory "all" self)
                            (quiet "t2") saved.2).2).1
               = Ret a_new_controller).
  { intros self self' _ Hc.
    exact (clear_all_forgets_the_stored_api_keys self self' a_new_controller
             (quiet "t2") "t3" saved.2 Hc). }
  split; [vm_compute; reflexivity|].
  split; [vm_compute; reflexivity|].
  refine (proj2 (H _ _ _ _)); vm_compute; reflexivity.
Defined.
